(** * post-analysis: the analysis core of [src/app.py]

    A shallow embedding of [Application.validate_schema],
    [Application.analyze_posts] and [Application.__collect_daily_top_posts],
    together with the fragment of pandas these three methods call.

    Scope of the model.
    - A [DataFrame] is column-major, as in pandas: an index of integer labels
      (the unnamed integer index that [pd.read_csv] and [DataFrame.from_dict]
      produce, and the label subsets that [.loc] derives from it) and a list of
      named, typed columns.
    - Column dtypes are [int64], [bool] and [object]; the members of an
      [object] column are Python [str] values or the missing value NaN, which
      is what [pd.read_csv] stores there.  A [str] is a [string], one
      character per element, so [String.length] is Python's [len].
    - [np.int] and [np.object] are the aliases of the builtin [int] and
      [object]; compared with a numpy dtype they stand for [int64] (on the
      platforms where a C long has 64 bits) and [object].
    - The date/time parser behind [pd.to_datetime] is a parameter [parse]:
      for each string it answers with a timestamp, with NaT (the strings
      pandas reads as a missing value) or by raising.
    - [_VALID_COLUMNS] is a [frozenset]: the order in which [validate_schema]
      visits it is not fixed by the program, so it is a parameter [order],
      an arbitrary enumeration of the set. *)

From Stdlib Require Import List ZArith String Ascii Bool Lia Permutation Sorted.
Import ListNotations.

Open Scope string_scope.
Open Scope Z_scope.

(** ** Exceptions and results *)

Inductive dtype : Type := int64 | bool_ | object_.

Inductive exn : Type :=
| MissingColumnException (name : string)
| UnsupportedColumnTypeException (name : string) (expected actual : dtype)
| ParserError (s : string)
| ValueError (msg : string)
| KeyError (key : string)
| TypeError (msg : string)
| AttributeError (msg : string).

Inductive result (A : Type) : Type :=
| Ok (a : A)
| Raise (e : exn).

Arguments Ok {A} a.
Arguments Raise {A} e.

Definition bind {A B : Type} (r : result A) (k : A -> result B) : result B :=
  match r with
  | Ok a => k a
  | Raise e => Raise e
  end.

Notation "x <- r ;; k" := (bind r (fun x => k))
  (at level 61, r at next level, right associativity).

Fixpoint traverse {A B : Type} (f : A -> result B) (xs : list A) : result (list B) :=
  match xs with
  | [] => Ok []
  | x :: xs' => y <- f x ;; ys <- traverse f xs' ;; Ok (y :: ys)
  end.

(** ** The pandas fragment *)

Module Pandas.

(** Members of an [object] column. *)
Inductive pyobj : Type :=
| PyStr (s : string)
| PyNaN.

(** The values of a column, with their dtype. *)
Inductive values : Type :=
| Int64Values (xs : list Z)
| BoolValues (xs : list bool)
| ObjectValues (xs : list pyobj).

Definition dtype_of (v : values) : dtype :=
  match v with
  | Int64Values _ => int64
  | BoolValues _ => bool_
  | ObjectValues _ => object_
  end.

Definition dtype_eqb (a b : dtype) : bool :=
  match a, b with
  | int64, int64 | bool_, bool_ | object_, object_ => true
  | _, _ => false
  end.

Definition size (v : values) : nat :=
  match v with
  | Int64Values xs => List.length xs
  | BoolValues xs => List.length xs
  | ObjectValues xs => List.length xs
  end.

Record DataFrame : Type := mkDataFrame {
  df_index : list Z;
  df_columns : list (string * values)
}.

Definition column_names (df : DataFrame) : list string :=
  map fst (df_columns df).

(** [name in df.columns] *)
Definition has_column (df : DataFrame) (name : string) : bool :=
  existsb (String.eqb name) (column_names df).

Fixpoint find_column (name : string) (cols : list (string * values)) : option values :=
  match cols with
  | [] => None
  | (n, v) :: cols' => if String.eqb name n then Some v else find_column name cols'
  end.

(** [df[name]] *)
Definition getitem (df : DataFrame) (name : string) : result values :=
  match find_column name (df_columns df) with
  | Some v => Ok v
  | None => Raise (KeyError name)
  end.

Definition nrows (df : DataFrame) : nat := List.length (df_index df).

(** The frames the model speaks about: column names are unique and every
    column is as long as the index. *)
Definition wf_frame (df : DataFrame) : Prop :=
  NoDup (column_names df) /\
  Forall (fun c => size (snd c) = nrows df) (df_columns df).

(** *** Element-wise operations on a column *)

(** [series == s] for a [str] [s]: a value that is not that string compares
    unequal. *)
Definition eq_str (v : values) (s : string) : list bool :=
  match v with
  | Int64Values xs => map (fun _ => false) xs
  | BoolValues xs => map (fun _ => false) xs
  | ObjectValues xs =>
      map (fun o => match o with PyStr s' => String.eqb s' s | PyNaN => false end) xs
  end.

(** [series > k] for an [int] [k].  A [bool] counts as 0 or 1, NaN compares
    false, and a [str] cannot be ordered against an [int]. *)
Definition gt_int (v : values) (k : Z) : result (list bool) :=
  match v with
  | Int64Values xs => Ok (map (fun x => k <? x) xs)
  | BoolValues xs => Ok (map (fun b : bool => k <? (if b then 1 else 0)) xs)
  | ObjectValues xs =>
      traverse (fun o => match o with
                         | PyNaN => Ok false
                         | PyStr _ => Raise (TypeError "'>' not supported between 'str' and 'int'")
                         end) xs
  end.

(** [series.str.len()]: the accessor exists on [object] columns only; the
    length of a missing value is missing ([None]). *)
Definition str_len (v : values) : result (list (option nat)) :=
  match v with
  | ObjectValues xs =>
      Ok (map (fun o => match o with
                        | PyStr s => Some (String.length s)
                        | PyNaN => None
                        end) xs)
  | _ => Raise (AttributeError "Can only use .str accessor with string values")
  end.

(** [lengths < k]: a missing length compares false. *)
Definition lt_nat (lens : list (option nat)) (k : nat) : list bool :=
  map (fun l => match l with Some n => Nat.ltb n k | None => false end) lens.

(** [a & b] and [~a] on boolean columns over the same index. *)
Fixpoint and_ (a b : list bool) : list bool :=
  match a, b with
  | x :: a', y :: b' => (x && y)%bool :: and_ a' b'
  | _, _ => []
  end.

Definition invert (a : list bool) : list bool := map negb a.

(** *** Selection *)

(** Keep the positions where the mask is [True]. *)
Fixpoint mask_filter {A : Type} (m : list bool) (xs : list A) : list A :=
  match m, xs with
  | b :: m', x :: xs' => if b then x :: mask_filter m' xs' else mask_filter m' xs'
  | _, _ => []
  end.

Definition values_mask (m : list bool) (v : values) : values :=
  match v with
  | Int64Values xs => Int64Values (mask_filter m xs)
  | BoolValues xs => BoolValues (mask_filter m xs)
  | ObjectValues xs => ObjectValues (mask_filter m xs)
  end.

(** [df.loc[mask]] for a boolean column over [df]'s own index. *)
Definition loc_mask (df : DataFrame) (m : list bool) : DataFrame :=
  {| df_index := mask_filter m (df_index df);
     df_columns := map (fun c => (fst c, values_mask m (snd c))) (df_columns df) |}.

(** Select rows by position. *)
Definition take_list {A : Type} (ps : list nat) (xs : list A) : list A :=
  flat_map (fun p => match nth_error xs p with Some x => [x] | None => [] end) ps.

Definition values_take (ps : list nat) (v : values) : values :=
  match v with
  | Int64Values xs => Int64Values (take_list ps xs)
  | BoolValues xs => BoolValues (take_list ps xs)
  | ObjectValues xs => ObjectValues (take_list ps xs)
  end.

Definition take (df : DataFrame) (ps : list nat) : DataFrame :=
  {| df_index := take_list ps (df_index df);
     df_columns := map (fun c => (fst c, values_take ps (snd c))) (df_columns df) |}.

Fixpoint positions_from (p : nat) (l : Z) (idx : list Z) : list nat :=
  match idx with
  | [] => []
  | l' :: idx' =>
      if l =? l' then p :: positions_from (S p) l idx' else positions_from (S p) l idx'
  end.

(** The positions of the rows labelled [l]; a label that is not in the index
    is a [KeyError]. *)
Definition get_loc (idx : list Z) (l : Z) : result (list nat) :=
  match positions_from 0 l idx with
  | [] => Raise (KeyError "label not in index")
  | ps => Ok ps
  end.

(** [df.loc[labels]] for a list of labels: the rows carrying each label, in
    the order of the labels. *)
Definition loc_labels (df : DataFrame) (labels : list Z) : result DataFrame :=
  pss <- traverse (get_loc (df_index df)) labels ;;
  Ok (take df (List.concat pss)).

(** *** reset_index *)

Definition RangeIndex (n : nat) : list Z := map Z.of_nat (seq 0 n).

(** [df.reset_index()]: the (unnamed) index becomes the first column, called
    ["index"], or ["level_0"] when a column ["index"] exists; inserting a name
    that is taken is refused.  The new index is [0 .. n-1]. *)
Definition reset_index (df : DataFrame) : result DataFrame :=
  let name := if has_column df "index" then "level_0" else "index" in
  if has_column df name
  then Raise (ValueError "cannot insert, already exists")
  else Ok {| df_index := RangeIndex (nrows df);
             df_columns := (name, Int64Values (df_index df)) :: df_columns df |}.

(** *** to_datetime and date() *)

Inductive parsed : Type :=
| Timestamp (ns : Z)
| NaT
| Unparseable.

Definition ns_per_day : Z := 86400000000000.

(** [pd.to_datetime(series)] with the default [errors="raise"]: element by
    element, a missing value becomes NaT ([None]), the first string the parser
    rejects raises.  Integers are nanoseconds since the epoch; booleans are
    refused. *)
Definition to_datetime (parse : string -> parsed) (v : values) : result (list (option Z)) :=
  match v with
  | ObjectValues xs =>
      traverse (fun o => match o with
                         | PyNaN => Ok None
                         | PyStr s =>
                             match parse s with
                             | Timestamp ns => Ok (Some ns)
                             | NaT => Ok None
                             | Unparseable => Raise (ParserError s)
                             end
                         end) xs
  | Int64Values xs => Ok (map Some xs)
  | BoolValues _ => Raise (TypeError "bool is not convertible to datetime")
  end.

(** [x.date()]: the calendar day of a naive timestamp, as a day number;
    [NaT.date()] is NaT. *)
Definition date (x : option Z) : option Z :=
  option_map (fun ns => ns / ns_per_day) x.

(** *** groupby on one key column, and idxmax *)

Definition list_Z_eqb (a b : list Z) : bool :=
  if list_eq_dec Z.eq_dec a b then true else false.

Fixpoint mem_Z (x : Z) (l : list Z) : bool :=
  match l with
  | [] => false
  | y :: l' => (x =? y) || mem_Z x l'
  end.

Fixpoint is_unique (l : list Z) : bool :=
  match l with
  | [] => true
  | x :: l' => negb (mem_Z x l') && is_unique l'
  end.

Fixpoint lookup_label {A : Type} (l : Z) (idx : list Z) (vals : list (option A)) : option A :=
  match idx, vals with
  | l' :: idx', v :: vals' => if l =? l' then v else lookup_label l idx' vals'
  | _, _ => None
  end.

(** [series.reindex(axis)]: the value carried by each label of [axis], a
    missing value where the series has no such label; a series whose own
    index repeats a label cannot be reindexed. *)
Definition reindex {A : Type} (idx : list Z) (vals : list (option A)) (axis : list Z)
  : result (list (option A)) :=
  if is_unique idx
  then Ok (map (fun l => lookup_label l idx vals) axis)
  else Raise (ValueError "cannot reindex from a duplicate axis").

(** A key given as a Series is aligned with the grouped frame by label, not
    by position: it is used as it is only when its index equals the frame's. *)
Definition _convert_grouper {A : Type} (axis : list Z) (idx : list Z) (vals : list (option A))
  : result (list (option A)) :=
  if list_Z_eqb idx axis then Ok vals else reindex idx vals axis.

(** A grouped frame: the frame and, for each of its rows, the aligned key
    ([None]: a missing key, whose row belongs to no group). *)
Record DataFrameGroupBy : Type := mkGroupBy {
  gb_obj : DataFrame;
  gb_keys : list (option Z)
}.

(** [obj.groupby([key])] for a key Series with index [idx] and values [vals]. *)
Definition groupby (obj : DataFrame) (idx : list Z) (vals : list (option Z))
  : result DataFrameGroupBy :=
  keys <- _convert_grouper (df_index obj) idx vals ;;
  Ok {| gb_obj := obj; gb_keys := keys |}.

Fixpoint insert_key (k : Z) (ks : list Z) : list Z :=
  match ks with
  | [] => [k]
  | k' :: ks' =>
      if k <? k' then k :: ks
      else if k =? k' then ks
      else k' :: insert_key k ks'
  end.

(** The group keys: the distinct non-missing keys in ascending order
    ([sort=True]). *)
Fixpoint group_keys (keys : list (option Z)) : list Z :=
  match keys with
  | [] => []
  | Some k :: keys' => insert_key k (group_keys keys')
  | None :: keys' => group_keys keys'
  end.

Definition key_is (k : Z) (x : option Z) : bool :=
  match x with
  | Some k' => k =? k'
  | None => false
  end.

Fixpoint idxmax_from (best_label best : Z) (s : list (Z * Z)) : Z :=
  match s with
  | [] => best_label
  | (l, x) :: s' =>
      if best <? x then idxmax_from l x s' else idxmax_from best_label best s'
  end.

(** [series.idxmax()] on (label, value) pairs: the label of the first
    occurrence of the maximum. *)
Definition idxmax (s : list (Z * Z)) : result Z :=
  match s with
  | [] => Raise (ValueError "attempt to get argmax of an empty sequence")
  | (l, x) :: s' => Ok (idxmax_from l x s')
  end.

(** [grouped[name].idxmax()]: for each group, in key order, the label (in the
    grouped frame) of the row holding the group's maximum of column [name]. *)
Definition groupby_idxmax (g : DataFrameGroupBy) (name : string) : result (list Z) :=
  v <- getitem (gb_obj g) name ;;
  match v with
  | Int64Values xs =>
      let labelled := combine (df_index (gb_obj g)) xs in
      traverse (fun k => idxmax (mask_filter (map (key_is k) (gb_keys g)) labelled))
               (group_keys (gb_keys g))
  | BoolValues _ | ObjectValues _ =>
      Raise (TypeError "idxmax of a column that is not numeric")
  end.

End Pandas.

Import Pandas.

(** ** [src/app.py] *)

Definition C_ID := "id".
Definition C_TITLE := "title".
Definition C_PRIVACY := "privacy".
Definition C_LIKES := "likes".
Definition C_VIEWS := "views".
Definition C_COMMENTS := "comments".
Definition C_TIMESTAMP := "timestamp".

Definition np_int : dtype := int64.
Definition np_object : dtype := object_.

(** The elements of the frozenset, in the order of the literal. *)
Definition _VALID_COLUMNS : list (string * dtype) :=
  [ (C_ID, np_int);
    (C_TITLE, np_object);
    (C_PRIVACY, np_object);
    (C_LIKES, np_int);
    (C_VIEWS, np_int);
    (C_COMMENTS, np_int);
    (C_TIMESTAMP, np_object) ].

Definition MIN_NUM_COMMENTS : Z := 10.
Definition MIN_NUM_VIEWS : Z := 9000.
Definition MAX_NUM_TITLE_CHARS : nat := 40.
Definition PRIVACY_TYPE := "public".

(** [Application.validate_schema]; [order] is the order in which the loop
    receives the elements of [_VALID_COLUMNS]. *)
Fixpoint validate_schema (order : list (string * dtype)) (df : DataFrame) : result unit :=
  match order with
  | [] => Ok tt
  | (name, dt) :: rest =>
      if negb (has_column df name)
      then Raise (MissingColumnException name)
      else
        v <- getitem df name ;;
        if negb (dtype_eqb (dtype_of v) dt)
        then Raise (UnsupportedColumnTypeException name dt (dtype_of v))
        else validate_schema rest df
  end.

(** The boolean column [condition] of [analyze_posts]. *)
Definition condition (posts_df : DataFrame) : result (list bool) :=
  privacy <- getitem posts_df C_PRIVACY ;;
  comments <- getitem posts_df C_COMMENTS ;;
  many_comments <- gt_int comments MIN_NUM_COMMENTS ;;
  views <- getitem posts_df C_VIEWS ;;
  many_views <- gt_int views MIN_NUM_VIEWS ;;
  title <- getitem posts_df C_TITLE ;;
  lens <- str_len title ;;
  Ok (and_ (and_ (and_ (eq_str privacy PRIVACY_TYPE) many_comments) many_views)
           (lt_nat lens MAX_NUM_TITLE_CHARS)).

(** [Application.__collect_daily_top_posts] *)
Definition __collect_daily_top_posts (parse : string -> parsed) (df : DataFrame)
  : result DataFrame :=
  reset <- reset_index df ;;
  timestamps <- getitem df C_TIMESTAMP ;;
  datetimes <- to_datetime parse timestamps ;;
  groupby_timestamp <- groupby reset (df_index df) (map date datetimes) ;;
  labels <- groupby_idxmax groupby_timestamp C_LIKES ;;
  loc_labels df labels.

(** [Application.analyze_posts] *)
Definition analyze_posts (parse : string -> parsed) (order : list (string * dtype))
    (posts_df : DataFrame) : result (DataFrame * DataFrame * DataFrame) :=
  _ <- validate_schema order posts_df ;;
  cond <- condition posts_df ;;
  let top_posts_df := loc_mask posts_df cond in
  let other_posts_df := loc_mask posts_df (invert cond) in
  daily_top_posts_df <- __collect_daily_top_posts parse top_posts_df ;;
  Ok (top_posts_df, other_posts_df, daily_top_posts_df).

(** ** Rows

    The claims speak of rows; a frame is read row by row here.  A row is its
    index label and, for each column in column order, the member it holds
    ([None] only if the column is shorter than the index). *)

Inductive cell : Type :=
| CInt (z : Z)
| CBool (b : bool)
| CObj (o : pyobj).

Definition cells (v : values) : list cell :=
  match v with
  | Int64Values xs => map CInt xs
  | BoolValues xs => map CBool xs
  | ObjectValues xs => map CObj xs
  end.

Record Row : Type := mkRow {
  row_label : Z;
  row_fields : list (string * option cell)
}.

Fixpoint rows_of (idx : list Z) (cols : list (string * list cell)) : list Row :=
  match idx with
  | [] => []
  | l :: idx' =>
      mkRow l (map (fun c => (fst c, hd_error (snd c))) cols)
      :: rows_of idx' (map (fun c => (fst c, tl (snd c))) cols)
  end.

Definition cell_columns (df : DataFrame) : list (string * list cell) :=
  map (fun c => (fst c, cells (snd c))) (df_columns df).

Fixpoint find_cells (name : string) (cols : list (string * list cell)) : option (list cell) :=
  match cols with
  | [] => None
  | (n, cs) :: cols' => if String.eqb name n then Some cs else find_cells name cols'
  end.

Definition rows (df : DataFrame) : list Row :=
  rows_of (df_index df) (cell_columns df).

Fixpoint lookup_field (name : string) (fs : list (string * option cell)) : option cell :=
  match fs with
  | [] => None
  | (n, c) :: fs' => if String.eqb name n then c else lookup_field name fs'
  end.

Definition field (r : Row) (name : string) : option cell :=
  lookup_field name (row_fields r).

(** The ids of a frame, row by row. *)
Definition ids (df : DataFrame) : list (option cell) :=
  map (fun r => field r C_ID) (rows df).

(** The names and dtypes of a frame's columns. *)
Definition schema (df : DataFrame) : list (string * dtype) :=
  map (fun c => (fst c, dtype_of (snd c))) (df_columns df).

(** [l1] is [l2] with some elements left out, the others in their order. *)
Inductive subseq {A : Type} : list A -> list A -> Prop :=
| subseq_nil : subseq [] []
| subseq_skip x l1 l2 : subseq l1 l2 -> subseq l1 (x :: l2)
| subseq_keep x l1 l2 : subseq l1 l2 -> subseq (x :: l1) (x :: l2).

(** ** The predicate of the specification (section 4.2), row by row

    [is_top(row) := row.privacy == "public" AND row.comments > 10
                    AND row.views > 9000 AND length(row.title) < 40] *)

Definition spec_is_top (r : Row) : Prop :=
  field r "privacy" = Some (CObj (PyStr "public")) /\
  (exists c, field r "comments" = Some (CInt c) /\ c > 10) /\
  (exists v, field r "views" = Some (CInt v) /\ v > 9000) /\
  (exists t, field r "title" = Some (CObj (PyStr t)) /\ (String.length t < 40)%nat).

(** The same predicate as a boolean function. *)
Definition privacy_ok (c : option cell) : bool :=
  match c with
  | Some (CObj (PyStr p)) => String.eqb p "public"
  | _ => false
  end.

Definition more_than (k : Z) (c : option cell) : bool :=
  match c with
  | Some (CInt z) => k <? z
  | _ => false
  end.

Definition title_ok (c : option cell) : bool :=
  match c with
  | Some (CObj (PyStr t)) => (String.length t <? 40)%nat
  | _ => false
  end.

Definition is_top (r : Row) : bool :=
  privacy_ok (field r "privacy") && more_than 10 (field r "comments")
  && more_than 9000 (field r "views") && title_ok (field r "title").

(** ** The daily top posts of the specification (sections 3 and 4.3)

    The day of a row is the calendar day of its parsed timestamp; a row
    is the top post of a day among [top] when it is of that day, no row of
    that day before it has as many likes, and no row of that day after it
    has more.  [daily] is the daily-top table of [top] when its rows are rows
    of [top], each of a day, and every day of [top] has exactly one row in
    [daily], the top post of that day. *)

Definition row_day (parse : string -> parsed) (r : Row) : option Z :=
  match field r "timestamp" with
  | Some (CObj (PyStr s)) =>
      match parse s with
      | Timestamp ns => Some (ns / ns_per_day)
      | _ => None
      end
  | _ => None
  end.

Definition row_likes (r : Row) : Z :=
  match field r "likes" with
  | Some (CInt z) => z
  | _ => 0
  end.

Definition spec_top_of_day (parse : string -> parsed) (top : list Row) (day : Z) (r : Row)
  : Prop :=
  row_day parse r = Some day /\
  exists before after,
    top = (before ++ r :: after)%list /\
    (forall r', In r' before -> row_day parse r' = Some day -> row_likes r' < row_likes r) /\
    (forall r', In r' after -> row_day parse r' = Some day -> row_likes r' <= row_likes r).

Definition spec_daily_top (parse : string -> parsed) (top daily : list Row) : Prop :=
  (forall r, In r daily -> In r top) /\
  (forall r, In r daily -> exists day, row_day parse r = Some day) /\
  NoDup daily /\
  (forall day,
      (exists r, In r top /\ row_day parse r = Some day) ->
      exists r,
        In r daily /\ spec_top_of_day parse top day r /\
        (forall r', In r' daily -> row_day parse r' = Some day -> r' = r)).

(** What [to_datetime] makes of a member when it raises nothing. *)
Definition datetime_of (parse : string -> parsed) (o : pyobj) : option Z :=
  match o with
  | PyStr s => match parse s with Timestamp ns => Some ns | _ => None end
  | PyNaN => None
  end.

(** The first row of [r :: rs] with the most likes. *)
Fixpoint best_from (best : Row) (rs : list Row) : Row :=
  match rs with
  | [] => best
  | r :: rs' =>
      if row_likes best <? row_likes r then best_from r rs' else best_from best rs'
  end.

(** [b] is the first row with the most likes among the rows of day [k]. *)
Definition best_of_day (parse : string -> parsed) (top : list Row) (k : Z) (b : Row) : Prop :=
  exists r rs,
    filter (fun r' => key_is k (row_day parse r')) top = r :: rs /\ b = best_from r rs.

(** A required column is present with its declared dtype. *)
Definition column_ok (df : DataFrame) (c : string * dtype) : Prop :=
  exists v, find_column (fst c) (df_columns df) = Some v /\ dtype_of v = snd c.

Definition column_okb (df : DataFrame) (c : string * dtype) : bool :=
  match find_column (fst c) (df_columns df) with
  | Some v => dtype_eqb (dtype_of v) (snd c)
  | None => false
  end.

(** [reset_index] has a free name for the column it inserts. *)
Definition no_index_clash (df : DataFrame) : Prop :=
  has_column df (if has_column df "index" then "level_0" else "index") = false.

(** The error [validate_schema] reports for a required column that is not
    as declared. *)
Definition column_error (df : DataFrame) (c : string * dtype) : exn :=
  match find_column (fst c) (df_columns df) with
  | None => MissingColumnException (fst c)
  | Some v => UnsupportedColumnTypeException (fst c) (snd c) (dtype_of v)
  end.

(** The first required column, in the order of the schema (id, title,
    privacy, likes, views, comments, timestamp), that [df] does not have. *)
Definition spec_first_missing (df : DataFrame) : option string :=
  match filter (fun c => negb (has_column df (fst c))) _VALID_COLUMNS with
  | [] => None
  | c :: _ => Some (fst c)
  end.

(** ** Sample tables *)

(** A table of posts with the seven columns, as [pd.read_csv] loads it. *)
Definition posts_table (id : list Z) (title privacy : list pyobj) (likes views comments : list Z)
    (timestamp : list pyobj) : DataFrame :=
  {| df_index := RangeIndex (List.length id);
     df_columns :=
       [ (C_ID, Int64Values id);
         (C_TITLE, ObjectValues title);
         (C_PRIVACY, ObjectValues privacy);
         (C_LIKES, Int64Values likes);
         (C_VIEWS, Int64Values views);
         (C_COMMENTS, Int64Values comments);
         (C_TIMESTAMP, ObjectValues timestamp) ] |}.

(** A parser that knows three timestamps (nanoseconds since the epoch), reads
    the empty string as NaT and rejects every other string. *)
Definition sample_parse (s : string) : parsed :=
  if String.eqb s "2015-10-16 08:00:00" then Timestamp 1444982400000000000
  else if String.eqb s "2015-10-16 23:42:44" then Timestamp 1445038964000000000
  else if String.eqb s "2015-10-17 09:30:00" then Timestamp 1445074200000000000
  else if String.eqb s "" then NaT
  else Unparseable.

Definition title40 : string := "0123456789012345678901234567890123456789".

(** Five posts: one private, two top posts of the same day, one with exactly
    10 comments, one with a title of exactly 40 characters. *)
Definition sample_posts : DataFrame :=
  posts_table
    [1; 2; 3; 4; 5]
    [PyStr "hello"; PyStr "first"; PyStr "second"; PyStr "third"; PyStr title40]
    [PyStr "private"; PyStr "public"; PyStr "public"; PyStr "public"; PyStr "public"]
    [7; 5; 10; 3; 1]
    [10000; 10000; 10000; 9001; 9500]
    [11; 11; 11; 10; 12]
    [PyStr "2015-10-16 08:00:00"; PyStr "2015-10-16 08:00:00"; PyStr "2015-10-16 23:42:44";
     PyStr "not a date"; PyStr "2015-10-17 09:30:00"].

(** Three posts: a private one, then two top posts of 16 October 2015 with 5
    and 10 likes. *)
Definition misaligned_posts : DataFrame :=
  posts_table
    [1; 2; 3]
    [PyStr "zero"; PyStr "five"; PyStr "ten"]
    [PyStr "private"; PyStr "public"; PyStr "public"]
    [7; 5; 10]
    [10000; 10000; 10000]
    [11; 11; 11]
    [PyStr "2015-10-16 08:00:00"; PyStr "2015-10-16 08:00:00"; PyStr "2015-10-16 23:42:44"].

(** Two top posts of 16 October 2015 with 5 and 10 likes, and nothing before
    them. *)
Definition aligned_posts : DataFrame :=
  posts_table
    [2; 3]
    [PyStr "five"; PyStr "ten"]
    [PyStr "public"; PyStr "public"]
    [5; 10]
    [10000; 10000]
    [11; 11]
    [PyStr "2015-10-16 08:00:00"; PyStr "2015-10-16 23:42:44"].

(** A private post, then one top post. *)
Definition late_top_post : DataFrame :=
  posts_table
    [1; 2]
    [PyStr "zero"; PyStr "five"]
    [PyStr "private"; PyStr "public"]
    [7; 5]
    [10000; 10000]
    [11; 11]
    [PyStr "2015-10-16 08:00:00"; PyStr "2015-10-17 09:30:00"].

(** One top post with an empty timestamp. *)
Definition blank_timestamp_post : DataFrame :=
  posts_table [1] [PyStr "hello"] [PyStr "public"] [3] [10000] [11] [PyStr ""].

(** One top post whose timestamp is not a date. *)
Definition undated_post : DataFrame :=
  posts_table [1] [PyStr "hello"] [PyStr "public"] [3] [10000] [11] [PyStr "not a date"].

(** A private post whose timestamp is not a date, then three top posts: one
    of 16 October 2015 and two whose timestamps are not dates. *)
Definition two_undated_posts : DataFrame :=
  posts_table
    [1; 2; 3; 4]
    [PyStr "zero"; PyStr "one"; PyStr "two"; PyStr "three"]
    [PyStr "private"; PyStr "public"; PyStr "public"; PyStr "public"]
    [7; 5; 10; 3]
    [10000; 10000; 10000; 10000]
    [11; 11; 11; 11]
    [PyStr "never"; PyStr "2015-10-16 08:00:00"; PyStr "first bad"; PyStr "second bad"].

(** Three top posts: one of 16 October 2015 with 5 likes, one with a missing
    timestamp and 50 likes, one with an empty timestamp and 70 likes. *)
Definition missing_timestamp_posts : DataFrame :=
  posts_table
    [1; 2; 3]
    [PyStr "five"; PyStr "fifty"; PyStr "seventy"]
    [PyStr "public"; PyStr "public"; PyStr "public"]
    [5; 50; 70]
    [10000; 10000; 10000]
    [11; 11; 11]
    [PyStr "2015-10-16 08:00:00"; PyNaN; PyStr ""].

(** The table with the seven columns and no rows. *)
Definition empty_posts : DataFrame := posts_table [] [] [] [] [] [] [].

(** [df] with further columns after its own. *)
Definition with_columns (df : DataFrame) (extra : list (string * values)) : DataFrame :=
  {| df_index := df_index df; df_columns := df_columns df ++ extra |}.

(** The sample with a column that is not required. *)
Definition sample_posts_author : DataFrame :=
  with_columns sample_posts
    [("author", ObjectValues [PyStr "ann"; PyStr "bob"; PyNaN; PyStr "dan"; PyStr "eve"])].

(** Two more columns, called ["index"] and ["level_0"]. *)
Definition undated_post_clash : DataFrame :=
  with_columns undated_post [("index", Int64Values [0]); ("level_0", Int64Values [0])].

Definition empty_posts_clash : DataFrame :=
  with_columns empty_posts [("index", Int64Values []); ("level_0", Int64Values [])].

(** No title column, and an id column of booleans. *)
Definition bool_id_no_title : DataFrame :=
  {| df_index := RangeIndex 1;
     df_columns :=
       [ (C_ID, BoolValues [true]);
         (C_PRIVACY, ObjectValues [PyStr "public"]);
         (C_LIKES, Int64Values [1]);
         (C_VIEWS, Int64Values [1]);
         (C_COMMENTS, Int64Values [1]);
         (C_TIMESTAMP, ObjectValues [PyStr "2015-10-16 23:42:44"]) ] |}.

(** Neither an id nor a title column. *)
Definition no_id_no_title : DataFrame :=
  {| df_index := RangeIndex 1;
     df_columns :=
       [ (C_PRIVACY, ObjectValues [PyStr "public"]);
         (C_LIKES, Int64Values [1]);
         (C_VIEWS, Int64Values [1]);
         (C_COMMENTS, Int64Values [1]);
         (C_TIMESTAMP, ObjectValues [PyStr "2015-10-16 23:42:44"]) ] |}.

(** An enumeration of [_VALID_COLUMNS] that starts with the title. *)
Definition title_first : list (string * dtype) :=
  [ (C_TITLE, np_object);
    (C_ID, np_int);
    (C_PRIVACY, np_object);
    (C_LIKES, np_int);
    (C_VIEWS, np_int);
    (C_COMMENTS, np_int);
    (C_TIMESTAMP, np_object) ].

Definition empty_values (dt : dtype) : values :=
  match dt with
  | int64 => Int64Values []
  | bool_ => BoolValues []
  | object_ => ObjectValues []
  end.

Definition missing_for (name : string) : string :=
  if String.eqb name C_TITLE then C_ID else C_TITLE.

(** A table without rows in which the required column [name] holds
    booleans, one other required column (the title, or the id when [name] is
    the title) is absent, and the remaining required columns are as
    declared. *)
Definition mistyped_table (name : string) : DataFrame :=
  {| df_index := [];
     df_columns :=
       (name, BoolValues [])
       :: map (fun c => (fst c, empty_values (snd c)))
            (filter (fun c => negb (String.eqb (fst c) name)
                              && negb (String.eqb (fst c) (missing_for name)))
                    _VALID_COLUMNS) |}.

(** A post with a negative number of likes. *)
Definition negative_likes : DataFrame :=
  posts_table [1] [PyStr "hello"] [PyStr "public"] [-3] [10000] [11]
              [PyStr "2015-10-16 23:42:44"].

(** Two private posts whose timestamps are not dates, and a post with a
    missing title. *)
Definition private_posts : DataFrame :=
  posts_table
    [1; 2; 3]
    [PyStr "one"; PyStr "two"; PyNaN]
    [PyStr "private"; PyStr "private"; PyStr "public"]
    [7; 5; 9]
    [10000; 10000; 10000]
    [11; 11; 11]
    [PyStr "yesterday"; PyStr "not a date"; PyStr "2015-10-16 08:00:00"].

(** ** Paths: [pathlib], POSIX flavour

    A path is its root (empty, ["/"] or ["//"]) and its names.  Parsing a
    string drops empty components and ["."]; [".."] is kept. *)

Module Pathlib.

Definition sep : ascii := "/"%char.

(** [s.split("/")] *)
Fixpoint split (s : string) : list string :=
  match s with
  | EmptyString => [EmptyString]
  | String c s' =>
      if Ascii.eqb c sep then EmptyString :: split s'
      else match split s' with
           | x :: xs => String c x :: xs
           | [] => [String c EmptyString]
           end
  end.

(** [s.lstrip("/")] *)
Fixpoint lstrip (s : string) : string :=
  match s with
  | EmptyString => EmptyString
  | String c s' => if Ascii.eqb c sep then lstrip s' else s
  end.

(** The root of a part and the rest of it: exactly two leading slashes are a
    root of their own. *)
Definition splitroot (part : string) : string * string :=
  match part with
  | String c _ =>
      if Ascii.eqb c sep
      then
        let stripped := lstrip part in
        if Nat.eqb (String.length part - String.length stripped) 2
        then ("//", stripped)
        else ("/", stripped)
      else ("", part)
  | EmptyString => ("", part)
  end.

Definition is_name (x : string) : bool :=
  negb (String.eqb x "") && negb (String.eqb x ".").

Record PurePath : Type := mkPath {
  root : string;
  names : list string
}.

(** [Path(s)] *)
Definition Path (s : string) : PurePath :=
  let (r, rel) := splitroot s in
  {| root := r; names := filter is_name (split rel) |}.

(** [self / key] for a string [key]: a key with a root replaces [self]. *)
Definition truediv (self : PurePath) (key : string) : PurePath :=
  let other := Path key in
  if String.eqb (root other) ""
  then {| root := root self; names := (names self ++ names other)%list |}
  else other.

(** [str(path)] *)
Definition str (p : PurePath) : string :=
  if String.eqb (root p) ""
  then match names p with
       | [] => "."
       | _ => String.concat "/" (names p)
       end
  else root p ++ String.concat "/" (names p).

End Pathlib.

(** ** The rest of [src/app.py]: loading, writing, logging *)

Definition _CSV_FORMAT := "csv".
Definition JSON_FORMAT := "json".
Definition DEFAULT_OUTPUT_FORMAT := _CSV_FORMAT.
Definition VALID_FILE_FORMATS : list string := [DEFAULT_OUTPUT_FORMAT; JSON_FORMAT].

Definition _TOP_POSTS_FILE_NAME := "top_posts".
Definition _OTHER_POSTS_FILE_NAME := "other_posts".
Definition _DAILY_TOP_POSTS_FILE_NAME := "daily_top_posts".

Definition _format_path (base_path : Pathlib.PurePath) (file_name file_format : string)
  : string :=
  Pathlib.str (Pathlib.truediv base_path (file_name ++ "." ++ file_format)).

(** [str.casefold] on the ASCII letters (the names of formats are ASCII). *)
Definition casefold_ascii (c : ascii) : ascii :=
  let n := nat_of_ascii c in
  if Nat.leb 65 n && Nat.leb n 90 then ascii_of_nat (n + 32) else c.

Fixpoint casefold (s : string) : string :=
  match s with
  | EmptyString => EmptyString
  | String c s' => String (casefold_ascii c) (casefold s')
  end.

(** [str.isascii]: on such strings [casefold] above is Python's. *)
Fixpoint isascii (s : string) : bool :=
  match s with
  | EmptyString => true
  | String c s' => Nat.ltb (nat_of_ascii c) 128 && isascii s'
  end.

(** What a writer is given: a frame, or one column of it.  Neither writer
    stores the index ([index=False], [orient="records"]). *)
Inductive Payload : Type :=
| Records (columns : list (string * values))
| Column (name : string) (v : values).

(** A written file: by [to_csv], or by [to_json] with its [lines] flag. *)
Inductive Document : Type :=
| CsvFile (p : Payload)
| JsonFile (lines : bool) (p : Payload).

(** The world a run acts on: the files written so far, most recent first,
    and the calls made to [logging.log]. *)
Record World : Type := mkWorld {
  files : list (string * Document);
  logged : list (Z * string)
}.

Inductive raised : Type :=
| AnalysisError (e : exn)
| EnvironmentError (what : string).

Inductive outcome (A : Type) : Type :=
| Returned (a : A)
| Raised (e : raised).

Arguments Returned {A} a.
Arguments Raised {A} e.

(** What the run does not decide: what [pd.read_csv] makes of a path, and
    whether a path can be written to. *)
Record Env : Type := mkEnv {
  read_csv : string -> outcome DataFrame;
  write_error : string -> option string
}.

Definition program (A : Type) : Type := World -> World * outcome A.

Definition ret {A : Type} (a : A) : program A := fun w => (w, Returned a).

Definition io_bind {A B : Type} (p : program A) (k : A -> program B) : program B :=
  fun w =>
    match p w with
    | (w', Returned a) => k a w'
    | (w', Raised e) => (w', Raised e)
    end.

Notation "x <~ p ;; k" := (io_bind p (fun x => k))
  (at level 61, p at next level, right associativity).

Definition lift {A : Type} (r : result A) : program A :=
  fun w =>
    match r with
    | Ok a => (w, Returned a)
    | Raise e => (w, Raised (AnalysisError e))
    end.

Definition from_env {A : Type} (o : outcome A) : program A := fun w => (w, o).

Fixpoint read_file (fs : list (string * Document)) (path : string) : option Document :=
  match fs with
  | [] => None
  | (p, d) :: fs' => if String.eqb path p then Some d else read_file fs' path
  end.

Definition write_file (env : Env) (path : string) (doc : Document) : program unit :=
  fun w =>
    match write_error env path with
    | Some what => (w, Raised (EnvironmentError what))
    | None =>
        ({| files := (path, doc)
                     :: filter (fun f => negb (String.eqb (fst f) path)) (files w);
            logged := logged w |},
         Returned tt)
    end.

(** [payload.to_csv(path, index=False)] *)
Definition to_csv (env : Env) (payload : Payload) (path : string) : program unit :=
  write_file env path (CsvFile payload).

(** [payload.to_json(path, orient="records", lines=lines)] *)
Definition to_json (env : Env) (payload : Payload) (path : string) (lines : bool)
  : program unit :=
  write_file env path (JsonFile lines payload).

Definition INFO : Z := 20.

(** [Union[Path, str]] *)
Inductive PathLike : Type :=
| AsStr (s : string)
| AsPath (p : Pathlib.PurePath).

Abbreviation core_validate_schema := validate_schema (only parsing).

Abbreviation core_collect_daily_top_posts := __collect_daily_top_posts (only parsing).

Module Application.

Record t : Type := __init__ { verbose : bool }.

(** [Application.__log] *)
Definition __log (self : t) (level : Z) (msg : string) : program unit :=
  fun w =>
    if verbose self
    then ({| files := files w; logged := (logged w ++ [(level, msg)])%list |}, Returned tt)
    else (w, Returned tt).

(** [Application.load_posts] *)
Definition load_posts (self : t) (env : Env) (posts_path : PathLike) : program DataFrame :=
  let path := match posts_path with AsPath p => Pathlib.str p | AsStr s => s end in
  _ <~ __log self INFO ("Loading the posts from " ++ path) ;;
  from_env (read_csv env (match posts_path with AsPath p => Pathlib.str p | AsStr s => s end)).

(** [Application.validate_schema], with its log call. *)
Definition validate_schema (self : t) (order : list (string * dtype)) (df : DataFrame)
  : program unit :=
  _ <~ __log self INFO "Validating the schema of the DataFrame..." ;;
  lift (core_validate_schema order df).

(** [Application.__collect_daily_top_posts], with its log call. *)
Definition __collect_daily_top_posts (self : t) (parse : string -> parsed) (df : DataFrame)
  : program DataFrame :=
  _ <~ __log self INFO "Collecting top posts for each day..." ;;
  lift (core_collect_daily_top_posts parse df).

(** [Application.analyze_posts], with the log calls of the methods it calls. *)
Definition analyze_posts (self : t) (parse : string -> parsed)
    (order : list (string * dtype)) (posts_df : DataFrame)
  : program (DataFrame * DataFrame * DataFrame) :=
  _ <~ validate_schema self order posts_df ;;
  cond <~ lift (condition posts_df) ;;
  let top_posts_df := loc_mask posts_df cond in
  let other_posts_df := loc_mask posts_df (invert cond) in
  daily_top_posts_df <~ __collect_daily_top_posts self parse top_posts_df ;;
  ret (top_posts_df, other_posts_df, daily_top_posts_df).

(** [Application.__write_df] *)
Definition __write_df (self : t) (env : Env) (df : DataFrame)
    (output_dir_path : Pathlib.PurePath) (output_file_name output_format : string)
    (include_full_record json_record_per_line : bool) : program unit :=
  payload <~ (if negb include_full_record
              then
                _ <~ __log self INFO "Outputting 'id' column only..." ;;
                ids <~ lift (getitem df C_ID) ;;
                ret (Column C_ID ids)
              else ret (Records (df_columns df))) ;;
  _ <~ __log self INFO ("Output format: " ++ output_format) ;;
  let output_path := _format_path output_dir_path output_file_name output_format in
  _ <~ __log self INFO ("Output path: " ++ output_path) ;;
  if String.eqb (casefold output_format) DEFAULT_OUTPUT_FORMAT
  then to_csv env payload output_path
  else
    _ <~ (if json_record_per_line
          then __log self INFO "Each record will be written as a JSON entity in each line."
          else __log self INFO "The records will be written as a JSON array.") ;;
    to_json env payload output_path json_record_per_line.

(** [Application.run] *)
Definition run (self : t) (env : Env) (parse : string -> parsed)
    (order : list (string * dtype)) (posts_path output_dir_path : PathLike)
    (output_format : string) (include_full_record json_record_per_line : bool)
  : program unit :=
  df <~ load_posts self env posts_path ;;
  tables <~ analyze_posts self parse order df ;;
  let '(top_posts_df, other_posts_df, daily_top_posts_df) := tables in
  let output_dir :=
    match output_dir_path with AsPath p => p | AsStr s => Pathlib.Path s end in
  _ <~ __write_df self env top_posts_df output_dir _TOP_POSTS_FILE_NAME
         output_format include_full_record json_record_per_line ;;
  _ <~ __write_df self env other_posts_df output_dir _OTHER_POSTS_FILE_NAME
         output_format include_full_record json_record_per_line ;;
  __write_df self env daily_top_posts_df output_dir _DAILY_TOP_POSTS_FILE_NAME
    output_format include_full_record json_record_per_line.

End Application.

(** [s] has no ["/"] in it. *)
Fixpoint no_sep (s : string) : bool :=
  match s with
  | EmptyString => true
  | String c s' => negb (Ascii.eqb c Pathlib.sep) && no_sep s'
  end.

(** The directory part of the string of a path, up to and including the
    separator before a name added to it. *)
Definition dir_prefix (p : Pathlib.PurePath) : string :=
  match Pathlib.names p with
  | [] => Pathlib.root p
  | _ => Pathlib.str p ++ "/"
  end.

(** What [__write_df] hands to the writer, and the file the writer makes. *)
Definition payload_of (include_full_record : bool) (df : DataFrame) : result Payload :=
  if include_full_record
  then Ok (Records (df_columns df))
  else v <- getitem df C_ID ;; Ok (Column C_ID v).

Definition written (output_format : string) (json_record_per_line : bool) (p : Payload)
  : Document :=
  if String.eqb (casefold output_format) "csv"
  then CsvFile p
  else JsonFile json_record_per_line p.

(** [str(p)] and [p if isinstance(p, Path) else Path(p)] *)
Definition fspath (p : PathLike) : string :=
  match p with AsPath q => Pathlib.str q | AsStr s => s end.

Definition as_path (p : PathLike) : Pathlib.PurePath :=
  match p with AsPath q => q | AsStr s => Pathlib.Path s end.

(** Two programs do the same to the files and end alike, from worlds with the
    same files; a program makes no call to [logging.log]. *)
Definition same_effect {A : Type} (p q : program A) : Prop :=
  forall w w', files w = files w' ->
    files (fst (p w)) = files (fst (q w')) /\ snd (p w) = snd (q w').

Definition silent {A : Type} (p : program A) : Prop :=
  forall w, logged (fst (p w)) = logged w.

(** An environment with one input file, holding [df], in which every path can
    be written to except [locked]. *)
Definition sample_env (input : string) (df : DataFrame) (locked : string) : Env :=
  {| read_csv := fun path =>
       if String.eqb path input then Returned df
       else Raised (EnvironmentError "No such file or directory");
     write_error := fun path =>
       if String.eqb path locked then Some "Permission denied" else None |}.

Definition empty_world : World := {| files := []; logged := [] |}.

(** * Properties *)

(** ** The result monad *)

Lemma bind_Ok {A B : Type} (r : result A) (k : A -> result B) (b : B) :
  bind r k = Ok b -> exists a, r = Ok a /\ k a = Ok b.
Proof.
  destruct r as [a|e]; simpl; intros H.
  - exists a. split; [reflexivity | exact H].
  - discriminate H.
Qed.

Lemma bind_Raise {A B : Type} (r : result A) (k : A -> result B) (e : exn) :
  bind r k = Raise e -> r = Raise e \/ exists a, r = Ok a /\ k a = Raise e.
Proof.
  destruct r as [a|e']; simpl; intros H.
  - right. exists a. split; [reflexivity | exact H].
  - left. injection H as ->. reflexivity.
Qed.

(** ** Columns *)

Lemma dtype_eqb_eq (a b : dtype) : dtype_eqb a b = true <-> a = b.
Proof. destruct a, b; simpl; split; intros H; try reflexivity; discriminate H. Qed.

Lemma has_column_find (df : DataFrame) (name : string) :
  has_column df name = true <-> exists v, find_column name (df_columns df) = Some v.
Proof.
  unfold has_column, column_names.
  induction (df_columns df) as [|[n v] cols IH]; simpl.
  - split; [discriminate | intros [v H]; discriminate H].
  - destruct (String.eqb name n); simpl.
    + split; [intros _; exists v; reflexivity | reflexivity].
    + exact IH.
Qed.

Lemma has_column_false (df : DataFrame) (name : string) :
  has_column df name = false <-> find_column name (df_columns df) = None.
Proof.
  destruct (has_column df name) eqn:E.
  - apply has_column_find in E. destruct E as [v E]. rewrite E.
    split; discriminate.
  - split; [intros _ | reflexivity].
    destruct (find_column name (df_columns df)) as [v|] eqn:F; [|reflexivity].
    assert (has_column df name = true) as T by (apply has_column_find; exists v; exact F).
    rewrite T in E. discriminate E.
Qed.

Lemma column_okb_ok (df : DataFrame) (c : string * dtype) :
  column_okb df c = true <-> column_ok df c.
Proof.
  unfold column_okb, column_ok.
  destruct (find_column (fst c) (df_columns df)) as [v|].
  - rewrite dtype_eqb_eq. split.
    + intros H. exists v. split; [reflexivity | exact H].
    + intros [v' [E H]]. injection E as <-. exact H.
  - split; [discriminate | intros [v [E _]]; discriminate E].
Qed.

Lemma column_okb_all (df : DataFrame) (cs : list (string * dtype)) :
  forallb (column_okb df) cs = true -> Forall (column_ok df) cs.
Proof.
  intros H. apply Forall_forall. intros c I. apply column_okb_ok.
  rewrite forallb_forall in H. apply H. exact I.
Qed.

(** ** validate_schema *)

(** One turn of the loop. *)
Lemma validate_schema_step (name : string) (dt : dtype) (rest : list (string * dtype))
    (df : DataFrame) :
  validate_schema ((name, dt) :: rest) df =
  match find_column name (df_columns df) with
  | None => Raise (MissingColumnException name)
  | Some v =>
      if dtype_eqb (dtype_of v) dt
      then validate_schema rest df
      else Raise (UnsupportedColumnTypeException name dt (dtype_of v))
  end.
Proof.
  simpl. unfold getitem.
  destruct (find_column name (df_columns df)) as [v|] eqn:F.
  - assert (has_column df name = true) as T by (apply has_column_find; exists v; exact F).
    rewrite T. simpl. destruct (dtype_eqb (dtype_of v) dt); reflexivity.
  - apply has_column_false in F. rewrite F. reflexivity.
Qed.

Lemma validate_schema_Ok (order : list (string * dtype)) (df : DataFrame) :
  validate_schema order df = Ok tt <-> Forall (column_ok df) order.
Proof.
  induction order as [|[name dt] rest IH].
  - simpl. split; [constructor | reflexivity].
  - rewrite validate_schema_step. split.
    + intros H. destruct (find_column name (df_columns df)) as [v|] eqn:F; [|discriminate H].
      destruct (dtype_eqb (dtype_of v) dt) eqn:D; [|discriminate H].
      constructor.
      * exists v. split; [exact F | apply dtype_eqb_eq; exact D].
      * apply IH. exact H.
    + intros H. inversion H as [|c l [v [F D]] Hrest]; subst. simpl in F, D.
      rewrite F. subst dt.
      assert (dtype_eqb (dtype_of v) (dtype_of v) = true) as -> by (apply dtype_eqb_eq; reflexivity).
      apply IH. exact Hrest.
Qed.

Lemma validate_schema_valid (order : list (string * dtype)) (df : DataFrame) :
  Permutation order _VALID_COLUMNS ->
  (validate_schema order df = Ok tt <-> Forall (column_ok df) _VALID_COLUMNS).
Proof.
  intros P. rewrite validate_schema_Ok. split; intros H.
  - eapply Permutation_Forall; [exact P | exact H].
  - eapply Permutation_Forall; [apply Permutation_sym; exact P | exact H].
Qed.

Lemma validate_schema_unit (order : list (string * dtype)) (df : DataFrame) (u : unit) :
  validate_schema order df = Ok u -> validate_schema order df = Ok tt.
Proof. destruct u. exact (fun H => H). Qed.

(** ** Boolean selection *)

Lemma mask_filter_nil {A : Type} (m : list bool) : mask_filter m (@nil A) = [].
Proof. destruct m; reflexivity. Qed.

Lemma mask_filter_tl_true {A : Type} (m : list bool) (xs : list A) :
  tl (mask_filter (true :: m) xs) = mask_filter m (tl xs).
Proof. destruct xs; simpl; [rewrite mask_filter_nil|]; reflexivity. Qed.

Lemma mask_filter_hd_true {A : Type} (m : list bool) (xs : list A) :
  hd_error (mask_filter (true :: m) xs) = hd_error xs.
Proof. destruct xs; reflexivity. Qed.

Lemma mask_filter_false {A : Type} (m : list bool) (xs : list A) :
  mask_filter (false :: m) xs = mask_filter m (tl xs).
Proof. destruct xs; simpl; [rewrite mask_filter_nil|]; reflexivity. Qed.

Lemma mask_filter_map {A B : Type} (g : A -> B) (m : list bool) (xs : list A) :
  mask_filter m (map g xs) = map g (mask_filter m xs).
Proof.
  revert xs. induction m as [|b m IH]; intros [|x xs]; simpl; try reflexivity.
  destruct b; simpl; rewrite IH; reflexivity.
Qed.

Lemma mask_filter_self {A : Type} (f : A -> bool) (l : list A) :
  mask_filter (map f l) l = filter f l.
Proof.
  induction l as [|x l IH]; simpl; [reflexivity|].
  rewrite IH. reflexivity.
Qed.

Lemma mask_filter_invert_self {A : Type} (f : A -> bool) (l : list A) :
  mask_filter (invert (map f l)) l = filter (fun x => negb (f x)) l.
Proof.
  unfold invert. rewrite map_map. apply (mask_filter_self (fun x => negb (f x))).
Qed.

Lemma cells_values_mask (m : list bool) (v : values) :
  cells (values_mask m v) = mask_filter m (cells v).
Proof. destruct v; simpl; rewrite mask_filter_map; reflexivity. Qed.

Lemma dtype_values_mask (m : list bool) (v : values) :
  dtype_of (values_mask m v) = dtype_of v.
Proof. destruct v; reflexivity. Qed.

Lemma rows_of_mask (m : list bool) (idx : list Z) (cols : list (string * list cell)) :
  rows_of (mask_filter m idx) (map (fun c => (fst c, mask_filter m (snd c))) cols)
  = mask_filter m (rows_of idx cols).
Proof.
  revert m cols. induction idx as [|l idx IH]; intros m cols.
  - rewrite mask_filter_nil. simpl. rewrite mask_filter_nil. reflexivity.
  - destruct m as [|[] m]; simpl; [reflexivity | |].
    + f_equal.
      * f_equal. rewrite map_map. apply map_ext. intros [n cs]. simpl.
        f_equal. destruct cs; reflexivity.
      * rewrite <- IH. f_equal. rewrite !map_map. apply map_ext. intros [n cs].
        simpl. f_equal. destruct cs; simpl; [rewrite mask_filter_nil|]; reflexivity.
    + rewrite <- IH. f_equal. rewrite map_map. apply map_ext. intros [n cs].
      simpl. f_equal. destruct cs; simpl; [rewrite mask_filter_nil|]; reflexivity.
Qed.

(** Selecting with a mask selects whole rows. *)
Lemma rows_loc_mask (df : DataFrame) (m : list bool) :
  rows (loc_mask df m) = mask_filter m (rows df).
Proof.
  unfold rows, cell_columns, loc_mask. simpl.
  rewrite <- rows_of_mask. f_equal.
  rewrite !map_map. apply map_ext. intros [n v]. simpl.
  rewrite cells_values_mask. reflexivity.
Qed.

Lemma column_names_loc_mask (df : DataFrame) (m : list bool) :
  column_names (loc_mask df m) = column_names df.
Proof.
  unfold column_names, loc_mask. simpl. rewrite map_map. reflexivity.
Qed.

Lemma schema_loc_mask (df : DataFrame) (m : list bool) :
  schema (loc_mask df m) = schema df.
Proof.
  unfold schema, loc_mask. simpl. rewrite map_map. apply map_ext.
  intros [n v]. simpl. rewrite dtype_values_mask. reflexivity.
Qed.

Lemma has_column_loc_mask (df : DataFrame) (m : list bool) (name : string) :
  has_column (loc_mask df m) name = has_column df name.
Proof. unfold has_column. rewrite column_names_loc_mask. reflexivity. Qed.

Lemma find_column_loc_mask (df : DataFrame) (m : list bool) (name : string) :
  find_column name (df_columns (loc_mask df m))
  = option_map (values_mask m) (find_column name (df_columns df)).
Proof.
  unfold loc_mask. simpl.
  induction (df_columns df) as [|[n v] cols IH]; simpl; [reflexivity|].
  destruct (String.eqb name n); [reflexivity | exact IH].
Qed.

(** ** Lists: filters, sub-sequences, duplicates *)

Lemma filter_subseq {A : Type} (f : A -> bool) (l : list A) : subseq (filter f l) l.
Proof.
  induction l as [|x l IH]; simpl.
  - constructor.
  - destruct (f x); constructor; exact IH.
Qed.

Lemma filter_split_Permutation {A : Type} (f : A -> bool) (l : list A) :
  Permutation (filter f l ++ filter (fun x => negb (f x)) l) l.
Proof.
  induction l as [|x l IH]; simpl.
  - constructor.
  - destruct (f x); simpl.
    + constructor. exact IH.
    + apply Permutation_sym. apply Permutation_cons_app. apply Permutation_sym. exact IH.
Qed.

Lemma filter_split_length {A : Type} (f : A -> bool) (l : list A) :
  (List.length (filter f l) + List.length (filter (fun x => negb (f x)) l) = List.length l)%nat.
Proof.
  rewrite <- length_app. apply Permutation_length. apply filter_split_Permutation.
Qed.

Lemma NoDup_map_In_eq {A B : Type} (g : A -> B) (l : list A) (x y : A) :
  NoDup (map g l) -> In x l -> In y l -> g x = g y -> x = y.
Proof.
  induction l as [|a l IH]; simpl; intros N Hx Hy E; [contradiction|].
  inversion N as [|b l' Hnot N']; subst.
  destruct Hx as [-> | Hx], Hy as [-> | Hy].
  - reflexivity.
  - exfalso. apply Hnot. rewrite E. apply in_map. exact Hy.
  - exfalso. apply Hnot. rewrite <- E. apply in_map. exact Hx.
  - apply IH; assumption.
Qed.

(** ** Columns read through the rows *)

Lemma find_column_In (name : string) (cols : list (string * values)) (v : values) :
  find_column name cols = Some v -> In (name, v) cols.
Proof.
  induction cols as [|[n w] cols IH]; simpl; [discriminate|].
  destruct (String.eqb name n) eqn:E.
  - intros H. injection H as ->. apply String.eqb_eq in E. subst n. left. reflexivity.
  - intros H. right. apply IH. exact H.
Qed.

Lemma find_cells_cell_columns (df : DataFrame) (name : string) :
  find_cells name (cell_columns df) = option_map cells (find_column name (df_columns df)).
Proof.
  unfold cell_columns.
  induction (df_columns df) as [|[n v] cols IH]; simpl; [reflexivity|].
  destruct (String.eqb name n); [reflexivity | exact IH].
Qed.

Lemma lookup_field_hd (name : string) (cols : list (string * list cell)) (cs : list cell) :
  find_cells name cols = Some cs ->
  lookup_field name (map (fun c => (fst c, hd_error (snd c))) cols) = hd_error cs.
Proof.
  induction cols as [|[n ds] cols IH]; simpl; [discriminate|].
  destruct (String.eqb name n).
  - intros H. injection H as ->. reflexivity.
  - exact IH.
Qed.

Lemma find_cells_tl (name : string) (cols : list (string * list cell)) (cs : list cell) :
  find_cells name cols = Some cs ->
  find_cells name (map (fun c => (fst c, tl (snd c))) cols) = Some (tl cs).
Proof.
  induction cols as [|[n ds] cols IH]; simpl; [discriminate|].
  destruct (String.eqb name n).
  - intros H. injection H as ->. reflexivity.
  - exact IH.
Qed.

Lemma fields_rows_of (idx : list Z) (cols : list (string * list cell)) (name : string)
    (cs : list cell) :
  find_cells name cols = Some cs ->
  List.length cs = List.length idx ->
  map (fun r => field r name) (rows_of idx cols) = map Some cs.
Proof.
  revert cols cs. induction idx as [|l idx IH]; intros cols cs F L.
  - destruct cs; [reflexivity | discriminate L].
  - destruct cs as [|c cs]; [discriminate L|]. simpl.
    unfold field at 1. simpl. rewrite (lookup_field_hd _ _ _ F). simpl. f_equal.
    apply (IH _ cs).
    + apply (find_cells_tl _ _ _ F).
    + simpl in L. injection L as L. exact L.
Qed.

Lemma length_cells (v : values) : List.length (cells v) = size v.
Proof. destruct v; simpl; apply length_map. Qed.

Lemma wf_frame_size (df : DataFrame) (name : string) (v : values) :
  wf_frame df -> find_column name (df_columns df) = Some v -> size v = nrows df.
Proof.
  intros [_ W] F. apply find_column_In in F.
  rewrite Forall_forall in W. apply (W _ F).
Qed.

(** The column [name], read off the rows. *)
Lemma column_fields (df : DataFrame) (name : string) (v : values) :
  wf_frame df ->
  find_column name (df_columns df) = Some v ->
  map (fun r => field r name) (rows df) = map Some (cells v).
Proof.
  intros W F. unfold rows. apply fields_rows_of.
  - rewrite find_cells_cell_columns, F. reflexivity.
  - rewrite length_cells. apply (wf_frame_size df name v W F).
Qed.

Lemma length_rows (df : DataFrame) : List.length (rows df) = nrows df.
Proof.
  unfold rows, nrows. generalize (cell_columns df).
  induction (df_index df) as [|l idx IH]; intros cols; simpl; [reflexivity|].
  rewrite IH. reflexivity.
Qed.

(** ** The condition of analyze_posts is the specification's predicate *)

Lemma and_map {A : Type} (f g : A -> bool) (l : list A) :
  and_ (map f l) (map g l) = map (fun x => f x && g x)%bool l.
Proof. induction l as [|x l IH]; simpl; [|rewrite IH]; reflexivity. Qed.

Lemma column_ok_object (df : DataFrame) (name : string) :
  column_ok df (name, object_) ->
  exists xs, find_column name (df_columns df) = Some (ObjectValues xs).
Proof.
  intros [v [F D]]. simpl in F, D. destruct v as [xs|xs|xs]; try discriminate D.
  exists xs. exact F.
Qed.

Lemma column_ok_int64 (df : DataFrame) (name : string) :
  column_ok df (name, int64) ->
  exists xs, find_column name (df_columns df) = Some (Int64Values xs).
Proof.
  intros [v [F D]]. simpl in F, D. destruct v as [xs|xs|xs]; try discriminate D.
  exists xs. exact F.
Qed.

Lemma valid_columns_ok (df : DataFrame) (c : string * dtype) :
  Forall (column_ok df) _VALID_COLUMNS -> In c _VALID_COLUMNS -> column_ok df c.
Proof. intros H I. rewrite Forall_forall in H. apply H. exact I. Qed.

Lemma condition_rows (df : DataFrame) :
  wf_frame df ->
  Forall (column_ok df) _VALID_COLUMNS ->
  condition df = Ok (map is_top (rows df)).
Proof.
  intros W V.
  destruct (column_ok_object df C_PRIVACY) as [ps Fp];
    [apply (valid_columns_ok df _ V); simpl; tauto|].
  destruct (column_ok_int64 df C_COMMENTS) as [cs Fc];
    [apply (valid_columns_ok df _ V); simpl; tauto|].
  destruct (column_ok_int64 df C_VIEWS) as [vs Fv];
    [apply (valid_columns_ok df _ V); simpl; tauto|].
  destruct (column_ok_object df C_TITLE) as [ts Ft];
    [apply (valid_columns_ok df _ V); simpl; tauto|].
  unfold condition, getitem. rewrite Fp, Fc, Fv, Ft. simpl. f_equal.
  pose proof (column_fields df _ _ W Fp) as Rp.
  pose proof (column_fields df _ _ W Fc) as Rc.
  pose proof (column_fields df _ _ W Fv) as Rv.
  pose proof (column_fields df _ _ W Ft) as Rt.
  unfold C_PRIVACY in Rp. unfold C_COMMENTS in Rc. unfold C_VIEWS in Rv.
  unfold C_TITLE in Rt. simpl in Rp, Rc, Rv, Rt.
  assert (map (fun o => match o with PyStr s' => String.eqb s' PRIVACY_TYPE | PyNaN => false end) ps
          = map (fun r => privacy_ok (field r "privacy")) (rows df)) as ->.
  { rewrite <- (map_map (fun r => field r "privacy") privacy_ok), Rp, !map_map.
    apply map_ext. intros [s|]; reflexivity. }
  assert (map (fun x => MIN_NUM_COMMENTS <? x) cs
          = map (fun r => more_than 10 (field r "comments")) (rows df)) as ->.
  { rewrite <- (map_map (fun r => field r "comments") (more_than 10)), Rc, !map_map.
    reflexivity. }
  assert (map (fun x => MIN_NUM_VIEWS <? x) vs
          = map (fun r => more_than 9000 (field r "views")) (rows df)) as ->.
  { rewrite <- (map_map (fun r => field r "views") (more_than 9000)), Rv, !map_map.
    reflexivity. }
  assert (lt_nat (map (fun o => match o with PyStr s => Some (String.length s) | PyNaN => None end) ts)
                 MAX_NUM_TITLE_CHARS
          = map (fun r => title_ok (field r "title")) (rows df)) as ->.
  { unfold lt_nat.
    rewrite <- (map_map (fun r => field r "title") title_ok), Rt, !map_map.
    apply map_ext. intros [s|]; reflexivity. }
  rewrite !and_map. reflexivity.
Qed.

(** ** analyze_posts, step by step *)

Lemma analyze_posts_Ok (parse : string -> parsed) (order : list (string * dtype))
    (df top other daily : DataFrame) :
  analyze_posts parse order df = Ok (top, other, daily) ->
  validate_schema order df = Ok tt /\
  exists cond,
    condition df = Ok cond /\
    top = loc_mask df cond /\
    other = loc_mask df (invert cond) /\
    __collect_daily_top_posts parse top = Ok daily.
Proof.
  unfold analyze_posts. intros H.
  apply bind_Ok in H. destruct H as [u [V H]].
  apply bind_Ok in H. destruct H as [cond [C H]].
  apply bind_Ok in H. destruct H as [d [D H]].
  injection H as <- <- <-.
  split; [apply (validate_schema_unit _ _ u V)|].
  exists cond. repeat split; try assumption.
Qed.

(** The two partitions, row by row. *)
Lemma partitions_rows (parse : string -> parsed) (order : list (string * dtype))
    (df top other daily : DataFrame) :
  wf_frame df ->
  Permutation order _VALID_COLUMNS ->
  analyze_posts parse order df = Ok (top, other, daily) ->
  rows top = filter is_top (rows df) /\
  rows other = filter (fun r => negb (is_top r)) (rows df).
Proof.
  intros W P H. apply analyze_posts_Ok in H.
  destruct H as [V [cond [C [-> [-> _]]]]].
  apply (validate_schema_valid order df P) in V.
  rewrite (condition_rows df W V) in C. injection C as <-.
  rewrite !rows_loc_mask, mask_filter_self, mask_filter_invert_self.
  split; reflexivity.
Qed.

Lemma is_top_spec (r : Row) : is_top r = true <-> spec_is_top r.
Proof.
  unfold is_top, spec_is_top, privacy_ok, more_than, title_ok.
  rewrite !andb_true_iff. split.
  - intros [[[Hp Hc] Hv] Ht].
    destruct (field r "privacy") as [[| |[p|]]|]; try discriminate Hp.
    destruct (field r "comments") as [[c| |]|]; try discriminate Hc.
    destruct (field r "views") as [[v| |]|]; try discriminate Hv.
    destruct (field r "title") as [[| |[t|]]|]; try discriminate Ht.
    apply String.eqb_eq in Hp. subst p.
    apply Z.ltb_lt in Hc, Hv. apply Nat.ltb_lt in Ht.
    split; [reflexivity|].
    split; [exists c; split; [reflexivity | lia]|].
    split; [exists v; split; [reflexivity | lia]|].
    exists t. split; [reflexivity | exact Ht].
  - intros [Hp [[c [Hc Lc]] [[v [Hv Lv]] [t [Ht Lt]]]]].
    rewrite Hp, Hc, Hv, Ht.
    repeat split.
    + apply Z.ltb_lt. lia.
    + apply Z.ltb_lt. lia.
    + apply Nat.ltb_lt. exact Lt.
Qed.

Lemma is_top_not_spec (r : Row) : is_top r = false <-> ~ spec_is_top r.
Proof.
  rewrite <- is_top_spec. destruct (is_top r); split; intros H;
    try reflexivity; try discriminate; try (exfalso; apply H; reflexivity).
Qed.

(** ** Sample tables are well formed *)

Lemma length_RangeIndex (n : nat) : List.length (RangeIndex n) = n.
Proof. unfold RangeIndex. rewrite length_map, length_seq. reflexivity. Qed.

Lemma posts_table_wf (id : list Z) (title privacy : list pyobj) (likes views comments : list Z)
    (timestamp : list pyobj) :
  List.length title = List.length id ->
  List.length privacy = List.length id ->
  List.length likes = List.length id ->
  List.length views = List.length id ->
  List.length comments = List.length id ->
  List.length timestamp = List.length id ->
  wf_frame (posts_table id title privacy likes views comments timestamp).
Proof.
  intros H1 H2 H3 H4 H5 H6. split.
  - unfold column_names. simpl.
    repeat (constructor; [simpl; intuition discriminate|]). constructor.
  - unfold nrows. simpl. rewrite length_RangeIndex.
    repeat (constructor; [simpl; assumption || reflexivity|]). constructor.
Qed.

Lemma sample_posts_wf : wf_frame sample_posts.
Proof. apply posts_table_wf; reflexivity. Qed.

(** * The claims *)

(** C2. Every row of the top partition returned by [analyze_posts] meets the
    four criteria (privacy equal to "public", more than 10 comments, more than
    9000 views, a title of fewer than 40 characters); every row of the other
    partition fails at least one of them; an input row with exactly 10
    comments, or with a title of exactly 40 characters, is in the other
    partition and not in the top one. *)
Theorem top_rows_meet_criteria (parse : string -> parsed) (order : list (string * dtype))
    (df top other daily : DataFrame) :
  wf_frame df ->
  Permutation order _VALID_COLUMNS ->
  analyze_posts parse order df = Ok (top, other, daily) ->
  (forall r, In r (rows top) -> spec_is_top r) /\
  (forall r, In r (rows other) -> ~ spec_is_top r) /\
  (forall r, In r (rows df) -> field r "comments" = Some (CInt 10) ->
             In r (rows other) /\ ~ In r (rows top)) /\
  (forall r t, In r (rows df) -> field r "title" = Some (CObj (PyStr t)) ->
               String.length t = 40%nat ->
               In r (rows other) /\ ~ In r (rows top)).
Proof.
  intros W P H. destruct (partitions_rows parse order df top other daily W P H) as [-> ->].
  assert (forall r, In r (rows df) -> ~ spec_is_top r ->
                    In r (filter (fun r => negb (is_top r)) (rows df)) /\
                    ~ In r (filter is_top (rows df))) as other_only.
  { intros r I N. split.
    - apply filter_In. split; [exact I|]. apply is_top_not_spec in N. rewrite N. reflexivity.
    - intros I'. apply filter_In in I'. destruct I' as [_ T]. apply N, is_top_spec, T. }
  split; [|split; [|split]].
  - intros r I. apply is_top_spec. apply filter_In in I. apply I.
  - intros r I. apply is_top_not_spec. apply filter_In in I. destruct I as [_ T].
    destruct (is_top r); [discriminate T | reflexivity].
  - intros r I F. apply other_only; [exact I|]. intros [_ [[c [Hc Lc]] _]].
    rewrite F in Hc. injection Hc as <-. lia.
  - intros r t I F L. apply other_only; [exact I|]. intros [_ [_ [_ [t' [Ht Lt]]]]].
    rewrite F in Ht. injection Ht as <-. lia.
Qed.

Lemma top_rows_meet_criteria_witness :
  exists top other daily,
    analyze_posts sample_parse _VALID_COLUMNS sample_posts = Ok (top, other, daily) /\
    (forall r, In r (rows top) -> spec_is_top r) /\
    (forall r, In r (rows other) -> ~ spec_is_top r) /\
    (forall r, In r (rows sample_posts) -> field r "comments" = Some (CInt 10) ->
               In r (rows other) /\ ~ In r (rows top)) /\
    (forall r t, In r (rows sample_posts) -> field r "title" = Some (CObj (PyStr t)) ->
                 String.length t = 40%nat ->
                 In r (rows other) /\ ~ In r (rows top)).
Proof.
  eexists. eexists. eexists. split.
  - vm_compute. reflexivity.
  - eapply (top_rows_meet_criteria sample_parse _VALID_COLUMNS sample_posts).
    + exact sample_posts_wf.
    + apply Permutation_refl.
    + vm_compute. reflexivity.
Defined.

(** C3. The top and other partitions returned by [analyze_posts] split the
    input: together they hold exactly the input's rows, nothing dropped and
    nothing duplicated; their row counts add up to the input's; an id is in
    the input exactly when it is in one of the partitions; every input row is
    in exactly one partition; and, the ids of the input being distinct, no id
    is in both. *)
Theorem partitions_split_input (parse : string -> parsed) (order : list (string * dtype))
    (df top other daily : DataFrame) :
  wf_frame df ->
  Permutation order _VALID_COLUMNS ->
  analyze_posts parse order df = Ok (top, other, daily) ->
  Permutation (rows top ++ rows other) (rows df) /\
  (nrows top + nrows other = nrows df)%nat /\
  (forall i, In i (ids df) <-> In i (ids top) \/ In i (ids other)) /\
  (forall r, In r (rows df) ->
             (In r (rows top) /\ ~ In r (rows other)) \/
             (In r (rows other) /\ ~ In r (rows top))) /\
  (NoDup (ids df) -> forall i, ~ (In i (ids top) /\ In i (ids other))).
Proof.
  intros W P H.
  destruct (partitions_rows parse order df top other daily W P H) as [Rt Ro].
  split; [rewrite Rt, Ro; apply filter_split_Permutation|].
  split; [rewrite <- !length_rows, Rt, Ro; apply filter_split_length|].
  unfold ids. rewrite Rt, Ro.
  split; [|split].
  - intros i. rewrite !in_map_iff. split.
    + intros [r [E I]]. destruct (is_top r) eqn:T.
      * left. exists r. split; [exact E|]. apply filter_In. split; assumption.
      * right. exists r. split; [exact E|]. apply filter_In. split; [exact I|].
        rewrite T. reflexivity.
    + intros [[r [E I]] | [r [E I]]]; exists r; (split; [exact E|]);
        apply filter_In in I; apply I.
  - intros r I. destruct (is_top r) eqn:T.
    + left. split.
      * apply filter_In. split; assumption.
      * intros I'. apply filter_In in I'. destruct I' as [_ N]. rewrite T in N. discriminate N.
    + right. split.
      * apply filter_In. split; [exact I | rewrite T; reflexivity].
      * intros I'. apply filter_In in I'. destruct I' as [_ N]. rewrite T in N. discriminate N.
  - intros N i [It Io].
    apply in_map_iff in It. destruct It as [r1 [E1 I1]].
    apply in_map_iff in Io. destruct Io as [r2 [E2 I2]].
    apply filter_In in I1. destruct I1 as [I1 T1].
    apply filter_In in I2. destruct I2 as [I2 T2].
    assert (r1 = r2) as ->.
    { apply (NoDup_map_In_eq (fun r => field r C_ID) (rows df)); try assumption.
      rewrite E1, E2. reflexivity. }
    rewrite T1 in T2. discriminate T2.
Qed.

Lemma partitions_split_input_witness :
  exists top other daily,
    analyze_posts sample_parse _VALID_COLUMNS sample_posts = Ok (top, other, daily) /\
    Permutation (rows top ++ rows other) (rows sample_posts) /\
    (nrows top + nrows other = nrows sample_posts)%nat /\
    (forall i, In i (ids sample_posts) <-> In i (ids top) \/ In i (ids other)) /\
    (forall r, In r (rows sample_posts) ->
               (In r (rows top) /\ ~ In r (rows other)) \/
               (In r (rows other) /\ ~ In r (rows top))) /\
    (NoDup (ids sample_posts) -> forall i, ~ (In i (ids top) /\ In i (ids other))).
Proof.
  eexists. eexists. eexists. split.
  - vm_compute. reflexivity.
  - eapply (partitions_split_input sample_parse _VALID_COLUMNS sample_posts).
    + exact sample_posts_wf.
    + apply Permutation_refl.
    + vm_compute. reflexivity.
Defined.

(** C7. The rows of the top partition are rows of the input in the input's
    order, and so are the rows of the other partition: each partition is the
    input with the rows of the other one left out. *)
Theorem partitions_keep_order (parse : string -> parsed) (order : list (string * dtype))
    (df top other daily : DataFrame) :
  wf_frame df ->
  Permutation order _VALID_COLUMNS ->
  analyze_posts parse order df = Ok (top, other, daily) ->
  subseq (rows top) (rows df) /\
  subseq (rows other) (rows df) /\
  rows top = filter is_top (rows df) /\
  rows other = filter (fun r => negb (is_top r)) (rows df).
Proof.
  intros W P H.
  destruct (partitions_rows parse order df top other daily W P H) as [Rt Ro].
  rewrite Rt, Ro. repeat split; apply filter_subseq.
Qed.

Lemma partitions_keep_order_witness :
  exists top other daily,
    analyze_posts sample_parse _VALID_COLUMNS sample_posts = Ok (top, other, daily) /\
    subseq (rows top) (rows sample_posts) /\
    subseq (rows other) (rows sample_posts) /\
    rows top = filter is_top (rows sample_posts) /\
    rows other = filter (fun r => negb (is_top r)) (rows sample_posts).
Proof.
  eexists. eexists. eexists. split.
  - vm_compute. reflexivity.
  - eapply (partitions_keep_order sample_parse _VALID_COLUMNS sample_posts).
    + exact sample_posts_wf.
    + apply Permutation_refl.
    + vm_compute. reflexivity.
Defined.

(** C5. [analyze_posts] validates, classifies and aggregates, in that order,
    and returns the triple (top, other, daily top).  A failure of the
    validation is the failure of [analyze_posts], whatever the later stages
    would do; after a successful validation a failure of the daily
    aggregation is the failure of [analyze_posts]; the classification of a
    validated table does not fail; and a failed run returns no tables. *)
Theorem analyze_posts_fail_fast (parse : string -> parsed) (order : list (string * dtype))
    (df : DataFrame) :
  (forall e, validate_schema order df = Raise e ->
             analyze_posts parse order df = Raise e) /\
  (forall cond e,
      validate_schema order df = Ok tt ->
      condition df = Ok cond ->
      __collect_daily_top_posts parse (loc_mask df cond) = Raise e ->
      analyze_posts parse order df = Raise e) /\
  (forall cond daily,
      validate_schema order df = Ok tt ->
      condition df = Ok cond ->
      __collect_daily_top_posts parse (loc_mask df cond) = Ok daily ->
      analyze_posts parse order df
      = Ok (loc_mask df cond, loc_mask df (invert cond), daily)) /\
  (forall top other daily,
      analyze_posts parse order df = Ok (top, other, daily) ->
      validate_schema order df = Ok tt /\
      exists cond,
        condition df = Ok cond /\
        top = loc_mask df cond /\
        other = loc_mask df (invert cond) /\
        __collect_daily_top_posts parse top = Ok daily) /\
  (wf_frame df -> Permutation order _VALID_COLUMNS ->
   validate_schema order df = Ok tt ->
   exists cond, condition df = Ok cond) /\
  (forall e, analyze_posts parse order df = Raise e ->
             forall tables, analyze_posts parse order df <> Ok tables).
Proof.
  split; [|split; [|split; [|split; [|split]]]].
  - intros e V. unfold analyze_posts. rewrite V. reflexivity.
  - intros cond e V C D. unfold analyze_posts. rewrite V, C. simpl. rewrite D. reflexivity.
  - intros cond daily V C D. unfold analyze_posts. rewrite V, C. simpl. rewrite D. reflexivity.
  - intros top other daily H. apply (analyze_posts_Ok parse order df top other daily H).
  - intros W P V. exists (map is_top (rows df)). apply (condition_rows df W).
    apply (validate_schema_valid order df P). exact V.
  - intros e H tables H'. rewrite H in H'. discriminate H'.
Qed.

Lemma sample_posts_author_wf : wf_frame sample_posts_author.
Proof.
  split.
  - unfold column_names. simpl.
    repeat (constructor; [simpl; intuition discriminate|]). constructor.
  - repeat (constructor; [reflexivity|]). constructor.
Qed.

(** ** What the validation reads *)

Lemma find_column_schema (cols1 cols2 : list (string * values)) (name : string) :
  map (fun c => (fst c, dtype_of (snd c))) cols1 = map (fun c => (fst c, dtype_of (snd c))) cols2 ->
  option_map dtype_of (find_column name cols1) = option_map dtype_of (find_column name cols2).
Proof.
  revert cols2. induction cols1 as [|[n1 v1] cols1 IH]; intros [|[n2 v2] cols2] E;
    simpl in E; try discriminate E; [reflexivity|].
  injection E as -> D E. simpl.
  destruct (String.eqb name n2); [simpl; rewrite D; reflexivity | apply IH; exact E].
Qed.

Lemma validate_schema_schema (order : list (string * dtype)) (df1 df2 : DataFrame) :
  schema df1 = schema df2 ->
  validate_schema order df1 = validate_schema order df2.
Proof.
  intros S. induction order as [|[name dt] rest IH]; [reflexivity|].
  rewrite !validate_schema_step.
  pose proof (find_column_schema _ _ name S) as F.
  destruct (find_column name (df_columns df1)) as [v1|],
           (find_column name (df_columns df2)) as [v2|];
    simpl in F; try discriminate F; [|reflexivity].
  injection F as ->. rewrite IH. reflexivity.
Qed.

(** C10. The validation reads the names and dtypes of the columns and
    nothing else: two tables with the same column names and dtypes get the
    same verdict, so a table shaped like an accepted one is accepted whatever
    its rows hold, a negative number of likes for instance. *)
Theorem validation_ignores_values (order : list (string * dtype)) (df1 df2 : DataFrame) :
  Permutation order _VALID_COLUMNS ->
  schema df1 = schema df2 ->
  validate_schema order df1 = validate_schema order df2 /\
  (Forall (column_ok df1) _VALID_COLUMNS -> validate_schema order df2 = Ok tt).
Proof.
  intros P S. pose proof (validate_schema_schema order df1 df2 S) as E.
  split; [exact E|].
  intros V. rewrite <- E. apply (validate_schema_valid order df1 P). exact V.
Qed.

Lemma validation_ignores_values_witness :
  getitem negative_likes C_LIKES = Ok (Int64Values [-3]) /\
  validate_schema _VALID_COLUMNS undated_post = validate_schema _VALID_COLUMNS negative_likes /\
  validate_schema _VALID_COLUMNS negative_likes = Ok tt.
Proof.
  split; [reflexivity|].
  destruct (validation_ignores_values _VALID_COLUMNS undated_post negative_likes) as [E A].
  - apply Permutation_refl.
  - reflexivity.
  - split; [exact E|]. apply A. apply column_okb_all. vm_compute. reflexivity.
Defined.

(** ** The first fault decides *)

Lemma validate_schema_Raise (order : list (string * dtype)) (df : DataFrame) (e : exn) :
  validate_schema order df = Raise e ->
  exists pre c post,
    order = (pre ++ c :: post)%list /\
    Forall (column_ok df) pre /\
    ~ column_ok df c /\
    e = column_error df c.
Proof.
  induction order as [|[name dt] rest IH]; [discriminate|].
  rewrite validate_schema_step. unfold column_error, column_ok.
  destruct (find_column name (df_columns df)) as [v|] eqn:F.
  - destruct (dtype_eqb (dtype_of v) dt) eqn:D.
    + intros H. destruct (IH H) as [pre [c [post [-> [Hpre [Hc He]]]]]].
      exists ((name, dt) :: pre), c, post. repeat split; try assumption.
      constructor; [|exact Hpre].
      exists v. split; [exact F | apply dtype_eqb_eq; exact D].
    + intros H. injection H as <-. exists [], (name, dt), rest. simpl.
      rewrite F. repeat split; try constructor.
      intros [v' [F' D']]. simpl in F', D'. injection F' as <-.
      apply dtype_eqb_eq in D'. rewrite D' in D. discriminate D.
  - intros H. injection H as <-. exists [], (name, dt), rest. simpl.
    rewrite F. repeat split; try constructor.
    intros [v' [F' _]]. simpl in F'. discriminate F'.
Qed.

Lemma validate_schema_total (order : list (string * dtype)) (df : DataFrame) :
  validate_schema order df = Ok tt \/ exists e, validate_schema order df = Raise e.
Proof.
  destruct (validate_schema order df) as [[]|e]; [left; reflexivity | right; exists e; reflexivity].
Qed.

(** C4, as the code has it.  [validate_schema] visits the required columns in
    the order in which the set hands them out and stops at the first one that
    is absent or has another dtype than declared: with a
    [MissingColumnException] naming it if it is absent, with an
    [UnsupportedColumnTypeException] naming it, the declared dtype and the
    actual dtype otherwise.  It accepts exactly the tables in which every
    required column is present with its dtype; it fails whenever a required
    column is absent; and when a single required column is at fault the
    error is the one of that column, in whatever order the set is visited. *)
Theorem validate_schema_first_fault (order : list (string * dtype)) (df : DataFrame) :
  Permutation order _VALID_COLUMNS ->
  (validate_schema order df = Ok tt <-> Forall (column_ok df) _VALID_COLUMNS) /\
  (forall e, validate_schema order df = Raise e ->
     exists pre c post,
       order = (pre ++ c :: post)%list /\
       Forall (column_ok df) pre /\
       In c _VALID_COLUMNS /\
       ~ column_ok df c /\
       e = column_error df c) /\
  (forall c, has_column df (fst c) = false ->
     column_error df c = MissingColumnException (fst c)) /\
  (forall c v, find_column (fst c) (df_columns df) = Some v ->
     column_error df c = UnsupportedColumnTypeException (fst c) (snd c) (dtype_of v)) /\
  (forall c, In c _VALID_COLUMNS -> has_column df (fst c) = false ->
     exists e, validate_schema order df = Raise e) /\
  (forall c, In c _VALID_COLUMNS -> ~ column_ok df c ->
     (forall c', In c' _VALID_COLUMNS -> c' <> c -> column_ok df c') ->
     validate_schema order df = Raise (column_error df c)).
Proof.
  intros P.
  assert (forall e, validate_schema order df = Raise e ->
     exists pre c post,
       order = (pre ++ c :: post)%list /\ Forall (column_ok df) pre /\
       In c _VALID_COLUMNS /\ ~ column_ok df c /\ e = column_error df c) as first_fault.
  { intros e H. destruct (validate_schema_Raise order df e H) as [pre [c [post [O [Hpre [Hc He]]]]]].
    exists pre, c, post. repeat split; try assumption.
    apply (Permutation_in c P). rewrite O. apply in_elt. }
  assert (forall c, In c _VALID_COLUMNS -> ~ column_ok df c ->
                    exists e, validate_schema order df = Raise e) as fails.
  { intros c I N. destruct (validate_schema_total order df) as [V|V]; [|exact V].
    exfalso. apply N. apply (validate_schema_valid order df P) in V.
    apply (valid_columns_ok df c V I). }
  split; [apply (validate_schema_valid order df P)|].
  split; [exact first_fault|].
  split.
  { intros c H. unfold column_error. apply has_column_false in H. rewrite H. reflexivity. }
  split.
  { intros c v F. unfold column_error. rewrite F. reflexivity. }
  split.
  { intros c I H. apply (fails c I). intros [v [F _]].
    apply has_column_false in H. rewrite H in F. discriminate F. }
  intros c I N others. destruct (fails c I N) as [e H]. rewrite H. f_equal.
  destruct (first_fault e H) as [pre [c' [post [_ [_ [I' [N' ->]]]]]]].
  assert (c' = c) as ->; [|reflexivity].
  destruct c as [n d], c' as [n' d'].
  destruct (string_dec n' n) as [->|ne].
  - destruct d, d'; try reflexivity;
      exfalso; apply N'; apply others; try exact I'; discriminate.
  - exfalso. apply N'. apply others; [exact I'|]. intros E. injection E as -> _. apply ne. reflexivity.
Qed.

Lemma title_first_Permutation : Permutation title_first _VALID_COLUMNS.
Proof. unfold title_first, _VALID_COLUMNS. apply perm_swap. Qed.

Lemma validate_schema_first_fault_witness :
  validate_schema title_first no_id_no_title = Raise (MissingColumnException "title") /\
  validate_schema _VALID_COLUMNS no_id_no_title = Raise (MissingColumnException "id") /\
  (validate_schema title_first no_id_no_title = Ok tt
   <-> Forall (column_ok no_id_no_title) _VALID_COLUMNS).
Proof.
  split; [reflexivity|]. split; [reflexivity|].
  apply (validate_schema_first_fault title_first no_id_no_title title_first_Permutation).
Defined.

(** C4, as the claim has it, fails.  The table [bool_id_no_title] has no title
    column, so the claim asks for a [MissingColumnException] naming the
    title; visiting the columns in the order of the schema, the code stops
    earlier, at the id column, whose dtype is [bool]. *)
Lemma validate_schema_not_first_missing :
  ~ (forall order df name,
        Permutation order _VALID_COLUMNS ->
        spec_first_missing df = Some name ->
        validate_schema order df = Raise (MissingColumnException name)).
Proof.
  intros claim.
  specialize (claim _VALID_COLUMNS bool_id_no_title "title" (Permutation_refl _) eq_refl).
  vm_compute in claim. discriminate claim.
Qed.

(** Whatever the order in which the set is visited, some table with an absent
    required column does not get the [MissingColumnException] the claim asks
    for: the column visited first holds booleans, and the loop stops there. *)
Lemma validate_schema_any_order (order : list (string * dtype)) :
  Permutation order _VALID_COLUMNS ->
  exists df name e,
    spec_first_missing df = Some name /\
    validate_schema order df = Raise e /\
    e <> MissingColumnException name.
Proof.
  intros P. destruct order as [|[n dt] rest].
  - apply Permutation_nil in P. discriminate P.
  - assert (In (n, dt) _VALID_COLUMNS) as I by (apply (Permutation_in _ P); left; reflexivity).
    exists (mistyped_table n), (missing_for n),
           (UnsupportedColumnTypeException n dt bool_).
    rewrite validate_schema_step.
    simpl in I.
    repeat (destruct I as [E | I]; [injection E as <- <-; repeat split; discriminate|]).
    contradiction.
Qed.

(** The error depends on the order in which the set is visited as soon as two
    required columns are at fault. *)
Lemma validate_schema_order_matters :
  spec_first_missing no_id_no_title = Some "id" /\
  validate_schema title_first no_id_no_title = Raise (MissingColumnException "title") /\
  validate_schema _VALID_COLUMNS no_id_no_title = Raise (MissingColumnException "id") /\
  validate_schema _VALID_COLUMNS bool_id_no_title
  = Raise (UnsupportedColumnTypeException "id" int64 bool_).
Proof. repeat split. Qed.

(** ** The daily aggregation *)

Lemma no_index_clash_loc_mask (df : DataFrame) (m : list bool) :
  no_index_clash df -> no_index_clash (loc_mask df m).
Proof. unfold no_index_clash. rewrite !has_column_loc_mask. exact (fun H => H). Qed.

(** The frame [reset_index] builds when the name it inserts is free. *)
Lemma reset_index_Ok (df : DataFrame) :
  no_index_clash df ->
  exists name,
    (name = "index" \/ name = "level_0") /\
    reset_index df = Ok {| df_index := RangeIndex (nrows df);
                           df_columns := (name, Int64Values (df_index df)) :: df_columns df |}.
Proof.
  unfold no_index_clash, reset_index. intros H. rewrite H.
  exists (if has_column df "index" then "level_0" else "index").
  split; [destruct (has_column df "index"); [right | left]; reflexivity | reflexivity].
Qed.

Lemma reset_index_clash (df : DataFrame) :
  has_column df "index" = true -> has_column df "level_0" = true ->
  reset_index df = Raise (ValueError "cannot insert, already exists").
Proof. unfold reset_index. intros -> ->. reflexivity. Qed.

(** [to_datetime] raises on the first string the parser rejects. *)
Lemma to_datetime_Unparseable (parse : string -> parsed) (ts : list pyobj) (s : string) :
  In (PyStr s) ts ->
  parse s = Unparseable ->
  exists s',
    In (PyStr s') ts /\ parse s' = Unparseable /\
    to_datetime parse (ObjectValues ts) = Raise (ParserError s').
Proof.
  simpl. induction ts as [|o ts IH]; intros I U; [contradiction|].
  simpl. destruct o as [s0|].
  - destruct (parse s0) eqn:E.
    + destruct I as [I|I]; [injection I as ->; rewrite U in E; discriminate E|].
      destruct (IH I U) as [s' [I' [U' R]]]. exists s'. simpl. rewrite R.
      repeat split; [right; exact I' | exact U'].
    + destruct I as [I|I]; [injection I as ->; rewrite U in E; discriminate E|].
      destruct (IH I U) as [s' [I' [U' R]]]. exists s'. simpl. rewrite R.
      repeat split; [right; exact I' | exact U'].
    + exists s0. repeat split; [left; reflexivity | exact E].
  - destruct I as [I|I]; [discriminate I|].
    destruct (IH I U) as [s' [I' [U' R]]]. exists s'. simpl. rewrite R.
    repeat split; [right; exact I' | exact U'].
Qed.

(** C6, as the claim has it, fails.  [undated_post_clash] passes the
    validation, its only row is a top post, and the timestamp of that row is
    not a date; but the table has a column ["index"] and a column
    ["level_0"], and [reset_index], which runs before any timestamp is
    parsed, raises a [ValueError]. *)
Lemma unparseable_timestamp_not_always_ParserError :
  ~ (forall parse order df cond ts s,
        wf_frame df ->
        Permutation order _VALID_COLUMNS ->
        validate_schema order df = Ok tt ->
        condition df = Ok cond ->
        getitem (loc_mask df cond) C_TIMESTAMP = Ok (ObjectValues ts) ->
        In (PyStr s) ts ->
        parse s = Unparseable ->
        exists s', analyze_posts parse order df = Raise (ParserError s')).
Proof.
  intros claim.
  destruct (claim sample_parse _VALID_COLUMNS undated_post_clash [true]
              [PyStr "not a date"] "not a date") as [s' R].
  - split.
    + unfold column_names. simpl.
      repeat (constructor; [simpl; intuition discriminate|]). constructor.
    + repeat (constructor; [reflexivity|]). constructor.
  - apply Permutation_refl.
  - reflexivity.
  - reflexivity.
  - reflexivity.
  - left. reflexivity.
  - reflexivity.
  - vm_compute in R. discriminate R.
Qed.

Lemma undated_post_clash_raises :
  analyze_posts sample_parse _VALID_COLUMNS undated_post_clash
  = Raise (ValueError "cannot insert, already exists").
Proof. reflexivity. Qed.

Lemma rows_nil (df : DataFrame) : nrows df = 0%nat -> rows df = [].
Proof.
  intros H. rewrite <- length_rows in H. destruct (rows df); [reflexivity | discriminate H].
Qed.

(** The daily aggregation of a frame without rows. *)
Lemma collect_daily_top_posts_empty (parse : string -> parsed)
    (cols : list (string * values)) :
  no_index_clash {| df_index := []; df_columns := cols |} ->
  find_column C_TIMESTAMP cols = Some (ObjectValues []) ->
  find_column C_LIKES cols = Some (Int64Values []) ->
  __collect_daily_top_posts parse {| df_index := []; df_columns := cols |}
  = Ok (take {| df_index := []; df_columns := cols |} []).
Proof.
  intros N Ft Fl. unfold __collect_daily_top_posts.
  destruct (reset_index_Ok _ N) as [name [Hname ->]].
  unfold groupby, groupby_idxmax, getitem.
  destruct Hname as [-> | ->]; cbn; rewrite Ft; cbn; rewrite Fl; reflexivity.
Qed.

(** C9, as the code has it.  For a validated table without rows that does
    not have both a column ["index"] and a column ["level_0"],
    [analyze_posts] raises nothing and returns three tables without rows. *)
Theorem empty_table_analysis (parse : string -> parsed) (order : list (string * dtype))
    (df : DataFrame) :
  wf_frame df ->
  Permutation order _VALID_COLUMNS ->
  validate_schema order df = Ok tt ->
  nrows df = 0%nat ->
  no_index_clash df ->
  exists top other daily,
    analyze_posts parse order df = Ok (top, other, daily) /\
    nrows top = 0%nat /\ nrows other = 0%nat /\ nrows daily = 0%nat /\
    rows top = [] /\ rows other = [] /\ rows daily = [].
Proof.
  intros W P V Z N.
  pose proof (proj1 (validate_schema_valid order df P) V) as V'.
  pose proof (condition_rows df W V') as C. rewrite (rows_nil df Z) in C. simpl in C.
  destruct (column_ok_object df C_TIMESTAMP) as [ts Ft];
    [apply (valid_columns_ok df _ V'); simpl; tauto|].
  destruct (column_ok_int64 df C_LIKES) as [ls Fl];
    [apply (valid_columns_ok df _ V'); simpl; tauto|].
  assert (__collect_daily_top_posts parse (loc_mask df []) = Ok (take (loc_mask df []) [])) as D.
  { apply (collect_daily_top_posts_empty parse).
    - apply (no_index_clash_loc_mask df [] N).
    - pose proof (find_column_loc_mask df [] C_TIMESTAMP) as F. rewrite Ft in F. exact F.
    - pose proof (find_column_loc_mask df [] C_LIKES) as F. rewrite Fl in F. exact F. }
  exists (loc_mask df []), (loc_mask df (invert [])), (take (loc_mask df []) []).
  split; [unfold analyze_posts; rewrite V, C; cbn [bind]; rewrite D; reflexivity|].
  repeat split; apply rows_nil; reflexivity.
Qed.

Lemma empty_posts_wf : wf_frame empty_posts.
Proof. apply posts_table_wf; reflexivity. Qed.

Lemma empty_table_analysis_witness :
  exists top other daily,
    analyze_posts sample_parse _VALID_COLUMNS empty_posts = Ok (top, other, daily) /\
    nrows top = 0%nat /\ nrows other = 0%nat /\ nrows daily = 0%nat /\
    rows top = [] /\ rows other = [] /\ rows daily = [].
Proof.
  apply (empty_table_analysis sample_parse _VALID_COLUMNS empty_posts).
  - exact empty_posts_wf.
  - apply Permutation_refl.
  - reflexivity.
  - reflexivity.
  - reflexivity.
Defined.

(** C9, as the claim has it, fails.  [empty_posts_clash] has the seven
    required columns with their dtypes and no rows, and it has a column
    ["index"] and a column ["level_0"]: [reset_index] raises a
    [ValueError]. *)
Lemma empty_table_not_always_analysed :
  ~ (forall parse order df,
        wf_frame df ->
        Permutation order _VALID_COLUMNS ->
        validate_schema order df = Ok tt ->
        nrows df = 0%nat ->
        exists top other daily, analyze_posts parse order df = Ok (top, other, daily)).
Proof.
  intros claim.
  destruct (claim sample_parse _VALID_COLUMNS empty_posts_clash) as [top [other [daily R]]].
  - split.
    + unfold column_names. simpl.
      repeat (constructor; [simpl; intuition discriminate|]). constructor.
    + repeat (constructor; [reflexivity|]). constructor.
  - apply Permutation_refl.
  - reflexivity.
  - reflexivity.
  - vm_compute in R. discriminate R.
Qed.

Lemma empty_posts_clash_raises :
  analyze_posts sample_parse _VALID_COLUMNS empty_posts_clash
  = Raise (ValueError "cannot insert, already exists").
Proof. reflexivity. Qed.

(** C1 on [misaligned_posts].  The top partition holds the posts 2 and 3, of
    the same day, with 5 and 10 likes; their index labels are 1 and 2.
    [reset_index] renumbers the rows 0 and 1, the key (the day, still
    labelled 1 and 2) is aligned with the renumbered frame by label, so that
    row 0 gets no day and row 1 gets the day of post 2; [idxmax] answers 1,
    and [df.loc[1]] is post 2: the daily top post of that day is the post
    with 5 likes, and the daily-top table is not the one of the
    specification. *)
Theorem daily_top_misaligned (parse : string -> parsed) (order : list (string * dtype)) :
  Permutation order _VALID_COLUMNS ->
  parse "2015-10-16 08:00:00" = Timestamp 1444982400000000000 ->
  parse "2015-10-16 23:42:44" = Timestamp 1445038964000000000 ->
  exists top other daily,
    analyze_posts parse order misaligned_posts = Ok (top, other, daily) /\
    df_index top = [1; 2] /\
    map (fun r => (field r "id", row_likes r, row_day parse r)) (rows top)
    = [(Some (CInt 2), 5, Some 16724); (Some (CInt 3), 10, Some 16724)] /\
    map (fun r => (field r "id", row_likes r, row_day parse r)) (rows daily)
    = [(Some (CInt 2), 5, Some 16724)] /\
    ~ spec_daily_top parse (rows top) (rows daily).
Proof.
  intros P H1 H2.
  assert (validate_schema order misaligned_posts = Ok tt) as V.
  { apply (validate_schema_valid order _ P). apply column_okb_all. reflexivity. }
  assert (condition misaligned_posts = Ok [false; true; true]) as C by reflexivity.
  eexists. eexists. eexists. split.
  - unfold analyze_posts. rewrite V, C. cbn [bind].
    unfold __collect_daily_top_posts.
    replace (reset_index (loc_mask misaligned_posts [false; true; true]))
      with (Ok (mkDataFrame [0; 1]
                  (("index", Int64Values [1; 2])
                   :: df_columns (loc_mask misaligned_posts [false; true; true]))))
      by reflexivity.
    cbn [bind].
    replace (getitem (loc_mask misaligned_posts [false; true; true]) C_TIMESTAMP)
      with (Ok (ObjectValues [PyStr "2015-10-16 08:00:00"; PyStr "2015-10-16 23:42:44"]))
      by reflexivity.
    cbn [bind to_datetime traverse]. rewrite H1, H2. cbn [bind].
    vm_compute. reflexivity.
  - assert (forall r, In r (rows (loc_mask misaligned_posts [false; true; true])) ->
                      row_day parse r = Some 16724) as day.
    { intros r [<- | [<- | []]]; unfold row_day; simpl; [rewrite H1 | rewrite H2]; reflexivity. }
    split; [reflexivity|].
    split.
    { simpl. rewrite !day; [reflexivity | right; left; reflexivity | left; reflexivity]. }
    split.
    { simpl. rewrite day; [reflexivity | left; reflexivity]. }
    intros [_ [_ [_ S]]].
    destruct (S 16724) as [r [Ir [[_ [before [after [E [_ A]]]]] _]]].
    { eexists. split; [left; reflexivity | apply day; left; reflexivity]. }
    destruct Ir as [<- | []].
    destruct before as [|r0 before].
    + injection E as E. subst after.
      assert (10 <= 5) as absurd; [|lia].
      apply (A _ (or_introl eq_refl)). apply day. right. left. reflexivity.
    + injection E as _ E. destruct before as [|r1 before].
      * injection E as E _. discriminate E.
      * injection E as _ E. destruct before; discriminate E.
Qed.

Lemma daily_top_misaligned_witness :
  exists top other daily,
    analyze_posts sample_parse _VALID_COLUMNS misaligned_posts = Ok (top, other, daily) /\
    df_index top = [1; 2] /\
    map (fun r => (field r "id", row_likes r, row_day sample_parse r)) (rows top)
    = [(Some (CInt 2), 5, Some 16724); (Some (CInt 3), 10, Some 16724)] /\
    map (fun r => (field r "id", row_likes r, row_day sample_parse r)) (rows daily)
    = [(Some (CInt 2), 5, Some 16724)] /\
    ~ spec_daily_top sample_parse (rows top) (rows daily).
Proof.
  apply (daily_top_misaligned sample_parse _VALID_COLUMNS).
  - apply Permutation_refl.
  - reflexivity.
  - reflexivity.
Defined.

(** On [aligned_posts] the labels of the top partition are 0 and 1, the key
    needs no alignment, and the daily top post is the one with 10 likes. *)
Lemma daily_top_aligned :
  exists top other daily,
    analyze_posts sample_parse _VALID_COLUMNS aligned_posts = Ok (top, other, daily) /\
    df_index top = [0; 1] /\
    map (fun r => (field r "id", field r "likes")) (rows daily)
    = [(Some (CInt 3), Some (CInt 10))].
Proof.
  eexists. eexists. eexists. split; [vm_compute; reflexivity|].
  vm_compute. split; reflexivity.
Qed.

(** On [late_top_post] the top partition is one post, labelled 1; the
    renumbered frame has the label 0 only, no key is aligned with it, and the
    day of the post has no daily top post. *)
Lemma daily_top_drops_day :
  exists top other daily,
    analyze_posts sample_parse _VALID_COLUMNS late_top_post = Ok (top, other, daily) /\
    map (fun r => field r "id") (rows top) = [Some (CInt 2)] /\
    rows daily = [].
Proof.
  eexists. eexists. eexists. split; [vm_compute; reflexivity|].
  vm_compute. split; reflexivity.
Qed.

(** A timestamp that the parser reads as NaT raises nothing: its row belongs
    to no group and has no part in the daily top posts. *)
Lemma blank_timestamp_skipped (parse : string -> parsed) :
  parse "" = NaT ->
  exists top other daily,
    analyze_posts parse _VALID_COLUMNS blank_timestamp_post = Ok (top, other, daily) /\
    nrows top = 1%nat /\
    rows daily = [].
Proof.
  intros H. eexists. eexists. eexists. split.
  - unfold analyze_posts.
    replace (validate_schema _VALID_COLUMNS blank_timestamp_post) with (Ok tt) by reflexivity.
    replace (condition blank_timestamp_post) with (Ok [true]) by reflexivity.
    cbn [bind]. unfold __collect_daily_top_posts.
    replace (reset_index (loc_mask blank_timestamp_post [true]))
      with (Ok (mkDataFrame [0]
                  (("index", Int64Values [0])
                   :: df_columns (loc_mask blank_timestamp_post [true]))))
      by reflexivity.
    cbn [bind].
    replace (getitem (loc_mask blank_timestamp_post [true]) C_TIMESTAMP)
      with (Ok (ObjectValues [PyStr ""])) by reflexivity.
    cbn [bind to_datetime traverse]. rewrite H. cbn [bind].
    vm_compute. reflexivity.
  - vm_compute. split; reflexivity.
Qed.

(** ** The daily top posts are top posts *)

Lemma length_mask_filter {A B : Type} (m : list bool) (xs : list A) (ys : list B) :
  List.length xs = List.length ys ->
  List.length (mask_filter m xs) = List.length (mask_filter m ys).
Proof.
  revert xs ys. induction m as [|b m IH]; intros [|x xs] [|y ys] L;
    simpl in *; try reflexivity; try discriminate L.
  injection L as L. destruct b; simpl; rewrite (IH xs ys L); reflexivity.
Qed.

Lemma size_values_mask (m : list bool) (v : values) (idx : list Z) :
  size v = List.length idx ->
  size (values_mask m v) = List.length (mask_filter m idx).
Proof. destruct v; simpl; apply length_mask_filter. Qed.

Lemma wf_frame_loc_mask (df : DataFrame) (m : list bool) :
  wf_frame df -> wf_frame (loc_mask df m).
Proof.
  intros [N W]. split.
  - rewrite column_names_loc_mask. exact N.
  - unfold loc_mask, nrows in *. simpl. apply Forall_map.
    apply (Forall_impl _ (P := fun c => size (snd c) = List.length (df_index df))); [|exact W].
    intros [n v] H. simpl in *. apply size_values_mask. exact H.
Qed.

Lemma take_list_cons {A : Type} (p : nat) (ps : list nat) (xs : list A) :
  take_list (p :: ps) xs
  = (match nth_error xs p with Some x => [x] | None => [] end ++ take_list ps xs)%list.
Proof. reflexivity. Qed.

Lemma In_take_list {A : Type} (ps : list nat) (xs : list A) (x : A) :
  In x (take_list ps xs) -> In x xs.
Proof.
  unfold take_list. rewrite in_flat_map. intros [p [_ H]].
  destruct (nth_error xs p) as [y|] eqn:E; [|contradiction].
  destruct H as [<- | []]. apply (nth_error_In _ _ E).
Qed.

Lemma nth_error_tl {A : Type} (xs : list A) (p : nat) :
  nth_error (tl xs) p = nth_error xs (S p).
Proof. destruct xs; [destruct p|]; reflexivity. Qed.

(** The row at a position. *)
Lemma nth_error_rows_of (idx : list Z) (cols : list (string * list cell)) (p : nat) (l : Z) :
  nth_error idx p = Some l ->
  nth_error (rows_of idx cols) p
  = Some (mkRow l (map (fun c => (fst c, nth_error (snd c) p)) cols)).
Proof.
  revert cols p. induction idx as [|l0 idx IH]; intros cols [|p] H; simpl in H; try discriminate H.
  - injection H as ->. simpl. do 2 f_equal; apply map_ext; intros [n cs];
      destruct cs; reflexivity.
  - simpl. rewrite (IH _ _ H). do 2 f_equal; rewrite map_map; apply map_ext;
      intros [n cs]; simpl; rewrite nth_error_tl; reflexivity.
Qed.

Lemma length_rows_of (idx : list Z) (cols : list (string * list cell)) :
  List.length (rows_of idx cols) = List.length idx.
Proof.
  revert cols. induction idx as [|l idx IH]; intros cols; simpl; [|rewrite IH]; reflexivity.
Qed.

Lemma rows_of_take (ps : list nat) (idx : list Z) (cols : list (string * list cell)) :
  Forall (fun c => List.length (snd c) = List.length idx) cols ->
  rows_of (take_list ps idx) (map (fun c => (fst c, take_list ps (snd c))) cols)
  = take_list ps (rows_of idx cols).
Proof.
  intros W. rewrite Forall_forall in W.
  induction ps as [|p ps IH]; [reflexivity|].
  rewrite !take_list_cons.
  destruct (nth_error idx p) as [l|] eqn:E.
  - assert (forall c, In c cols -> exists x, nth_error (snd c) p = Some x) as inside.
    { intros c I. destruct (nth_error (snd c) p) as [x|] eqn:F; [exists x; reflexivity|].
      exfalso. apply nth_error_None in F. rewrite (W c I) in F.
      assert (p < List.length idx)%nat by (apply nth_error_Some; rewrite E; discriminate). lia. }
    rewrite (nth_error_rows_of idx cols p l E). simpl. f_equal.
    + f_equal. rewrite map_map. apply map_ext_in. intros c I. simpl.
      destruct (inside c I) as [x ->]. reflexivity.
    + rewrite <- IH. f_equal. rewrite map_map. apply map_ext_in. intros c I. simpl.
      destruct (inside c I) as [x ->]. reflexivity.
  - assert (forall c, In c cols -> nth_error (snd c) p = None) as outside.
    { intros c I. apply nth_error_None. rewrite (W c I). apply nth_error_None. exact E. }
    assert (nth_error (rows_of idx cols) p = None) as ->.
    { apply nth_error_None. rewrite length_rows_of. apply nth_error_None. exact E. }
    simpl. rewrite <- IH. f_equal. apply map_ext_in. intros c I. simpl.
    rewrite (outside c I). reflexivity.
Qed.

Lemma cells_values_take (ps : list nat) (v : values) :
  cells (values_take ps v) = take_list ps (cells v).
Proof.
  assert (forall (A B : Type) (g : A -> B) (xs : list A),
             map g (take_list ps xs) = take_list ps (map g xs)) as M.
  { intros A B g xs. unfold take_list. induction ps as [|p ps IH]; [reflexivity|].
    simpl. rewrite map_app, IH, nth_error_map.
    destruct (nth_error xs p); reflexivity. }
  destruct v; simpl; apply M.
Qed.

(** Selecting positions selects whole rows. *)
Lemma rows_take (df : DataFrame) (ps : list nat) :
  wf_frame df -> rows (take df ps) = take_list ps (rows df).
Proof.
  intros [_ W]. unfold rows, cell_columns, take. simpl.
  rewrite <- rows_of_take.
  - f_equal. rewrite !map_map. apply map_ext. intros [n v]. simpl.
    rewrite cells_values_take. reflexivity.
  - apply Forall_map.
    apply (Forall_impl _ (P := fun c => size (snd c) = nrows df)); [|exact W].
    intros [n v] H. simpl in *. rewrite length_cells. exact H.
Qed.

Lemma collect_daily_top_posts_take (parse : string -> parsed) (df daily : DataFrame) :
  __collect_daily_top_posts parse df = Ok daily ->
  exists ps, daily = take df ps.
Proof.
  unfold __collect_daily_top_posts. intros H.
  apply bind_Ok in H. destruct H as [reset [_ H]].
  apply bind_Ok in H. destruct H as [timestamps [_ H]].
  apply bind_Ok in H. destruct H as [datetimes [_ H]].
  apply bind_Ok in H. destruct H as [grouped [_ H]].
  apply bind_Ok in H. destruct H as [labels [_ H]].
  unfold loc_labels in H. apply bind_Ok in H. destruct H as [pss [_ H]].
  injection H as <-. exists (List.concat pss). reflexivity.
Qed.

(** Whatever rows the daily aggregation returns, they are rows of the top
    partition: the first part of C1 holds for every input. *)
Lemma daily_top_subset_top (parse : string -> parsed) (order : list (string * dtype))
    (df top other daily : DataFrame) :
  wf_frame df ->
  analyze_posts parse order df = Ok (top, other, daily) ->
  (forall r, In r (rows daily) -> In r (rows top)) /\
  (forall i, In i (ids daily) -> In i (ids top)).
Proof.
  intros W H. apply analyze_posts_Ok in H.
  destruct H as [_ [cond [_ [-> [_ D]]]]].
  destruct (collect_daily_top_posts_take parse _ _ D) as [ps ->].
  assert (forall r, In r (rows (take (loc_mask df cond) ps)) -> In r (rows (loc_mask df cond))) as S.
  { intros r. rewrite (rows_take _ ps (wf_frame_loc_mask df cond W)). apply In_take_list. }
  split; [exact S|].
  intros i. unfold ids. rewrite !in_map_iff. intros [r [E I]]. exists r. split; [exact E|].
  apply S. exact I.
Qed.

(** ** The daily aggregation on a frame with the default index *)

Lemma traverse_Ok {A B : Type} (f : A -> result B) (xs : list A) (ys : list B) :
  traverse f xs = Ok ys -> Forall2 (fun x y => f x = Ok y) xs ys.
Proof.
  revert ys. induction xs as [|x xs IH]; simpl; intros ys H.
  - injection H as <-. constructor.
  - apply bind_Ok in H. destruct H as [y [Hy H]].
    apply bind_Ok in H. destruct H as [ys' [Hys H]].
    injection H as <-. constructor; [exact Hy | apply IH; exact Hys].
Qed.

Lemma to_datetime_Ok (parse : string -> parsed) (ts : list pyobj) (dts : list (option Z)) :
  to_datetime parse (ObjectValues ts) = Ok dts -> dts = map (datetime_of parse) ts.
Proof.
  simpl. intros H. apply traverse_Ok in H.
  induction H as [|o d ts dts Ho _ IH]; [reflexivity|].
  simpl. rewrite <- IH. f_equal.
  destruct o as [s|]; simpl in *.
  - destruct (parse s); try discriminate Ho; injection Ho as <-; reflexivity.
  - injection Ho as <-. reflexivity.
Qed.

(** *** The first maximum *)

Lemma best_from_likes (rs : list Row) (r : Row) :
  row_likes r <= row_likes (best_from r rs).
Proof.
  revert r. induction rs as [|r1 rs IH]; intros r; simpl; [lia|].
  destruct (row_likes r <? row_likes r1) eqn:E.
  - apply Z.ltb_lt in E. specialize (IH r1). lia.
  - apply IH.
Qed.

Lemma best_from_split (rs : list Row) (r : Row) :
  exists before after,
    r :: rs = (before ++ best_from r rs :: after)%list /\
    (forall r', In r' before -> row_likes r' < row_likes (best_from r rs)) /\
    (forall r', In r' after -> row_likes r' <= row_likes (best_from r rs)).
Proof.
  revert r. induction rs as [|r1 rs IH]; intros r; simpl.
  - exists [], []. repeat split; intros r' [].
  - destruct (row_likes r <? row_likes r1) eqn:E.
    + apply Z.ltb_lt in E. destruct (IH r1) as [before [after [S [B A]]]].
      exists (r :: before), after. simpl. rewrite S. split; [reflexivity|]. split; [|exact A].
      intros r' [<- | I]; [|apply B; exact I].
      pose proof (best_from_likes rs r1). lia.
    + apply Z.ltb_ge in E. destruct (IH r) as [before [after [S [B A]]]].
      destruct before as [|r0 before]; simpl in S.
      * injection S as S0 S. exists [], (r1 :: rs). simpl. rewrite <- S0.
        split; [reflexivity|]. split; [intros r' []|].
        intros r' [<- | I]; [rewrite <- S0 in *; lia|].
        rewrite S in I. rewrite S0. apply A. exact I.
      * injection S as <- S. exists (r :: r1 :: before), after.
        split; [simpl; do 2 f_equal; exact S|]. split; [|exact A].
        assert (row_likes r < row_likes (best_from r rs)) as Lr by (apply B; left; reflexivity).
        intros r' [<- | [<- | I]]; [exact Lr | lia | apply B; right; exact I].
Qed.

Lemma idxmax_from_rows (rs : list Row) (r : Row) :
  idxmax_from (row_label r) (row_likes r) (map (fun r' => (row_label r', row_likes r')) rs)
  = row_label (best_from r rs).
Proof.
  revert r. induction rs as [|r1 rs IH]; intros r; simpl; [reflexivity|].
  destruct (row_likes r <? row_likes r1); apply IH.
Qed.

Lemma idxmax_rows (rs : list Row) (l : Z) :
  idxmax (map (fun r => (row_label r, row_likes r)) rs) = Ok l ->
  exists r rs', rs = r :: rs' /\ l = row_label (best_from r rs').
Proof.
  destruct rs as [|r rs']; simpl; [discriminate|].
  intros H. injection H as <-. exists r, rs'. split; [reflexivity|].
  apply idxmax_from_rows.
Qed.

(** *** The group keys *)

Lemma In_insert_key (k k0 : Z) (ks : list Z) :
  In k (insert_key k0 ks) <-> k = k0 \/ In k ks.
Proof.
  induction ks as [|k1 ks IH]; simpl.
  - intuition.
  - destruct (k0 <? k1) eqn:E1; simpl; [intuition|].
    destruct (k0 =? k1) eqn:E2; simpl.
    + apply Z.eqb_eq in E2. subst. intuition.
    + rewrite IH. intuition.
Qed.

Lemma insert_key_sorted (k0 : Z) (ks : list Z) :
  StronglySorted Z.lt ks -> StronglySorted Z.lt (insert_key k0 ks).
Proof.
  induction ks as [|k1 ks IH]; simpl; intros S.
  - repeat constructor.
  - inversion S as [|a l S' F]; subst.
    destruct (k0 <? k1) eqn:E1.
    + apply Z.ltb_lt in E1. constructor; [exact S|].
      constructor; [exact E1|].
      apply (Forall_impl _ (P := Z.lt k1)); [intros k; lia | exact F].
    + apply Z.ltb_ge in E1. destruct (k0 =? k1) eqn:E2; [exact S|].
      apply Z.eqb_neq in E2. constructor; [apply IH; exact S'|].
      apply Forall_forall. intros k I. apply In_insert_key in I.
      destruct I as [-> | I]; [lia|]. rewrite Forall_forall in F. apply F. exact I.
Qed.

Lemma In_group_keys (k : Z) (keys : list (option Z)) :
  In k (group_keys keys) <-> In (Some k) keys.
Proof.
  induction keys as [|[k0|] keys IH]; simpl.
  - tauto.
  - rewrite In_insert_key, IH. split.
    + intros [-> | I]; [left; reflexivity | right; exact I].
    + intros [E | I]; [injection E as ->; left; reflexivity | right; exact I].
  - rewrite IH. split; [intros I; right; exact I | intros [E | I]; [discriminate E | exact I]].
Qed.

Lemma group_keys_sorted (keys : list (option Z)) : StronglySorted Z.lt (group_keys keys).
Proof.
  induction keys as [|[k0|] keys IH]; simpl.
  - constructor.
  - apply insert_key_sorted. exact IH.
  - exact IH.
Qed.

Lemma sorted_NoDup (ks : list Z) : StronglySorted Z.lt ks -> NoDup ks.
Proof.
  induction 1 as [|k ks S IH F]; constructor; [|exact IH].
  intros I. rewrite Forall_forall in F. specialize (F k I). lia.
Qed.

(** *** Labels and positions *)

Lemma positions_from_absent (p : nat) (l : Z) (idx : list Z) :
  ~ In l idx -> positions_from p l idx = [].
Proof.
  revert p. induction idx as [|l' idx IH]; intros p N; simpl; [reflexivity|].
  destruct (l =? l') eqn:E.
  - apply Z.eqb_eq in E. exfalso. apply N. left. symmetry. exact E.
  - apply IH. intros I. apply N. right. exact I.
Qed.

Lemma positions_from_unique (p q : nat) (l : Z) (idx : list Z) :
  NoDup idx -> nth_error idx q = Some l -> positions_from p l idx = [(p + q)%nat].
Proof.
  revert p q. induction idx as [|l' idx IH]; intros p q N H; [destruct q; discriminate H|].
  inversion N as [|a b Hnot N']; subst. simpl. destruct q as [|q]; simpl in H.
  - injection H as ->. rewrite Z.eqb_refl. rewrite (positions_from_absent _ _ _ Hnot).
    f_equal. lia.
  - assert (l <> l') as ne.
    { intros ->. apply Hnot. apply (nth_error_In _ _ H). }
    apply Z.eqb_neq in ne. rewrite ne. rewrite (IH (S p) q N' H). f_equal. lia.
Qed.

Lemma get_loc_unique (idx : list Z) (q : nat) (l : Z) :
  NoDup idx -> nth_error idx q = Some l -> get_loc idx l = Ok [q].
Proof.
  intros N H. unfold get_loc. rewrite (positions_from_unique 0 q l idx N H). reflexivity.
Qed.

Lemma RangeIndex_NoDup (n : nat) : NoDup (RangeIndex n).
Proof.
  unfold RangeIndex. generalize (seq_NoDup n 0).
  induction (seq 0 n) as [|a l IH]; simpl; intros N; [constructor|].
  inversion N as [|a' l' Hnot N']; subst. constructor; [|apply IH; exact N'].
  rewrite in_map_iff. intros [b [E I]]. apply Nat2Z.inj in E. subst b. apply Hnot. exact I.
Qed.

(** *** Columns of the top partition, row by row *)

Lemma map_row_label (idx : list Z) (cols : list (string * list cell)) :
  map row_label (rows_of idx cols) = idx.
Proof.
  revert cols. induction idx as [|l idx IH]; intros cols; simpl; [|rewrite IH]; reflexivity.
Qed.

Lemma rows_likes (df : DataFrame) (ls : list Z) :
  wf_frame df ->
  find_column C_LIKES (df_columns df) = Some (Int64Values ls) ->
  map row_likes (rows df) = ls.
Proof.
  intros W F. pose proof (column_fields df _ _ W F) as R. unfold C_LIKES in R. simpl in R.
  unfold row_likes.
  rewrite <- (map_map (fun r => field r "likes")
                      (fun c => match c with Some (CInt z) => z | _ => 0 end)).
  rewrite R, !map_map. simpl. apply map_id.
Qed.

Lemma rows_days (parse : string -> parsed) (df : DataFrame) (ts : list pyobj) :
  wf_frame df ->
  find_column C_TIMESTAMP (df_columns df) = Some (ObjectValues ts) ->
  map (row_day parse) (rows df) = map date (map (datetime_of parse) ts).
Proof.
  intros W F. pose proof (column_fields df _ _ W F) as R. unfold C_TIMESTAMP in R. simpl in R.
  unfold row_day.
  rewrite <- (map_map (fun r => field r "timestamp")
                      (fun c => match c with
                                | Some (CObj (PyStr s)) =>
                                    match parse s with
                                    | Timestamp ns => Some (ns / ns_per_day)
                                    | _ => None
                                    end
                                | _ => None
                                end)).
  rewrite R, !map_map. apply map_ext. intros [s|]; simpl; [|reflexivity].
  destruct (parse s); reflexivity.
Qed.

Lemma combine_map_both {A B C : Type} (f : A -> B) (g : A -> C) (l : list A) :
  combine (map f l) (map g l) = map (fun x => (f x, g x)) l.
Proof. induction l as [|x l IH]; simpl; [|rewrite IH]; reflexivity. Qed.

(** *** Lists once more *)

Lemma filter_decompose {A : Type} (f : A -> bool) (l l1 l2 : list A) (x : A) :
  filter f l = (l1 ++ x :: l2)%list ->
  exists p1 p2, l = (p1 ++ x :: p2)%list /\ filter f p1 = l1 /\ filter f p2 = l2.
Proof.
  revert l1. induction l as [|a l IH]; intros l1 H; simpl in H.
  - destruct l1; discriminate H.
  - destruct (f a) eqn:E.
    + destruct l1 as [|b l1]; simpl in H; injection H as -> H.
      * exists [], l. repeat split. exact H.
      * destruct (IH l1 H) as [p1 [p2 [-> [F1 F2]]]].
        exists (b :: p1), p2. simpl. rewrite E, F1. repeat split. exact F2.
    + destruct (IH l1 H) as [p1 [p2 [-> [F1 F2]]]].
      exists (a :: p1), p2. simpl. rewrite E. repeat split; assumption.
Qed.

Lemma Forall2_In_l {A B : Type} (P : A -> B -> Prop) (xs : list A) (ys : list B) (x : A) :
  Forall2 P xs ys -> In x xs -> exists y, In y ys /\ P x y.
Proof.
  induction 1 as [|a b xs ys Pab _ IH]; intros I; [contradiction|].
  destruct I as [<- | I].
  - exists b. split; [left; reflexivity | exact Pab].
  - destruct (IH I) as [y [Iy Py]]. exists y. split; [right; exact Iy | exact Py].
Qed.

Lemma Forall2_In_r {A B : Type} (P : A -> B -> Prop) (xs : list A) (ys : list B) (y : B) :
  Forall2 P xs ys -> In y ys -> exists x, In x xs /\ P x y.
Proof.
  induction 1 as [|a b xs ys Pab _ IH]; intros I; [contradiction|].
  destruct I as [<- | I].
  - exists a. split; [left; reflexivity | exact Pab].
  - destruct (IH I) as [x [Ix Px]]. exists x. split; [right; exact Ix | exact Px].
Qed.

Lemma best_from_In (rs : list Row) (r : Row) : In (best_from r rs) (r :: rs).
Proof.
  destruct (best_from_split rs r) as [before [after [S _]]]. rewrite S. apply in_elt.
Qed.

Lemma key_is_Some (k : Z) (x : option Z) : key_is k x = true <-> x = Some k.
Proof.
  destruct x as [k'|]; simpl.
  - rewrite Z.eqb_eq. split; [intros ->; reflexivity | intros E; injection E as ->; reflexivity].
  - split; discriminate.
Qed.

(** *** From the first maximum of each day to the specification *)

Lemma best_of_day_spec (parse : string -> parsed) (top : list Row) (k : Z) (b : Row) :
  best_of_day parse top k b ->
  In b top /\ spec_top_of_day parse top k b.
Proof.
  intros [r [rs [F ->]]].
  pose proof (best_from_In rs r) as I. rewrite <- F in I. apply filter_In in I.
  destruct I as [I D]. apply key_is_Some in D.
  split; [exact I|]. split; [exact D|].
  destruct (best_from_split rs r) as [before' [after' [S [B A]]]].
  rewrite <- F in S. destruct (filter_decompose _ _ _ _ _ S) as [before [after [-> [Fb Fa]]]].
  exists before, after. split; [reflexivity|]. split.
  - intros r' I' D'. apply B. rewrite <- Fb. apply filter_In.
    split; [exact I' | apply key_is_Some; exact D'].
  - intros r' I' D'. apply A. rewrite <- Fa. apply filter_In.
    split; [exact I' | apply key_is_Some; exact D'].
Qed.

Lemma best_of_day_unique (parse : string -> parsed) (top : list Row) (k : Z) (b b' : Row) :
  best_of_day parse top k b -> best_of_day parse top k b' -> b' = b.
Proof.
  intros [r [rs [F ->]]] [r' [rs' [F' ->]]]. rewrite F in F'. injection F' as <- <-.
  reflexivity.
Qed.

Lemma bests_spec (parse : string -> parsed) (top bs : list Row) :
  Forall2 (best_of_day parse top) (group_keys (map (row_day parse) top)) bs ->
  spec_daily_top parse top bs.
Proof.
  intros H.
  assert (forall k b, best_of_day parse top k b -> row_day parse b = Some k) as day_of.
  { intros k b P. apply (best_of_day_spec parse top k b P). }
  split; [|split; [|split]].
  - intros b I. destruct (Forall2_In_r _ _ _ _ H I) as [k [_ P]].
    apply (best_of_day_spec parse top k b P).
  - intros b I. destruct (Forall2_In_r _ _ _ _ H I) as [k [_ P]].
    exists k. apply (day_of k b P).
  - pose proof (sorted_NoDup _ (group_keys_sorted (map (row_day parse) top))) as N.
    induction H as [|k b ks bs' P H IH]; [constructor|].
    inversion N as [|k' ks' Hnot N']; subst. constructor; [|apply IH; exact N'].
    intros I. destruct (Forall2_In_r _ _ _ _ H I) as [k' [Ik' P']].
    pose proof (day_of k b P) as D. rewrite (day_of k' b P') in D. injection D as ->.
    apply Hnot. exact Ik'.
  - intros day [r [I D]].
    assert (In day (group_keys (map (row_day parse) top))) as Ik.
    { apply In_group_keys. rewrite <- D. apply in_map. exact I. }
    destruct (Forall2_In_l _ _ _ _ H Ik) as [b [Ib P]].
    exists b. split; [exact Ib|]. split; [apply (best_of_day_spec parse top day b P)|].
    intros b' Ib' D'. destruct (Forall2_In_r _ _ _ _ H Ib') as [k' [_ P']].
    rewrite (day_of k' b' P') in D'. injection D' as ->.
    apply (best_of_day_unique parse top day b b' P P').
Qed.

(** *** The code on an aligned key *)

Lemma take_list_app {A : Type} (ps qs : list nat) (xs : list A) :
  take_list (ps ++ qs) xs = (take_list ps xs ++ take_list qs xs)%list.
Proof. unfold take_list. apply flat_map_app. Qed.

Lemma labels_rows (parse : string -> parsed) (top : list Row) (keys labels : list Z)
    (pss : list (list nat)) :
  NoDup (map row_label top) ->
  Forall2 (fun k l => exists b, best_of_day parse top k b /\ l = row_label b) keys labels ->
  Forall2 (fun l ps => get_loc (map row_label top) l = Ok ps) labels pss ->
  Forall2 (best_of_day parse top) keys (take_list (List.concat pss) top).
Proof.
  intros N H. revert pss. induction H as [|k l keys labels [b [P ->]] _ IH]; intros pss G.
  - inversion G; subst. constructor.
  - inversion G as [|l' ps labels' pss' Gl G']; subst. simpl. rewrite take_list_app.
    pose proof (proj1 (best_of_day_spec parse top k b P)) as I.
    apply In_nth_error in I. destruct I as [p Hp].
    rewrite (get_loc_unique (map row_label top) p (row_label b) N) in Gl;
      [|rewrite nth_error_map, Hp; reflexivity].
    injection Gl as <-. unfold take_list at 1. simpl. rewrite Hp. simpl.
    constructor; [exact P | apply IH; exact G'].
Qed.

Lemma reset_index_inv (df reset : DataFrame) :
  reset_index df = Ok reset ->
  exists name,
    (name = "index" \/ name = "level_0") /\
    reset = {| df_index := RangeIndex (nrows df);
               df_columns := (name, Int64Values (df_index df)) :: df_columns df |}.
Proof.
  unfold reset_index.
  destruct (has_column df (if has_column df "index" then "level_0" else "index"));
    [discriminate|].
  intros H. injection H as <-.
  exists (if has_column df "index" then "level_0" else "index").
  split; [destruct (has_column df "index"); [right | left]; reflexivity | reflexivity].
Qed.

Lemma list_Z_eqb_refl (l : list Z) : list_Z_eqb l l = true.
Proof.
  unfold list_Z_eqb. destruct (list_eq_dec Z.eq_dec l l) as [_|ne]; [reflexivity|].
  exfalso. apply ne. reflexivity.
Qed.

(** With the default index on [df], the key is used as it is and the rows
    returned are, day by day in ascending order, the first row of the day
    with the most likes. *)
Lemma collect_daily_top_posts_aligned (parse : string -> parsed) (df daily : DataFrame)
    (ts : list pyobj) (ls : list Z) :
  wf_frame df ->
  df_index df = RangeIndex (nrows df) ->
  find_column C_TIMESTAMP (df_columns df) = Some (ObjectValues ts) ->
  find_column C_LIKES (df_columns df) = Some (Int64Values ls) ->
  __collect_daily_top_posts parse df = Ok daily ->
  Forall2 (best_of_day parse (rows df)) (group_keys (map (row_day parse) (rows df)))
          (rows daily).
Proof.
  intros W A Ft Fl H. unfold __collect_daily_top_posts in H.
  apply bind_Ok in H. destruct H as [reset [Hr H]].
  apply reset_index_inv in Hr. destruct Hr as [name [Hname ->]].
  apply bind_Ok in H. destruct H as [timestamps [Ht H]].
  unfold getitem in Ht. rewrite Ft in Ht. injection Ht as <-.
  apply bind_Ok in H. destruct H as [dts [Hd H]].
  apply to_datetime_Ok in Hd. subst dts.
  apply bind_Ok in H. destruct H as [g [Hg H]].
  unfold groupby, _convert_grouper in Hg. cbn [df_index bind] in Hg.
  rewrite A, list_Z_eqb_refl in Hg. injection Hg as <-.
  apply bind_Ok in H. destruct H as [labels [Hl H]].
  unfold groupby_idxmax, getitem in Hl. cbn [gb_obj gb_keys df_columns df_index find_column] in Hl.
  assert (String.eqb C_LIKES name = false) as ne
    by (destruct Hname as [-> | ->]; reflexivity).
  rewrite ne, Fl in Hl. cbn [bind] in Hl.
  unfold loc_labels in H. apply bind_Ok in H. destruct H as [pss [Hp H]].
  injection H as <-. rewrite (rows_take df _ W).
  assert (map row_label (rows df) = df_index df) as L by apply map_row_label.
  rewrite <- (rows_days parse df ts W Ft) in Hl.
  rewrite <- A, <- L in Hl. rewrite <- (rows_likes df ls W Fl) in Hl.
  rewrite combine_map_both in Hl.
  apply traverse_Ok in Hl. apply traverse_Ok in Hp. rewrite <- L in Hp.
  apply (labels_rows parse (rows df) _ labels pss).
  - rewrite L, A. apply RangeIndex_NoDup.
  - eapply Forall2_impl; [|exact Hl]. intros k l Hk. simpl in Hk.
    rewrite map_map, mask_filter_map in Hk.
    rewrite (mask_filter_self (fun r => key_is k (row_day parse r))) in Hk.
    destruct (idxmax_rows _ _ Hk) as [r [rs [F ->]]].
    exists (best_from r rs). split; [|reflexivity]. exists r, rs. split; [exact F | reflexivity].
  - exact Hp.
Qed.

Lemma traverse_total {A B : Type} (f : A -> result B) (xs : list A) :
  (forall x, In x xs -> exists y, f x = Ok y) -> exists ys, traverse f xs = Ok ys.
Proof.
  induction xs as [|x xs IH]; intros H; simpl.
  - exists []. reflexivity.
  - destruct (H x (or_introl eq_refl)) as [y ->].
    destruct IH as [ys ->]; [intros x' I; apply H; right; exact I|].
    exists (y :: ys). reflexivity.
Qed.

Lemma to_datetime_total (parse : string -> parsed) (ts : list pyobj) :
  (forall s, In (PyStr s) ts -> parse s <> Unparseable) ->
  exists dts, to_datetime parse (ObjectValues ts) = Ok dts.
Proof.
  intros H. simpl. apply traverse_total. intros [s|] I.
  - specialize (H s I). destruct (parse s) as [ns| |].
    + exists (Some ns). reflexivity.
    + exists None. reflexivity.
    + exfalso. apply H. reflexivity.
  - exists None. reflexivity.
Qed.

(** With the default index on [df], a free name for [reset_index] and
    timestamps the parser accepts, the daily aggregation returns. *)
Lemma collect_daily_top_posts_returns (parse : string -> parsed) (df : DataFrame)
    (ts : list pyobj) (ls : list Z) :
  wf_frame df ->
  df_index df = RangeIndex (nrows df) ->
  no_index_clash df ->
  find_column C_TIMESTAMP (df_columns df) = Some (ObjectValues ts) ->
  find_column C_LIKES (df_columns df) = Some (Int64Values ls) ->
  (forall s, In (PyStr s) ts -> parse s <> Unparseable) ->
  exists daily, __collect_daily_top_posts parse df = Ok daily.
Proof.
  intros W A N Ft Fl Hts. unfold __collect_daily_top_posts.
  destruct (reset_index_Ok df N) as [name [Hname ->]]. cbn [bind].
  unfold getitem at 1. rewrite Ft. cbn [bind].
  destruct (to_datetime_total parse ts Hts) as [dts Hd]. rewrite Hd. cbn [bind].
  apply to_datetime_Ok in Hd. subst dts.
  unfold groupby, _convert_grouper. cbn [df_index bind].
  rewrite A, list_Z_eqb_refl. cbn [bind].
  unfold groupby_idxmax, getitem. cbn [gb_obj gb_keys df_columns df_index find_column].
  assert (String.eqb C_LIKES name = false) as ->
    by (destruct Hname as [-> | ->]; reflexivity).
  rewrite Fl. cbn [bind].
  assert (map row_label (rows df) = df_index df) as L by apply map_row_label.
  rewrite <- (rows_days parse df ts W Ft).
  rewrite <- A, <- L. rewrite <- (rows_likes df ls W Fl).
  rewrite combine_map_both.
  assert (forall k, In k (group_keys (map (row_day parse) (rows df))) ->
            exists b, In b (rows df) /\
              idxmax (mask_filter (map (key_is k) (map (row_day parse) (rows df)))
                        (map (fun r => (row_label r, row_likes r)) (rows df)))
              = Ok (row_label b)) as each.
  { intros k I. apply In_group_keys in I. apply in_map_iff in I. destruct I as [r [D I]].
    rewrite map_map, mask_filter_map.
    rewrite (mask_filter_self (fun r => key_is k (row_day parse r))).
    assert (In r (filter (fun r => key_is k (row_day parse r)) (rows df))) as F
      by (apply filter_In; split; [exact I | apply key_is_Some; exact D]).
    destruct (filter (fun r => key_is k (row_day parse r)) (rows df)) as [|r0 rs] eqn:E;
      [contradiction|].
    exists (best_from r0 rs). split.
    - pose proof (best_from_In rs r0) as B. rewrite <- E in B. apply filter_In in B. apply B.
    - simpl. rewrite idxmax_from_rows. reflexivity. }
  destruct (traverse_total _ _ (fun k I => let (b, H) := each k I in
                                           ex_intro _ (row_label b) (proj2 H)))
    as [labels Hl].
  rewrite Hl. cbn [bind]. unfold loc_labels.
  assert (exists pss, traverse (get_loc (df_index df)) labels = Ok pss) as [pss Hp].
  { apply traverse_total. intros l I.
    destruct (Forall2_In_r _ _ _ _ (traverse_Ok _ _ _ Hl) I) as [k [Ik Hk]].
    destruct (each k Ik) as [b [Ib Hb]]. rewrite Hb in Hk. injection Hk as <-.
    apply In_nth_error in Ib. destruct Ib as [p Hp].
    exists [p]. apply get_loc_unique.
    - rewrite A. apply RangeIndex_NoDup.
    - rewrite <- L, nth_error_map, Hp. reflexivity. }
  rewrite Hp. cbn [bind]. eexists. reflexivity.
Qed.

(** C1 where the code meets it.  When the top partition carries the default
    index (its rows are the first rows of the input), [reset_index] has a free
    name for its column and the parser accepts the timestamps of the top
    partition, [analyze_posts] returns, and the daily-top table is the one of
    the specification: its rows are rows of the top partition, one for each
    day of the top partition, the first row of that day with the most
    likes. *)
Theorem daily_top_when_aligned (parse : string -> parsed) (order : list (string * dtype))
    (df : DataFrame) (cond : list bool) :
  wf_frame df ->
  Permutation order _VALID_COLUMNS ->
  validate_schema order df = Ok tt ->
  condition df = Ok cond ->
  df_index (loc_mask df cond) = RangeIndex (nrows (loc_mask df cond)) ->
  no_index_clash df ->
  (forall ts s, getitem (loc_mask df cond) C_TIMESTAMP = Ok (ObjectValues ts) ->
                In (PyStr s) ts -> parse s <> Unparseable) ->
  exists daily,
    analyze_posts parse order df
    = Ok (loc_mask df cond, loc_mask df (invert cond), daily) /\
    spec_daily_top parse (rows (loc_mask df cond)) (rows daily).
Proof.
  intros W P V C A N Hts.
  pose proof (proj1 (validate_schema_valid order df P) V) as V'.
  destruct (column_ok_object df C_TIMESTAMP) as [ts Ft];
    [apply (valid_columns_ok df _ V'); simpl; tauto|].
  destruct (column_ok_int64 df C_LIKES) as [ls Fl];
    [apply (valid_columns_ok df _ V'); simpl; tauto|].
  pose proof (find_column_loc_mask df cond C_TIMESTAMP) as Ft'. rewrite Ft in Ft'.
  pose proof (find_column_loc_mask df cond C_LIKES) as Fl'. rewrite Fl in Fl'.
  change (option_map (values_mask cond) (Some (ObjectValues ts)))
    with (Some (ObjectValues (mask_filter cond ts))) in Ft'.
  change (option_map (values_mask cond) (Some (Int64Values ls)))
    with (Some (Int64Values (mask_filter cond ls))) in Fl'.
  pose proof (wf_frame_loc_mask df cond W) as W'.
  destruct (collect_daily_top_posts_returns parse (loc_mask df cond) _ _ W' A
              (no_index_clash_loc_mask df cond N) Ft' Fl') as [daily D].
  { intros s I. apply (Hts (mask_filter cond ts) s); [|exact I].
    unfold getitem. rewrite Ft'. reflexivity. }
  exists daily. split.
  - unfold analyze_posts. rewrite V, C. cbn [bind]. rewrite D. reflexivity.
  - apply bests_spec.
    apply (collect_daily_top_posts_aligned parse (loc_mask df cond) daily _ _ W' A Ft' Fl' D).
Qed.

Lemma aligned_posts_wf : wf_frame aligned_posts.
Proof. apply posts_table_wf; reflexivity. Qed.

Lemma daily_top_when_aligned_witness :
  exists daily,
    analyze_posts sample_parse _VALID_COLUMNS aligned_posts
    = Ok (loc_mask aligned_posts [true; true],
          loc_mask aligned_posts (invert [true; true]), daily) /\
    spec_daily_top sample_parse (rows (loc_mask aligned_posts [true; true])) (rows daily).
Proof.
  apply (daily_top_when_aligned sample_parse _VALID_COLUMNS aligned_posts [true; true]).
  - exact aligned_posts_wf.
  - apply Permutation_refl.
  - reflexivity.
  - reflexivity.
  - reflexivity.
  - reflexivity.
  - intros ts s G I. vm_compute in G. injection G as <-.
    destruct I as [E | [E | []]]; injection E as <-; discriminate.
Defined.

(** * More of the code *)

(** ** analyze_posts: more on the two partitions *)

Lemma mask_filter_all_true {A : Type} (xs : list A) (n : nat) :
  (List.length xs <= n)%nat -> mask_filter (repeat true n) xs = xs.
Proof.
  revert n. induction xs as [|x xs IH]; intros n L.
  - apply mask_filter_nil.
  - destruct n as [|n]; simpl in L; [lia|]. simpl. rewrite IH; [reflexivity | lia].
Qed.

Lemma mask_filter_all_false {A : Type} (xs : list A) (n : nat) :
  mask_filter (repeat false n) xs = [].
Proof.
  revert xs. induction n as [|n IH]; intros xs; simpl; [reflexivity|].
  destruct xs; [reflexivity | apply IH].
Qed.

Lemma values_mask_all_true (v : values) (n : nat) :
  size v = n -> values_mask (repeat true n) v = v.
Proof.
  intros S. destruct v; simpl in *; rewrite mask_filter_all_true; try reflexivity; lia.
Qed.

Lemma loc_mask_all_true (df : DataFrame) :
  wf_frame df -> loc_mask df (repeat true (nrows df)) = df.
Proof.
  intros [_ W]. destruct df as [idx cols]. unfold loc_mask, nrows in *. simpl in *.
  rewrite mask_filter_all_true by lia. f_equal.
  rewrite <- (map_id cols) at 2. apply map_ext_in. intros [n v] I.
  rewrite Forall_forall in W. specialize (W _ I). simpl in *.
  rewrite values_mask_all_true; [reflexivity | exact W].
Qed.

Lemma map_filter_true {A : Type} (f : A -> bool) (l : list A) :
  map f (filter f l) = repeat true (List.length (filter f l)).
Proof.
  induction l as [|x l IH]; simpl; [reflexivity|].
  destruct (f x) eqn:E; simpl; [rewrite E, IH; reflexivity | exact IH].
Qed.

Lemma invert_all_true (n : nat) : invert (repeat true n) = repeat false n.
Proof. unfold invert. induction n as [|n IH]; simpl; [|rewrite IH]; reflexivity. Qed.

Lemma map_filter_false {A : Type} (f : A -> bool) (l : list A) :
  map f (filter (fun x => negb (f x)) l)
  = repeat false (List.length (filter (fun x => negb (f x)) l)).
Proof.
  induction l as [|x l IH]; simpl; [reflexivity|].
  destruct (f x) eqn:E; simpl; [exact IH | rewrite E, IH; reflexivity].
Qed.

Lemma invert_all_false (n : nat) : invert (repeat false n) = repeat true n.
Proof. unfold invert. induction n as [|n IH]; simpl; [|rewrite IH]; reflexivity. Qed.

Lemma collect_no_index_clash (parse : string -> parsed) (df daily : DataFrame) :
  __collect_daily_top_posts parse df = Ok daily -> no_index_clash df.
Proof.
  unfold __collect_daily_top_posts, no_index_clash, reset_index. intros H.
  destruct (has_column df (if has_column df "index" then "level_0" else "index"));
    [discriminate H | reflexivity].
Qed.

Lemma find_column_all_false (df : DataFrame) (n : nat) (name : string) (v : values) :
  find_column name (df_columns df) = Some v ->
  find_column name (df_columns (loc_mask df (repeat false n)))
  = Some (empty_values (dtype_of v)).
Proof.
  intros F. rewrite find_column_loc_mask, F. simpl. f_equal.
  destruct v; simpl; rewrite mask_filter_all_false; reflexivity.
Qed.

(** The partitions of a successful analysis, analysed again. *)
Lemma partitions_validated (parse : string -> parsed) (order : list (string * dtype))
    (df : DataFrame) (m : list bool) :
  wf_frame df ->
  Permutation order _VALID_COLUMNS ->
  validate_schema order df = Ok tt ->
  validate_schema order (loc_mask df m) = Ok tt /\
  condition (loc_mask df m) = Ok (map is_top (mask_filter m (rows df))).
Proof.
  intros W P V.
  assert (validate_schema order (loc_mask df m) = Ok tt) as V'.
  { rewrite (validate_schema_schema order (loc_mask df m) df (schema_loc_mask df m)). exact V. }
  split; [exact V'|].
  rewrite <- rows_loc_mask. apply condition_rows.
  - apply wf_frame_loc_mask. exact W.
  - apply (validate_schema_valid order _ P). exact V'.
Qed.

(** X1. Analysing the top partition of a successful analysis again changes
    nothing: every row of it is a top post once more, the other partition is
    empty, and the daily top posts are the same. *)
Theorem analyze_posts_of_top (parse : string -> parsed) (order : list (string * dtype))
    (df top other daily : DataFrame) :
  wf_frame df ->
  Permutation order _VALID_COLUMNS ->
  analyze_posts parse order df = Ok (top, other, daily) ->
  analyze_posts parse order top
  = Ok (top, loc_mask top (repeat false (nrows top)), daily) /\
  rows (loc_mask top (repeat false (nrows top))) = [].
Proof.
  intros W P H.
  destruct (partitions_rows parse order df top other daily W P H) as [Rt _].
  apply analyze_posts_Ok in H. destruct H as [V [cond [C [-> [_ D]]]]].
  destruct (partitions_validated parse order df cond W P V) as [V' C'].
  rewrite <- rows_loc_mask, Rt, map_filter_true, <- Rt, length_rows in C'.
  split.
  - unfold analyze_posts. rewrite V', C'. cbn [bind].
    rewrite invert_all_true, (loc_mask_all_true _ (wf_frame_loc_mask df cond W)), D.
    reflexivity.
  - rewrite rows_loc_mask. apply mask_filter_all_false.
Qed.

Lemma analyze_posts_of_top_witness :
  exists top other daily,
    analyze_posts sample_parse _VALID_COLUMNS sample_posts = Ok (top, other, daily) /\
    analyze_posts sample_parse _VALID_COLUMNS top
    = Ok (top, loc_mask top (repeat false (nrows top)), daily) /\
    rows (loc_mask top (repeat false (nrows top))) = [].
Proof.
  eexists. eexists. eexists. split.
  - vm_compute. reflexivity.
  - eapply (analyze_posts_of_top sample_parse _VALID_COLUMNS sample_posts).
    + exact sample_posts_wf.
    + apply Permutation_refl.
    + vm_compute. reflexivity.
Defined.

(** X2. Analysing the other partition of a successful analysis again finds
    no top post in it: the top partition and the daily top posts have no
    rows and the other partition is unchanged. *)
Theorem analyze_posts_of_other (parse : string -> parsed) (order : list (string * dtype))
    (df top other daily : DataFrame) :
  wf_frame df ->
  Permutation order _VALID_COLUMNS ->
  analyze_posts parse order df = Ok (top, other, daily) ->
  exists top' daily',
    analyze_posts parse order other = Ok (top', other, daily') /\
    rows top' = [] /\ rows daily' = [].
Proof.
  intros W P H.
  destruct (partitions_rows parse order df top other daily W P H) as [_ Ro].
  apply analyze_posts_Ok in H. destruct H as [V [cond [C [-> [-> D]]]]].
  destruct (partitions_validated parse order df (invert cond) W P V) as [V' C'].
  rewrite <- rows_loc_mask, Ro, map_filter_false, <- Ro, length_rows in C'.
  pose proof (wf_frame_loc_mask df (invert cond) W) as W'.
  set (other := loc_mask df (invert cond)) in *.
  pose proof (proj1 (validate_schema_valid order other P) V') as ok.
  destruct (column_ok_object other C_TIMESTAMP) as [ts Ft];
    [apply (valid_columns_ok other _ ok); simpl; tauto|].
  destruct (column_ok_int64 other C_LIKES) as [ls Fl];
    [apply (valid_columns_ok other _ ok); simpl; tauto|].
  assert (no_index_clash (loc_mask other (repeat false (nrows other)))) as N.
  { apply no_index_clash_loc_mask. unfold other. apply no_index_clash_loc_mask.
    pose proof (collect_no_index_clash parse _ _ D) as N.
    unfold no_index_clash in *. rewrite !has_column_loc_mask in N. exact N. }
  pose proof (find_column_all_false other (nrows other) _ _ Ft) as Ft'.
  pose proof (find_column_all_false other (nrows other) _ _ Fl) as Fl'.
  assert (df_index (loc_mask other (repeat false (nrows other))) = []) as I
    by apply mask_filter_all_false.
  remember (loc_mask other (repeat false (nrows other))) as top0 eqn:E.
  destruct top0 as [idx cols]. cbn [df_index df_columns dtype_of empty_values] in I, Ft', Fl'.
  subst idx.
  pose proof (collect_daily_top_posts_empty parse cols N Ft' Fl') as D'.
  exists {| df_index := []; df_columns := cols |},
         (take {| df_index := []; df_columns := cols |} []).
  split; [|split; reflexivity].
  unfold analyze_posts. rewrite V', C'. cbn [bind].
  rewrite <- E, D'. cbn [bind]. rewrite invert_all_false, (loc_mask_all_true other W').
  reflexivity.
Qed.

Lemma analyze_posts_of_other_witness :
  exists top other daily,
    analyze_posts sample_parse _VALID_COLUMNS sample_posts = Ok (top, other, daily) /\
    exists top' daily',
      analyze_posts sample_parse _VALID_COLUMNS other = Ok (top', other, daily') /\
      rows top' = [] /\ rows daily' = [].
Proof.
  eexists. eexists. eexists. split.
  - vm_compute. reflexivity.
  - eapply (analyze_posts_of_other sample_parse _VALID_COLUMNS sample_posts).
    + exact sample_posts_wf.
    + apply Permutation_refl.
    + vm_compute. reflexivity.
Defined.

Lemma map_all_false {A : Type} (f : A -> bool) (l : list A) :
  (forall x, In x l -> f x = false) -> map f l = repeat false (List.length l).
Proof.
  induction l as [|x l IH]; intros H; simpl; [reflexivity|].
  rewrite (H x (or_introl eq_refl)), IH; [reflexivity|].
  intros y I. apply H. right. exact I.
Qed.

(** X3. When no post meets the criteria, [analyze_posts] returns whatever the
    timestamps hold and however the parser reads them, because only the
    timestamps of top posts are parsed: the top partition and the daily top
    posts have no rows and the other partition is the input.  (The table is
    validated and [reset_index] has a free name for its column.) *)
Theorem analyze_posts_without_top_posts (parse : string -> parsed)
    (order : list (string * dtype)) (df : DataFrame) :
  wf_frame df ->
  Permutation order _VALID_COLUMNS ->
  validate_schema order df = Ok tt ->
  no_index_clash df ->
  (forall r, In r (rows df) -> ~ spec_is_top r) ->
  exists top daily,
    analyze_posts parse order df = Ok (top, df, daily) /\
    rows top = [] /\ rows daily = [].
Proof.
  intros W P V N none.
  pose proof (proj1 (validate_schema_valid order df P) V) as ok.
  pose proof (condition_rows df W ok) as C.
  rewrite (map_all_false is_top (rows df)), length_rows in C
    by (intros r I; apply is_top_not_spec, none, I).
  destruct (column_ok_object df C_TIMESTAMP) as [ts Ft];
    [apply (valid_columns_ok df _ ok); simpl; tauto|].
  destruct (column_ok_int64 df C_LIKES) as [ls Fl];
    [apply (valid_columns_ok df _ ok); simpl; tauto|].
  pose proof (no_index_clash_loc_mask df (repeat false (nrows df)) N) as N'.
  pose proof (find_column_all_false df (nrows df) _ _ Ft) as Ft'.
  pose proof (find_column_all_false df (nrows df) _ _ Fl) as Fl'.
  assert (df_index (loc_mask df (repeat false (nrows df))) = []) as I
    by apply mask_filter_all_false.
  remember (loc_mask df (repeat false (nrows df))) as top0 eqn:E.
  destruct top0 as [idx cols]. cbn [df_index df_columns dtype_of empty_values] in I, Ft', Fl'.
  subst idx.
  pose proof (collect_daily_top_posts_empty parse cols N' Ft' Fl') as D.
  exists {| df_index := []; df_columns := cols |},
         (take {| df_index := []; df_columns := cols |} []).
  split; [|split; reflexivity].
  unfold analyze_posts. rewrite V, C. cbn [bind].
  rewrite <- E, D. cbn [bind]. rewrite invert_all_false, (loc_mask_all_true df W).
  reflexivity.
Qed.

Lemma analyze_posts_without_top_posts_witness :
  exists top daily,
    analyze_posts (fun _ => Unparseable) _VALID_COLUMNS private_posts
    = Ok (top, private_posts, daily) /\
    rows top = [] /\ rows daily = [].
Proof.
  apply (analyze_posts_without_top_posts (fun _ => Unparseable) _VALID_COLUMNS private_posts).
  - apply posts_table_wf; reflexivity.
  - apply Permutation_refl.
  - reflexivity.
  - reflexivity.
  - intros r [<- | [<- | [<- | []]]]; apply is_top_not_spec; reflexivity.
Defined.

(** X4. A post whose title or privacy is missing (NaN) is never a top post:
    a missing value is not equal to "public" and its length is not below 40. *)
Theorem missing_values_are_other (parse : string -> parsed) (order : list (string * dtype))
    (df top other daily : DataFrame) (r : Row) :
  wf_frame df ->
  Permutation order _VALID_COLUMNS ->
  analyze_posts parse order df = Ok (top, other, daily) ->
  In r (rows df) ->
  field r "title" = Some (CObj PyNaN) \/ field r "privacy" = Some (CObj PyNaN) ->
  In r (rows other) /\ ~ In r (rows top).
Proof.
  intros W P H I M.
  destruct (partitions_rows parse order df top other daily W P H) as [-> ->].
  assert (is_top r = false) as F.
  { unfold is_top. destruct M as [M | M]; rewrite M; simpl.
    - apply andb_false_r.
    - reflexivity. }
  split.
  - apply filter_In. split; [exact I | rewrite F; reflexivity].
  - intros T. apply filter_In in T. destruct T as [_ T]. rewrite F in T. discriminate T.
Qed.

Lemma missing_values_are_other_witness :
  exists top other daily r,
    analyze_posts sample_parse _VALID_COLUMNS private_posts = Ok (top, other, daily) /\
    field r "id" = Some (CInt 3) /\
    In r (rows other) /\ ~ In r (rows top).
Proof.
  eexists. eexists. eexists.
  exists (mkRow 2 (map (fun c => (fst c, nth_error (snd c) 2)) (cell_columns private_posts))).
  split; [vm_compute; reflexivity|]. split; [reflexivity|].
  eapply (missing_values_are_other sample_parse _VALID_COLUMNS private_posts).
  - apply posts_table_wf; reflexivity.
  - apply Permutation_refl.
  - vm_compute. reflexivity.
  - right. right. left. reflexivity.
  - left. reflexivity.
Defined.

(** ** The daily aggregation on any index *)

Lemma mem_Z_In (x : Z) (l : list Z) : mem_Z x l = true <-> In x l.
Proof.
  induction l as [|y l IH]; simpl; [split; [discriminate | contradiction]|].
  rewrite orb_true_iff, IH, Z.eqb_eq. split; intros [H | H]; auto.
Qed.

Lemma is_unique_NoDup (l : list Z) : is_unique l = true -> NoDup l.
Proof.
  induction l as [|x l IH]; simpl; intros H; [constructor|].
  apply andb_true_iff in H. destruct H as [H1 H2]. constructor; [|apply IH; exact H2].
  intros I. apply mem_Z_In in I. rewrite I in H1. discriminate H1.
Qed.

Lemma list_Z_eqb_eq (a b : list Z) : list_Z_eqb a b = true -> a = b.
Proof.
  unfold list_Z_eqb. destruct (list_eq_dec Z.eq_dec a b); [trivial | discriminate].
Qed.

Lemma lookup_label_Some {A : Type} (l : Z) (idx : list Z) (vals : list (option A)) (k : A) :
  lookup_label l idx vals = Some k ->
  exists q, nth_error idx q = Some l /\ nth_error vals q = Some (Some k).
Proof.
  revert vals. induction idx as [|l' idx IH]; intros [|v vals] H; simpl in H;
    try discriminate H.
  destruct (l =? l') eqn:E.
  - apply Z.eqb_eq in E. subst. exists 0%nat. split; reflexivity.
  - destruct (IH vals H) as [q [Hq Hv]]. exists (S q). split; assumption.
Qed.

Lemma idxmax_from_In (s : list (Z * Z)) (l x : Z) :
  exists y, In (idxmax_from l x s, y) ((l, x) :: s).
Proof.
  revert l x. induction s as [|[l' x'] s IH]; intros l x; simpl.
  - exists x. left. reflexivity.
  - destruct (x <? x').
    + destruct (IH l' x') as [y I]. exists y. right. exact I.
    + destruct (IH l x) as [y [I | I]].
      * exists y. left. exact I.
      * exists y. right. right. exact I.
Qed.

Lemma idxmax_In (s : list (Z * Z)) (l : Z) :
  idxmax s = Ok l -> exists y, In (l, y) s.
Proof.
  destruct s as [|[l0 x0] s]; simpl; [discriminate|].
  intros H. injection H as <-. apply idxmax_from_In.
Qed.

Lemma In_mask_filter {A : Type} (m : list bool) (xs : list A) (y : A) :
  In y (mask_filter m xs) ->
  exists p, nth_error m p = Some true /\ nth_error xs p = Some y.
Proof.
  revert xs. induction m as [|b m IH]; intros [|x xs] I; simpl in I; try contradiction.
  destruct b.
  - destruct I as [<- | I].
    + exists 0%nat. split; reflexivity.
    + destruct (IH xs I) as [p [Hm Hx]]. exists (S p). split; assumption.
  - destruct (IH xs I) as [p [Hm Hx]]. exists (S p). split; assumption.
Qed.

Lemma nth_error_combine_l {A B : Type} (a : list A) (b : list B) (p : nat) (x : A) (y : B) :
  nth_error (combine a b) p = Some (x, y) -> nth_error a p = Some x.
Proof.
  revert b p. induction a as [|x0 a IH]; intros [|y0 b] p H; simpl in H;
    try (destruct p; discriminate H).
  destruct p as [|p]; simpl in *.
  - injection H as -> _. reflexivity.
  - apply (IH b p H).
Qed.

Lemma nth_error_RangeIndex (n p : nat) (l : Z) :
  nth_error (RangeIndex n) p = Some l -> l = Z.of_nat p.
Proof.
  unfold RangeIndex. rewrite nth_error_map. intros H.
  destruct (nth_error (seq 0 n) p) as [i|] eqn:E; [|discriminate H].
  injection H as <-. f_equal. symmetry.
  assert (p < n)%nat as L.
  { rewrite <- (length_seq n 0). apply nth_error_Some. rewrite E. discriminate. }
  apply (nth_error_nth _ _ 0%nat) in E. rewrite seq_nth in E by exact L. exact E.
Qed.

Lemma RangeIndex_nth (n p : nat) :
  (p < n)%nat -> nth_error (RangeIndex n) p = Some (Z.of_nat p).
Proof.
  intros L. destruct (nth_error (RangeIndex n) p) as [l|] eqn:E.
  - rewrite (nth_error_RangeIndex n p l E). reflexivity.
  - apply nth_error_None in E. rewrite length_RangeIndex in E. lia.
Qed.

Lemma rows_at_labels (parse : string -> parsed) (top : list Row) (ds : list (option Z))
    (keys labels : list Z) (pss : list (list nat)) :
  NoDup (map row_label top) ->
  map (row_day parse) top = ds ->
  Forall2 (fun k l => exists q, nth_error (map row_label top) q = Some l /\
                                nth_error ds q = Some (Some k)) keys labels ->
  Forall2 (fun l ps => get_loc (map row_label top) l = Ok ps) labels pss ->
  Forall2 (fun k r => In r top /\ row_day parse r = Some k)
          keys (take_list (List.concat pss) top).
Proof.
  intros N D H. revert pss.
  induction H as [|k l keys labels [q [Hl Hd]] _ IH]; intros pss G.
  - inversion G; subst. constructor.
  - inversion G as [|l' ps labels' pss' Gl G']; subst. simpl. rewrite take_list_app.
    rewrite (get_loc_unique _ q l N Hl) in Gl. injection Gl as <-.
    rewrite nth_error_map in Hl.
    destruct (nth_error top q) as [r|] eqn:Hr; [|discriminate Hl].
    rewrite nth_error_map, Hr in Hd. injection Hd as Hd.
    unfold take_list at 1. simpl. rewrite Hr. simpl.
    constructor; [|apply IH; exact G'].
    split; [apply (nth_error_In _ _ Hr) | exact Hd].
Qed.

(** Whatever the index of [df], the rows the daily aggregation returns are
    rows of [df] of pairwise different days, one for each group key. *)
Lemma collect_daily_top_posts_days (parse : string -> parsed) (df daily : DataFrame)
    (ts : list pyobj) (ls : list Z) :
  wf_frame df ->
  find_column C_TIMESTAMP (df_columns df) = Some (ObjectValues ts) ->
  find_column C_LIKES (df_columns df) = Some (Int64Values ls) ->
  __collect_daily_top_posts parse df = Ok daily ->
  exists keys,
    NoDup keys /\
    Forall2 (fun k r => In r (rows df) /\ row_day parse r = Some k) keys (rows daily).
Proof.
  intros W Ft Fl H. unfold __collect_daily_top_posts in H.
  apply bind_Ok in H. destruct H as [reset [Hr H]].
  apply reset_index_inv in Hr. destruct Hr as [name [Hname ->]].
  apply bind_Ok in H. destruct H as [timestamps [Ht H]].
  unfold getitem in Ht. rewrite Ft in Ht. injection Ht as <-.
  apply bind_Ok in H. destruct H as [dts [Hd H]].
  apply to_datetime_Ok in Hd. subst dts.
  apply bind_Ok in H. destruct H as [g [Hg H]].
  unfold groupby in Hg. cbn [df_index] in Hg.
  apply bind_Ok in Hg. destruct Hg as [keys' [Hk Hg]]. injection Hg as <-.
  apply bind_Ok in H. destruct H as [labels [Hl H]].
  unfold groupby_idxmax, getitem in Hl. cbn [gb_obj gb_keys df_columns df_index find_column] in Hl.
  assert (String.eqb C_LIKES name = false) as ne
    by (destruct Hname as [-> | ->]; reflexivity).
  rewrite ne, Fl in Hl. cbn [bind] in Hl.
  unfold loc_labels in H. apply bind_Ok in H. destruct H as [pss [Hp H]].
  injection H as <-. rewrite (rows_take df _ W).
  assert (map row_label (rows df) = df_index df) as L by apply map_row_label.
  pose proof (rows_days parse df ts W Ft) as D.
  set (ds := map date (map (datetime_of parse) ts)) in *.
  assert (List.length ds = nrows df) as Lds.
  { unfold ds. rewrite !length_map. symmetry.
    apply (eq_sym (wf_frame_size df _ _ W Ft)). }
  assert (NoDup (df_index df) /\
          forall p k, nth_error keys' p = Some (Some k) ->
            exists q, nth_error (df_index df) q = Some (Z.of_nat p) /\
                      nth_error ds q = Some (Some k)) as [N K].
  { unfold _convert_grouper in Hk.
    destruct (list_Z_eqb (df_index df) (RangeIndex (nrows df))) eqn:E.
    - apply list_Z_eqb_eq in E. injection Hk as <-. split.
      + rewrite E. apply RangeIndex_NoDup.
      + intros p k Hpk. exists p. split; [|exact Hpk].
        rewrite E. apply RangeIndex_nth. rewrite <- Lds.
        apply nth_error_Some. rewrite Hpk. discriminate.
    - unfold reindex in Hk. destruct (is_unique (df_index df)) eqn:U; [|discriminate Hk].
      injection Hk as <-. split; [apply is_unique_NoDup; exact U|].
      intros p k Hpk. rewrite nth_error_map in Hpk.
      destruct (nth_error (RangeIndex (nrows df)) p) as [l|] eqn:El; [|discriminate Hpk].
      injection Hpk as Hpk. rewrite (nth_error_RangeIndex _ _ _ El) in Hpk.
      apply (lookup_label_Some _ _ _ _ Hpk). }
  exists (group_keys keys'). split; [apply sorted_NoDup, group_keys_sorted|].
  apply traverse_Ok in Hl. apply traverse_Ok in Hp. rewrite <- L in Hp.
  apply (rows_at_labels parse (rows df) ds _ labels pss).
  - rewrite L. exact N.
  - exact D.
  - eapply Forall2_impl; [|exact Hl]. intros k l Hkl. simpl in Hkl.
    destruct (idxmax_In _ _ Hkl) as [x I].
    destruct (In_mask_filter _ _ _ I) as [p [Hm Hx]].
    apply nth_error_combine_l in Hx. apply nth_error_RangeIndex in Hx. subst l.
    rewrite nth_error_map in Hm.
    destruct (nth_error keys' p) as [key|] eqn:Ek; [|discriminate Hm].
    injection Hm as Hm. apply key_is_Some in Hm. subst key.
    rewrite L. apply (K p k Ek).
  - exact Hp.
Qed.

Lemma Forall2_days (parse : string -> parsed) (top : list Row) (keys : list Z)
    (rs : list Row) :
  Forall2 (fun k r => In r top /\ row_day parse r = Some k) keys rs ->
  map (row_day parse) rs = map Some keys.
Proof.
  induction 1 as [|k r keys rs [_ D] _ IH]; simpl; [reflexivity|].
  rewrite D, IH. reflexivity.
Qed.

Lemma NoDup_map_Some {A : Type} (l : list A) : NoDup l -> NoDup (map Some l).
Proof.
  induction 1 as [|x l Hnot _ IH]; simpl; constructor; [|exact IH].
  rewrite in_map_iff. intros [y [E I]]. injection E as ->. apply Hnot. exact I.
Qed.

(** X5. Whatever the index of the input, the daily top posts returned by
    [analyze_posts] are top posts with a day, no two of them of the same day;
    so there are at most as many of them as top posts. *)
Theorem daily_top_one_row_per_day (parse : string -> parsed) (order : list (string * dtype))
    (df top other daily : DataFrame) :
  wf_frame df ->
  Permutation order _VALID_COLUMNS ->
  analyze_posts parse order df = Ok (top, other, daily) ->
  NoDup (map (row_day parse) (rows daily)) /\
  (forall r, In r (rows daily) ->
             In r (rows top) /\ exists day, row_day parse r = Some day) /\
  (nrows daily <= nrows top)%nat.
Proof.
  intros W P H. apply analyze_posts_Ok in H. destruct H as [V [cond [_ [-> [_ D]]]]].
  pose proof (proj1 (validate_schema_valid order df P) V) as ok.
  destruct (column_ok_object df C_TIMESTAMP) as [ts Ft];
    [apply (valid_columns_ok df _ ok); simpl; tauto|].
  destruct (column_ok_int64 df C_LIKES) as [ls Fl];
    [apply (valid_columns_ok df _ ok); simpl; tauto|].
  pose proof (find_column_loc_mask df cond C_TIMESTAMP) as Ft'. rewrite Ft in Ft'.
  pose proof (find_column_loc_mask df cond C_LIKES) as Fl'. rewrite Fl in Fl'.
  change (option_map (values_mask cond) (Some (ObjectValues ts)))
    with (Some (ObjectValues (mask_filter cond ts))) in Ft'.
  change (option_map (values_mask cond) (Some (Int64Values ls)))
    with (Some (Int64Values (mask_filter cond ls))) in Fl'.
  destruct (collect_daily_top_posts_days parse _ daily _ _
              (wf_frame_loc_mask df cond W) Ft' Fl' D) as [keys [N F]].
  assert (NoDup (map (row_day parse) (rows daily))) as ND.
  { rewrite (Forall2_days parse _ keys _ F). apply NoDup_map_Some. exact N. }
  assert (forall r, In r (rows daily) ->
            In r (rows (loc_mask df cond)) /\ exists day, row_day parse r = Some day) as S.
  { intros r I. destruct (Forall2_In_r _ _ _ _ F I) as [k [_ [Ir Dr]]].
    split; [exact Ir | exists k; exact Dr]. }
  split; [exact ND|]. split; [exact S|].
  rewrite <- !length_rows.
  rewrite <- (length_map (row_day parse) (rows daily)).
  rewrite <- (length_map (row_day parse) (rows (loc_mask df cond))).
  apply (NoDup_incl_length ND). intros d I. apply in_map_iff in I.
  destruct I as [r [<- I]]. apply in_map. apply (S r I).
Qed.

Lemma daily_top_one_row_per_day_witness :
  exists top other daily,
    analyze_posts sample_parse _VALID_COLUMNS misaligned_posts = Ok (top, other, daily) /\
    NoDup (map (row_day sample_parse) (rows daily)) /\
    (forall r, In r (rows daily) ->
               In r (rows top) /\ exists day, row_day sample_parse r = Some day) /\
    (nrows daily <= nrows top)%nat.
Proof.
  eexists. eexists. eexists. split.
  - vm_compute. reflexivity.
  - eapply (daily_top_one_row_per_day sample_parse _VALID_COLUMNS misaligned_posts).
    + apply posts_table_wf; reflexivity.
    + apply Permutation_refl.
    + vm_compute. reflexivity.
Defined.

(** ** Paths *)

Lemma split_no_sep (s : string) : no_sep s = true -> Pathlib.split s = [s].
Proof.
  induction s as [|c s IH]; simpl; [reflexivity|].
  intros H. apply andb_true_iff in H. destruct H as [Hc Hs].
  apply negb_true_iff in Hc. rewrite Hc, (IH Hs). reflexivity.
Qed.

Lemma no_sep_app (a b : string) : no_sep (a ++ b) = (no_sep a && no_sep b)%bool.
Proof.
  induction a as [|c a IH]; simpl; [reflexivity|].
  rewrite IH, andb_assoc. reflexivity.
Qed.

Lemma splitroot_no_sep (s : string) : no_sep s = true -> Pathlib.splitroot s = ("", s).
Proof.
  destruct s as [|c s]; simpl; [reflexivity|].
  intros H. apply andb_true_iff in H. destruct H as [Hc _].
  apply negb_true_iff in Hc. rewrite Hc. reflexivity.
Qed.

Lemma file_name_is_name (name fmt : string) :
  name <> "" -> Pathlib.is_name (name ++ "." ++ fmt) = true.
Proof.
  intros N. unfold Pathlib.is_name.
  destruct name as [|c name]; [contradiction|].
  apply andb_true_iff. split; apply negb_true_iff, String.eqb_neq.
  - discriminate.
  - simpl. intros E. injection E as _ E. destruct name; discriminate E.
Qed.

Lemma append_assoc (a b c : string) : (a ++ b) ++ c = a ++ (b ++ c).
Proof. induction a as [|x a IH]; simpl; [|rewrite IH]; reflexivity. Qed.

Lemma append_inv_head (a b c : string) : a ++ b = a ++ c -> b = c.
Proof.
  induction a as [|x a IH]; simpl; intros H; [exact H|].
  injection H as H. apply IH. exact H.
Qed.

Lemma concat_snoc (xs : list string) (x : string) :
  String.concat "/" (xs ++ [x])
  = match xs with
    | [] => x
    | _ => String.concat "/" xs ++ "/" ++ x
    end.
Proof.
  induction xs as [|a xs IH]; [reflexivity|].
  destruct xs as [|b xs]; [reflexivity|].
  change (String.concat "/" ((a :: b :: xs) ++ [x]))
    with (a ++ "/" ++ String.concat "/" ((b :: xs) ++ [x])).
  rewrite IH.
  change (String.concat "/" (a :: b :: xs)) with (a ++ "/" ++ String.concat "/" (b :: xs)).
  rewrite !append_assoc. reflexivity.
Qed.

Lemma append_nil_r (a : string) : a ++ "" = a.
Proof. induction a as [|x a IH]; simpl; [|rewrite IH]; reflexivity. Qed.

Lemma Path_file_name (name fmt : string) :
  name <> "" -> no_sep name = true -> no_sep fmt = true ->
  Pathlib.Path (name ++ "." ++ fmt)
  = {| Pathlib.root := ""; Pathlib.names := [name ++ "." ++ fmt] |}.
Proof.
  intros N Hn Hf.
  assert (no_sep (name ++ "." ++ fmt) = true) as H
    by (rewrite !no_sep_app, Hn, Hf; reflexivity).
  unfold Pathlib.Path. rewrite (splitroot_no_sep _ H), (split_no_sep _ H).
  cbn [filter]. rewrite (file_name_is_name name fmt N). reflexivity.
Qed.

(** X6. For a file name and a format without a separator, [_format_path]
    is the string of the directory, a separator where the directory has
    names of its own, and [file_name.file_format]: the file lies directly in
    the directory.  On the empty directory path (["."]) it is the bare file
    name. *)
Theorem format_path_in_directory (base : Pathlib.PurePath) (name fmt : string) :
  name <> "" ->
  no_sep name = true ->
  no_sep fmt = true ->
  _format_path base name fmt = dir_prefix base ++ name ++ "." ++ fmt.
Proof.
  intros N Hn Hf. unfold _format_path, Pathlib.truediv.
  rewrite (Path_file_name name fmt N Hn Hf). cbn [Pathlib.root Pathlib.names].
  rewrite String.eqb_refl. unfold dir_prefix, Pathlib.str. cbn [Pathlib.root Pathlib.names].
  rewrite concat_snoc.
  destruct (Pathlib.root base =? "")%string eqn:R.
  - apply String.eqb_eq in R. rewrite R.
    destruct (Pathlib.names base) as [|a ns] eqn:E; [reflexivity|].
    simpl app. cbn iota. rewrite !append_assoc. reflexivity.
  - destruct (Pathlib.names base) as [|a ns] eqn:E.
    + reflexivity.
    + rewrite !append_assoc. reflexivity.
Qed.

Lemma format_path_in_directory_witness :
  _format_path (Pathlib.Path "/srv//out/./") "top_posts" "csv" = "/srv/out/top_posts.csv" /\
  _format_path (Pathlib.Path "") "top_posts" "json" = "top_posts.json".
Proof.
  split.
  - rewrite (format_path_in_directory (Pathlib.Path "/srv//out/./") "top_posts" "csv");
      [reflexivity | discriminate | reflexivity | reflexivity].
  - rewrite (format_path_in_directory (Pathlib.Path "") "top_posts" "json");
      [reflexivity | discriminate | reflexivity | reflexivity].
Defined.

Lemma split_cons (s : string) : exists x xs, Pathlib.split s = x :: xs.
Proof.
  induction s as [|c s [x [xs IH]]]; simpl.
  - exists "", []. reflexivity.
  - destruct (Ascii.eqb c Pathlib.sep).
    + exists "", (Pathlib.split s). reflexivity.
    + rewrite IH. exists (String c x), xs. reflexivity.
Qed.

Lemma split_app_no_sep (a b x : string) (xs : list string) :
  no_sep a = true ->
  Pathlib.split b = x :: xs ->
  Pathlib.split (a ++ b) = (a ++ x) :: xs.
Proof.
  intros Ha Hb. induction a as [|c a IH]; simpl; [exact Hb|].
  simpl in Ha. apply andb_true_iff in Ha. destruct Ha as [Hc Ha].
  apply negb_true_iff in Hc. rewrite Hc, (IH Ha). reflexivity.
Qed.

(** The path of a file name followed by any format: the first name carries
    the file name, the other names come from the format alone. *)
Lemma Path_file_name_any (name fmt x : string) (xs : list string) :
  name <> "" -> no_sep name = true ->
  Pathlib.split fmt = x :: xs ->
  Pathlib.Path (name ++ "." ++ fmt)
  = {| Pathlib.root := "";
       Pathlib.names := (name ++ "." ++ x) :: filter Pathlib.is_name xs |}.
Proof.
  intros N Hn Hs. unfold Pathlib.Path.
  assert (Pathlib.splitroot (name ++ "." ++ fmt) = ("", name ++ "." ++ fmt)) as ->.
  { destruct name as [|c name]; [contradiction|]. simpl in *.
    apply andb_true_iff in Hn. destruct Hn as [Hc _]. apply negb_true_iff in Hc.
    rewrite Hc. reflexivity. }
  rewrite (split_app_no_sep name ("." ++ fmt) ("." ++ x) xs Hn)
    by (simpl; rewrite Hs; reflexivity).
  cbn [filter]. rewrite (file_name_is_name name x N). reflexivity.
Qed.

Lemma concat_middle (ns t : list string) :
  exists P Q, forall y, String.concat "/" (ns ++ y :: t) = P ++ y ++ Q.
Proof.
  induction ns as [|a ns [P [Q IH]]].
  - destruct t as [|b t].
    + exists "", "". intros y. simpl. rewrite append_nil_r. reflexivity.
    + exists "", ("/" ++ String.concat "/" (b :: t)). intros y. reflexivity.
  - exists (a ++ "/" ++ P), Q. intros y.
    assert (exists z zs, (ns ++ y :: t)%list = z :: zs) as [z [zs E]]
      by (destruct ns; eexists; eexists; reflexivity).
    simpl app. rewrite E.
    change (String.concat "/" (a :: z :: zs)) with (a ++ "/" ++ String.concat "/" (z :: zs)).
    rewrite <- E, IH, !append_assoc. reflexivity.
Qed.

Lemma str_middle (r : string) (ns t : list string) :
  exists P Q, forall y,
    Pathlib.str {| Pathlib.root := r; Pathlib.names := (ns ++ y :: t)%list |} = P ++ y ++ Q.
Proof.
  destruct (concat_middle ns t) as [P [Q H]]. unfold Pathlib.str.
  cbn [Pathlib.root Pathlib.names].
  destruct (r =? "")%string.
  - exists P, Q. intros y. rewrite <- H. destruct ns; reflexivity.
  - exists (r ++ P), Q. intros y. rewrite H, append_assoc. reflexivity.
Qed.

(** Whatever the output directory and the format string, the three paths
    of a run are three different strings. *)
Lemma output_paths_distinct (dir : Pathlib.PurePath) (fmt : string) :
  _format_path dir _TOP_POSTS_FILE_NAME fmt <> _format_path dir _OTHER_POSTS_FILE_NAME fmt /\
  _format_path dir _TOP_POSTS_FILE_NAME fmt
  <> _format_path dir _DAILY_TOP_POSTS_FILE_NAME fmt /\
  _format_path dir _OTHER_POSTS_FILE_NAME fmt
  <> _format_path dir _DAILY_TOP_POSTS_FILE_NAME fmt.
Proof.
  destruct (split_cons fmt) as [x [xs S]].
  destruct (str_middle (Pathlib.root dir) (Pathlib.names dir) (filter Pathlib.is_name xs))
    as [P [Q H]].
  assert (forall name, name <> "" -> no_sep name = true ->
            _format_path dir name fmt = P ++ (name ++ "." ++ x) ++ Q) as F.
  { intros name N Hn. unfold _format_path, Pathlib.truediv.
    rewrite (Path_file_name_any name fmt x xs N Hn S). cbn [Pathlib.root Pathlib.names].
    rewrite String.eqb_refl. apply H. }
  rewrite (F _TOP_POSTS_FILE_NAME), (F _OTHER_POSTS_FILE_NAME), (F _DAILY_TOP_POSTS_FILE_NAME);
    try reflexivity; try discriminate.
  repeat split; intros E; apply append_inv_head in E; discriminate E.
Qed.

(** The path of each of the three files of a run, for a format without a
    separator. *)
Lemma run_file_path (dir : Pathlib.PurePath) (name fmt : string) :
  In name [_TOP_POSTS_FILE_NAME; _OTHER_POSTS_FILE_NAME; _DAILY_TOP_POSTS_FILE_NAME] ->
  no_sep fmt = true ->
  _format_path dir name fmt = dir_prefix dir ++ name ++ "." ++ fmt /\
  no_sep (name ++ "." ++ fmt) = true.
Proof.
  intros I Hf.
  assert (name <> "" /\ no_sep name = true) as [N Hn]
    by (destruct I as [<- | [<- | [<- | []]]]; split; (discriminate || reflexivity)).
  split.
  - unfold _format_path, Pathlib.truediv.
    rewrite (Path_file_name name fmt N Hn Hf). cbn [Pathlib.root Pathlib.names].
    rewrite String.eqb_refl. unfold dir_prefix, Pathlib.str. cbn [Pathlib.root Pathlib.names].
    rewrite concat_snoc.
    destruct (Pathlib.root dir =? "")%string eqn:R.
    + apply String.eqb_eq in R. rewrite R.
      destruct (Pathlib.names dir) as [|a ns] eqn:E; [reflexivity|].
      simpl app. cbn iota. rewrite !append_assoc. reflexivity.
    + destruct (Pathlib.names dir) as [|a ns] eqn:E.
      * reflexivity.
      * rewrite !append_assoc. reflexivity.
  - rewrite !no_sep_app, Hn, Hf. reflexivity.
Qed.

(** X7. For a format string without a separator, the three files of a run
    are three different names directly in the output directory: each path is
    the prefix of the directory followed by [top_posts.fmt], [other_posts.fmt]
    or [daily_top_posts.fmt], names that hold no separator and differ from one
    another.  (With a separator in the format string the three paths are
    still three different strings, but need not name three different
    files.) *)
Theorem output_paths_differ (dir : Pathlib.PurePath) (fmt : string) :
  no_sep fmt = true ->
  let file := fun name : string => name ++ "." ++ fmt in
  _format_path dir _TOP_POSTS_FILE_NAME fmt = dir_prefix dir ++ file _TOP_POSTS_FILE_NAME /\
  _format_path dir _OTHER_POSTS_FILE_NAME fmt = dir_prefix dir ++ file _OTHER_POSTS_FILE_NAME /\
  _format_path dir _DAILY_TOP_POSTS_FILE_NAME fmt
  = dir_prefix dir ++ file _DAILY_TOP_POSTS_FILE_NAME /\
  no_sep (file _TOP_POSTS_FILE_NAME) = true /\
  no_sep (file _OTHER_POSTS_FILE_NAME) = true /\
  no_sep (file _DAILY_TOP_POSTS_FILE_NAME) = true /\
  file _TOP_POSTS_FILE_NAME <> file _OTHER_POSTS_FILE_NAME /\
  file _TOP_POSTS_FILE_NAME <> file _DAILY_TOP_POSTS_FILE_NAME /\
  file _OTHER_POSTS_FILE_NAME <> file _DAILY_TOP_POSTS_FILE_NAME.
Proof.
  intros Hf file.
  destruct (run_file_path dir _TOP_POSTS_FILE_NAME fmt) as [Pt Nt];
    [simpl; tauto | exact Hf |].
  destruct (run_file_path dir _OTHER_POSTS_FILE_NAME fmt) as [Po No];
    [simpl; tauto | exact Hf |].
  destruct (run_file_path dir _DAILY_TOP_POSTS_FILE_NAME fmt) as [Pd Nd];
    [simpl; tauto | exact Hf |].
  split; [exact Pt|]. split; [exact Po|]. split; [exact Pd|].
  split; [exact Nt|]. split; [exact No|]. split; [exact Nd|].
  repeat split; intros E; discriminate E.
Qed.

Lemma output_paths_differ_witness :
  no_sep "csv" = true /\
  _format_path (Pathlib.Path "/srv//out/./") _TOP_POSTS_FILE_NAME "csv"
  = "/srv/out/top_posts.csv" /\
  _format_path (Pathlib.Path "/srv//out/./") _OTHER_POSTS_FILE_NAME "csv"
  = "/srv/out/other_posts.csv" /\
  _format_path (Pathlib.Path "/srv//out/./") _DAILY_TOP_POSTS_FILE_NAME "csv"
  = "/srv/out/daily_top_posts.csv".
Proof.
  split; [reflexivity|].
  destruct (output_paths_differ (Pathlib.Path "/srv//out/./") "csv" eq_refl)
    as [Pt [Po [Pd _]]].
  split; [exact Pt|]. split; [exact Po | exact Pd].
Defined.

(** ** Loading, analysing and writing in the world *)

Lemma log_result (self : Application.t) (level : Z) (msg : string) (w : World) :
  files (fst (Application.__log self level msg w)) = files w /\
  snd (Application.__log self level msg w) = Returned tt.
Proof. unfold Application.__log. destruct (Application.verbose self); split; reflexivity. Qed.

(** One call of [__write_df]: it fails without writing when the id column is
    asked for and absent or when the path cannot be written to, and writes
    one file otherwise. *)
Lemma write_df_result (self : Application.t) (env : Env) (df : DataFrame)
    (dir : Pathlib.PurePath) (name fmt : string) (full lines : bool) (w : World) :
  let r := Application.__write_df self env df dir name fmt full lines w in
  let path := _format_path dir name fmt in
  match payload_of full df with
  | Raise e => files (fst r) = files w /\ snd r = Raised (AnalysisError e)
  | Ok p =>
      match write_error env path with
      | Some what => files (fst r) = files w /\ snd r = Raised (EnvironmentError what)
      | None =>
          files (fst r)
          = (path, written fmt lines p)
            :: filter (fun f => negb (String.eqb (fst f) path)) (files w) /\
          snd r = Returned tt
      end
  end.
Proof.
  unfold Application.__write_df, payload_of, written, io_bind, Application.__log, lift, ret,
    to_csv, to_json, write_file, getitem, DEFAULT_OUTPUT_FORMAT, _CSV_FORMAT.
  cbn zeta.
  destruct full; cbn [negb bind];
    destruct (Application.verbose self);
    try destruct (find_column C_ID (df_columns df)); cbn [bind files logged fst snd];
    try (split; reflexivity);
    destruct (casefold fmt =? "csv")%string; cbn [files logged fst snd];
    try destruct lines; cbn [files logged fst snd];
    destruct (write_error env (_format_path dir name fmt)); split; reflexivity.
Qed.

Lemma analyze_posts_program (self : Application.t) (parse : string -> parsed)
    (order : list (string * dtype)) (df : DataFrame) (w : World) :
  files (fst (Application.analyze_posts self parse order df w)) = files w /\
  snd (Application.analyze_posts self parse order df w)
  = match analyze_posts parse order df with
    | Ok tables => Returned tables
    | Raise e => Raised (AnalysisError e)
    end.
Proof.
  unfold Application.analyze_posts, Application.validate_schema,
    Application.__collect_daily_top_posts, analyze_posts, io_bind, Application.__log,
    lift, ret.
  destruct (Application.verbose self);
    destruct (validate_schema order df); cbn [bind files logged fst snd];
    try (split; reflexivity);
    destruct (condition df) as [cond|]; cbn [bind files logged fst snd];
    try (split; reflexivity);
    destruct (__collect_daily_top_posts parse (loc_mask df cond));
    cbn [bind files logged fst snd]; split; reflexivity.
Qed.

Lemma load_posts_program (self : Application.t) (env : Env) (posts_path : PathLike)
    (w : World) :
  files (fst (Application.load_posts self env posts_path w)) = files w /\
  snd (Application.load_posts self env posts_path w) = read_csv env (fspath posts_path).
Proof.
  unfold Application.load_posts, io_bind, Application.__log, from_env, fspath.
  destruct (Application.verbose self); split; reflexivity.
Qed.

(** X8. A run that cannot load its input, or whose analysis fails (a missing
    or mistyped column, a timestamp that is not a date), raises that failure
    and writes no file at all. *)
Theorem run_writes_nothing_on_failure (self : Application.t) (env : Env)
    (parse : string -> parsed) (order : list (string * dtype))
    (posts_path output_dir_path : PathLike) (fmt : string) (full lines : bool) (w : World) :
  let r := Application.run self env parse order posts_path output_dir_path fmt full lines w in
  (forall e, read_csv env (fspath posts_path) = Raised e ->
             files (fst r) = files w /\ snd r = Raised e) /\
  (forall df e, read_csv env (fspath posts_path) = Returned df ->
                analyze_posts parse order df = Raise e ->
                files (fst r) = files w /\ snd r = Raised (AnalysisError e)).
Proof.
  cbn zeta. unfold Application.run, io_bind.
  destruct (load_posts_program self env posts_path w) as [F1 O1].
  destruct (Application.load_posts self env posts_path w) as [w1 o1].
  cbn [fst snd] in F1, O1. subst o1. split.
  - intros e R. rewrite R. split; [exact F1 | reflexivity].
  - intros df e R A. rewrite R.
    destruct (analyze_posts_program self parse order df w1) as [F2 O2].
    destruct (Application.analyze_posts self parse order df w1) as [w2 o2].
    cbn [fst snd] in F2, O2. subst o2. rewrite A. cbn [fst snd].
    split; [rewrite F2; exact F1 | reflexivity].
Qed.

Lemma find_column_take (df : DataFrame) (ps : list nat) (name : string) :
  find_column name (df_columns (take df ps))
  = option_map (values_take ps) (find_column name (df_columns df)).
Proof.
  unfold take. simpl.
  induction (df_columns df) as [|[n v] cols IH]; simpl; [reflexivity|].
  destruct (String.eqb name n); [reflexivity | exact IH].
Qed.

(** After a successful analysis each of the three tables has an id column. *)
Lemma analysed_tables_have_ids (parse : string -> parsed) (order : list (string * dtype))
    (df top other daily : DataFrame) (full : bool) :
  Permutation order _VALID_COLUMNS ->
  analyze_posts parse order df = Ok (top, other, daily) ->
  exists pt po pd,
    payload_of full top = Ok pt /\ payload_of full other = Ok po /\
    payload_of full daily = Ok pd.
Proof.
  intros P H. apply analyze_posts_Ok in H. destruct H as [V [cond [_ [-> [-> D]]]]].
  pose proof (proj1 (validate_schema_valid order df P) V) as ok.
  destruct (column_ok_int64 df C_ID) as [xs F];
    [apply (valid_columns_ok df _ ok); simpl; tauto|].
  destruct (collect_daily_top_posts_take parse _ _ D) as [ps ->].
  unfold payload_of, getitem. destruct full; [repeat eexists|].
  rewrite find_column_take, !find_column_loc_mask, F. simpl. repeat eexists.
Qed.

Lemma read_file_filter (fs : list (string * Document)) (p q : string) :
  q <> p ->
  read_file (filter (fun f => negb (String.eqb (fst f) p)) fs) q = read_file fs q.
Proof.
  intros N. induction fs as [|[p' d] fs IH]; simpl; [reflexivity|].
  destruct (String.eqb p' p) eqn:E; simpl.
  - apply String.eqb_eq in E. subst p'.
    apply String.eqb_neq in N. rewrite N. exact IH.
  - rewrite IH. reflexivity.
Qed.

Lemma read_file_written (fs : list (string * Document)) (p q : string) (d : Document) :
  read_file ((p, d) :: filter (fun f => negb (String.eqb (fst f) p)) fs) q
  = if String.eqb q p then Some d else read_file fs q.
Proof.
  simpl. destruct (String.eqb q p) eqn:E; [reflexivity|].
  apply read_file_filter. apply String.eqb_neq. exact E.
Qed.

(** X9. For a format string of ASCII characters without a separator: a run
    whose input loads, whose analysis succeeds and whose three paths can be
    written to returns normally and leaves exactly three new files, named
    [top_posts.fmt], [other_posts.fmt] and [daily_top_posts.fmt] directly in
    the output directory, holding the three tables (all their columns, or
    their id column) as CSV when the format string case-folds to ["csv"] and
    as JSON for every other such format string.  Every other file is as it
    was.  (The world is keyed by path: two different paths stand for two
    different files, which holds of names in one directory.) *)
Theorem run_writes_three_files (self : Application.t) (env : Env)
    (parse : string -> parsed) (order : list (string * dtype))
    (posts_path output_dir_path : PathLike) (fmt : string) (full lines : bool) (w : World)
    (df top other daily : DataFrame) :
  let dir := as_path output_dir_path in
  let path_top := dir_prefix dir ++ _TOP_POSTS_FILE_NAME ++ "." ++ fmt in
  let path_other := dir_prefix dir ++ _OTHER_POSTS_FILE_NAME ++ "." ++ fmt in
  let path_daily := dir_prefix dir ++ _DAILY_TOP_POSTS_FILE_NAME ++ "." ++ fmt in
  isascii fmt = true ->
  no_sep fmt = true ->
  Permutation order _VALID_COLUMNS ->
  read_csv env (fspath posts_path) = Returned df ->
  analyze_posts parse order df = Ok (top, other, daily) ->
  write_error env path_top = None ->
  write_error env path_other = None ->
  write_error env path_daily = None ->
  let r := Application.run self env parse order posts_path output_dir_path fmt full lines w in
  snd r = Returned tt /\
  exists pt po pd,
    payload_of full top = Ok pt /\
    payload_of full other = Ok po /\
    payload_of full daily = Ok pd /\
    read_file (files (fst r)) path_top = Some (written fmt lines pt) /\
    read_file (files (fst r)) path_other = Some (written fmt lines po) /\
    read_file (files (fst r)) path_daily = Some (written fmt lines pd) /\
    (forall path, path <> path_top -> path <> path_other -> path <> path_daily ->
                  read_file (files (fst r)) path = read_file (files w) path).
Proof.
  intros dir path_top path_other path_daily _ Hf P R A Wt Wo Wd. cbn zeta.
  destruct (analysed_tables_have_ids parse order df top other daily full P A)
    as [pt [po [pd [Pt [Po Pd]]]]].
  destruct (output_paths_distinct dir fmt) as [Nto [Ntd Nod]].
  destruct (run_file_path dir _TOP_POSTS_FILE_NAME fmt) as [Et _];
    [simpl; tauto | exact Hf |].
  destruct (run_file_path dir _OTHER_POSTS_FILE_NAME fmt) as [Eo _];
    [simpl; tauto | exact Hf |].
  destruct (run_file_path dir _DAILY_TOP_POSTS_FILE_NAME fmt) as [Ed _];
    [simpl; tauto | exact Hf |].
  fold path_top in Et. fold path_other in Eo. fold path_daily in Ed.
  rewrite Et, Eo in Nto. rewrite Et, Ed in Ntd. rewrite Eo, Ed in Nod.
  unfold Application.run, io_bind.
  destruct (load_posts_program self env posts_path w) as [F1 O1].
  destruct (Application.load_posts self env posts_path w) as [w1 o1].
  cbn [fst snd] in F1, O1. subst o1. rewrite R.
  destruct (analyze_posts_program self parse order df w1) as [F2 O2].
  destruct (Application.analyze_posts self parse order df w1) as [w2 o2].
  cbn [fst snd] in F2, O2. subst o2. rewrite A.
  change (match output_dir_path with
          | AsStr s => Pathlib.Path s
          | AsPath p => p
          end) with dir.
  pose proof (write_df_result self env top dir _TOP_POSTS_FILE_NAME fmt full lines w2) as S3.
  cbn zeta in S3. rewrite Et, Pt, Wt in S3. destruct S3 as [F3 O3].
  destruct (Application.__write_df self env top dir _TOP_POSTS_FILE_NAME fmt full lines w2)
    as [w3 o3].
  cbn [fst snd] in F3, O3. subst o3.
  pose proof (write_df_result self env other dir _OTHER_POSTS_FILE_NAME fmt full lines w3) as S4.
  cbn zeta in S4. rewrite Eo, Po, Wo in S4. destruct S4 as [F4 O4].
  destruct (Application.__write_df self env other dir _OTHER_POSTS_FILE_NAME fmt full lines w3)
    as [w4 o4].
  cbn [fst snd] in F4, O4. subst o4.
  pose proof (write_df_result self env daily dir _DAILY_TOP_POSTS_FILE_NAME fmt full lines w4)
    as S5.
  cbn zeta in S5. rewrite Ed, Pd, Wd in S5. destruct S5 as [F5 O5].
  split; [exact O5|].
  exists pt, po, pd. split; [exact Pt|]. split; [exact Po|]. split; [exact Pd|].
  rewrite F5, F4, F3, F2, F1.
  assert (forall a b : string, a <> b -> String.eqb a b = false) as ne
    by (intros a b H; apply String.eqb_neq; exact H).
  repeat split.
  - rewrite !read_file_written, (ne _ _ Ntd), (ne _ _ Nto), String.eqb_refl. reflexivity.
  - rewrite !read_file_written, (ne _ _ Nod), String.eqb_refl. reflexivity.
  - rewrite read_file_written, String.eqb_refl. reflexivity.
  - intros path N1 N2 N3.
    rewrite !read_file_written, (ne _ _ N1), (ne _ _ N2), (ne _ _ N3). reflexivity.
Qed.

Lemma run_writes_three_files_witness :
  let env := sample_env "posts.csv" misaligned_posts "nowhere" in
  let r := Application.run (Application.__init__ true) env sample_parse _VALID_COLUMNS
             (AsStr "posts.csv") (AsStr "out/") "JSON" false true empty_world in
  exists top other daily,
    analyze_posts sample_parse _VALID_COLUMNS misaligned_posts = Ok (top, other, daily) /\
    snd r = Returned tt /\
    exists pt po pd,
      payload_of false top = Ok pt /\
      payload_of false other = Ok po /\
      payload_of false daily = Ok pd /\
      read_file (files (fst r)) "out/top_posts.JSON" = Some (written "JSON" true pt) /\
      read_file (files (fst r)) "out/other_posts.JSON" = Some (written "JSON" true po) /\
      read_file (files (fst r)) "out/daily_top_posts.JSON" = Some (written "JSON" true pd) /\
      (forall path, path <> "out/top_posts.JSON" -> path <> "out/other_posts.JSON" ->
                    path <> "out/daily_top_posts.JSON" ->
                    read_file (files (fst r)) path = read_file (files empty_world) path).
Proof.
  cbn zeta. eexists. eexists. eexists. split.
  - vm_compute. reflexivity.
  - apply (run_writes_three_files (Application.__init__ true)
             (sample_env "posts.csv" misaligned_posts "nowhere") sample_parse _VALID_COLUMNS
             (AsStr "posts.csv") (AsStr "out/") "JSON" false true empty_world
             misaligned_posts).
    + reflexivity.
    + reflexivity.
    + apply Permutation_refl.
    + reflexivity.
    + vm_compute. reflexivity.
    + reflexivity.
    + reflexivity.
    + reflexivity.
Defined.

(** X10. The three files are written one after the other.  When the first
    path can be written to and the second cannot, the run raises the error of
    the second write, the first file stays written and nothing else is: a
    failed run can leave part of its results behind. *)
Theorem run_stops_at_failed_write (self : Application.t) (env : Env)
    (parse : string -> parsed) (order : list (string * dtype))
    (posts_path output_dir_path : PathLike) (fmt : string) (full lines : bool) (w : World)
    (df top other daily : DataFrame) (what : string) :
  let dir := as_path output_dir_path in
  let path_top := _format_path dir _TOP_POSTS_FILE_NAME fmt in
  let path_other := _format_path dir _OTHER_POSTS_FILE_NAME fmt in
  Permutation order _VALID_COLUMNS ->
  read_csv env (fspath posts_path) = Returned df ->
  analyze_posts parse order df = Ok (top, other, daily) ->
  write_error env path_top = None ->
  write_error env path_other = Some what ->
  let r := Application.run self env parse order posts_path output_dir_path fmt full lines w in
  snd r = Raised (EnvironmentError what) /\
  exists pt,
    payload_of full top = Ok pt /\
    read_file (files (fst r)) path_top = Some (written fmt lines pt) /\
    (forall path, path <> path_top ->
                  read_file (files (fst r)) path = read_file (files w) path).
Proof.
  intros dir path_top path_other P R A Wt Wo. cbn zeta.
  destruct (analysed_tables_have_ids parse order df top other daily full P A)
    as [pt [po [pd [Pt [Po Pd]]]]].
  unfold Application.run, io_bind.
  destruct (load_posts_program self env posts_path w) as [F1 O1].
  destruct (Application.load_posts self env posts_path w) as [w1 o1].
  cbn [fst snd] in F1, O1. subst o1. rewrite R.
  destruct (analyze_posts_program self parse order df w1) as [F2 O2].
  destruct (Application.analyze_posts self parse order df w1) as [w2 o2].
  cbn [fst snd] in F2, O2. subst o2. rewrite A.
  change (match output_dir_path with
          | AsStr s => Pathlib.Path s
          | AsPath p => p
          end) with dir.
  pose proof (write_df_result self env top dir _TOP_POSTS_FILE_NAME fmt full lines w2) as S3.
  cbn zeta in S3. fold path_top in S3. rewrite Pt, Wt in S3. destruct S3 as [F3 O3].
  destruct (Application.__write_df self env top dir _TOP_POSTS_FILE_NAME fmt full lines w2)
    as [w3 o3].
  cbn [fst snd] in F3, O3. subst o3.
  pose proof (write_df_result self env other dir _OTHER_POSTS_FILE_NAME fmt full lines w3) as S4.
  cbn zeta in S4. fold path_other in S4. rewrite Po, Wo in S4. destruct S4 as [F4 O4].
  destruct (Application.__write_df self env other dir _OTHER_POSTS_FILE_NAME fmt full lines w3)
    as [w4 o4].
  cbn [fst snd] in F4, O4. subst o4. cbn [fst snd].
  split; [reflexivity|].
  exists pt. split; [exact Pt|]. rewrite F4, F3, F2, F1. split.
  - rewrite read_file_written, String.eqb_refl. reflexivity.
  - intros path N. rewrite read_file_written.
    apply String.eqb_neq in N. rewrite N. reflexivity.
Qed.

Lemma run_stops_at_failed_write_witness :
  let env := sample_env "posts.csv" misaligned_posts "out/other_posts.csv" in
  let r := Application.run (Application.__init__ false) env sample_parse _VALID_COLUMNS
             (AsStr "posts.csv") (AsStr "out") "csv" true true empty_world in
  exists top other daily,
    analyze_posts sample_parse _VALID_COLUMNS misaligned_posts = Ok (top, other, daily) /\
    snd r = Raised (EnvironmentError "Permission denied") /\
    exists pt,
      payload_of true top = Ok pt /\
      read_file (files (fst r)) "out/top_posts.csv" = Some (written "csv" true pt) /\
      (forall path, path <> "out/top_posts.csv" ->
                    read_file (files (fst r)) path = read_file (files empty_world) path).
Proof.
  cbn zeta. eexists. eexists. eexists. split.
  - vm_compute. reflexivity.
  - eapply (run_stops_at_failed_write (Application.__init__ false)
             (sample_env "posts.csv" misaligned_posts "out/other_posts.csv")
             sample_parse _VALID_COLUMNS
             (AsStr "posts.csv") (AsStr "out") "csv" true true empty_world
             misaligned_posts _ _ _ "Permission denied").
    + apply Permutation_refl.
    + reflexivity.
    + vm_compute. reflexivity.
    + reflexivity.
    + reflexivity.
Defined.

(** ** Logging *)

Lemma same_effect_bind {A B : Type} (p q : program A) (k k' : A -> program B) :
  same_effect p q -> (forall a, same_effect (k a) (k' a)) ->
  same_effect (io_bind p k) (io_bind q k').
Proof.
  intros Hp Hk w w' F. unfold io_bind. destruct (Hp w w' F) as [F1 O1].
  destruct (p w) as [w1 o1], (q w') as [w1' o1']. cbn [fst snd] in F1, O1. subst o1'.
  destruct o1 as [a|e]; [apply (Hk a w1 w1' F1) | split; [exact F1 | reflexivity]].
Qed.

Lemma silent_bind {A B : Type} (p : program A) (k : A -> program B) :
  silent p -> (forall a, silent (k a)) -> silent (io_bind p k).
Proof.
  intros Hp Hk w. unfold io_bind. specialize (Hp w).
  destruct (p w) as [w1 [a|e]]; cbn [fst] in *; [rewrite (Hk a w1)|]; exact Hp.
Qed.

Lemma silent_log (self : Application.t) (level : Z) (msg : string) :
  Application.verbose self = false -> silent (Application.__log self level msg).
Proof. intros V w. unfold Application.__log. rewrite V. reflexivity. Qed.

Lemma silent_lift {A : Type} (r : result A) : silent (lift r).
Proof. intros w. unfold lift. destruct r; reflexivity. Qed.

Lemma silent_ret {A : Type} (a : A) : silent (ret a).
Proof. intros w. reflexivity. Qed.

Lemma silent_write_file (env : Env) (path : string) (doc : Document) :
  silent (write_file env path doc).
Proof. intros w. unfold write_file. destruct (write_error env path); reflexivity. Qed.

Lemma silent_write_df (self : Application.t) (env : Env) (df : DataFrame)
    (dir : Pathlib.PurePath) (name fmt : string) (full lines : bool) :
  Application.verbose self = false ->
  silent (Application.__write_df self env df dir name fmt full lines).
Proof.
  intros V. unfold Application.__write_df.
  apply silent_bind.
  - destruct full; cbn [negb]; [apply silent_ret|].
    apply silent_bind; [apply silent_log; exact V|]. intros _.
    apply silent_bind; [apply silent_lift|]. intros v. apply silent_ret.
  - intros payload. apply silent_bind; [apply silent_log; exact V|]. intros _.
    cbn zeta. apply silent_bind; [apply silent_log; exact V|]. intros _.
    destruct (casefold fmt =? DEFAULT_OUTPUT_FORMAT)%string; [apply silent_write_file|].
    apply silent_bind; [destruct lines; apply silent_log; exact V|]. intros _.
    apply silent_write_file.
Qed.

Lemma silent_run (self : Application.t) (env : Env) (parse : string -> parsed)
    (order : list (string * dtype)) (posts_path output_dir_path : PathLike) (fmt : string)
    (full lines : bool) :
  Application.verbose self = false ->
  silent (Application.run self env parse order posts_path output_dir_path fmt full lines).
Proof.
  intros V. unfold Application.run.
  apply silent_bind.
  { unfold Application.load_posts. apply silent_bind; [apply silent_log; exact V|].
    intros _ w. reflexivity. }
  intros df. apply silent_bind.
  { unfold Application.analyze_posts, Application.validate_schema,
      Application.__collect_daily_top_posts.
    apply silent_bind.
    { apply silent_bind; [apply silent_log; exact V | intros _; apply silent_lift]. }
    intros _. apply silent_bind; [apply silent_lift|]. intros cond. cbn zeta.
    apply silent_bind; [|intros d; apply silent_ret].
    apply silent_bind; [apply silent_log; exact V | intros _; apply silent_lift]. }
  intros [[top other] daily].
  apply silent_bind; [apply silent_write_df; exact V|]. intros _.
  apply silent_bind; [apply silent_write_df; exact V|]. intros _.
  apply silent_write_df; exact V.
Qed.

Lemma same_effect_write_df (self self' : Application.t) (env : Env) (df : DataFrame)
    (dir : Pathlib.PurePath) (name fmt : string) (full lines : bool) :
  same_effect (Application.__write_df self env df dir name fmt full lines)
              (Application.__write_df self' env df dir name fmt full lines).
Proof.
  intros w w' F.
  pose proof (write_df_result self env df dir name fmt full lines w) as H.
  pose proof (write_df_result self' env df dir name fmt full lines w') as H'.
  cbn zeta in H, H'.
  destruct (payload_of full df) as [p|e].
  - destruct (write_error env (_format_path dir name fmt)).
    + destruct H as [-> ->], H' as [-> ->]. split; [exact F | reflexivity].
    + destruct H as [-> ->], H' as [-> ->]. rewrite F. split; reflexivity.
  - destruct H as [-> ->], H' as [-> ->]. split; [exact F | reflexivity].
Qed.

Lemma same_effect_run (self self' : Application.t) (env : Env) (parse : string -> parsed)
    (order : list (string * dtype)) (posts_path output_dir_path : PathLike) (fmt : string)
    (full lines : bool) :
  same_effect
    (Application.run self env parse order posts_path output_dir_path fmt full lines)
    (Application.run self' env parse order posts_path output_dir_path fmt full lines).
Proof.
  unfold Application.run. apply same_effect_bind.
  { intros w w' F.
    destruct (load_posts_program self env posts_path w) as [-> ->].
    destruct (load_posts_program self' env posts_path w') as [-> ->].
    split; [exact F | reflexivity]. }
  intros df. apply same_effect_bind.
  { intros w w' F.
    destruct (analyze_posts_program self parse order df w) as [-> ->].
    destruct (analyze_posts_program self' parse order df w') as [-> ->].
    split; [exact F | reflexivity]. }
  intros [[top other] daily].
  apply same_effect_bind; [apply same_effect_write_df|]. intros _.
  apply same_effect_bind; [apply same_effect_write_df|]. intros _.
  apply same_effect_write_df.
Qed.

(** X11. The verbose flag decides whether [logging.log] is called and
    nothing else: two runs that differ in the flag only write the same files
    and end the same way, and a run that is not verbose logs nothing. *)
Theorem verbose_only_logs (self self' : Application.t) (env : Env)
    (parse : string -> parsed) (order : list (string * dtype))
    (posts_path output_dir_path : PathLike) (fmt : string) (full lines : bool) (w : World) :
  let r := Application.run self env parse order posts_path output_dir_path fmt full lines w in
  let r' := Application.run self' env parse order posts_path output_dir_path fmt full lines w in
  files (fst r) = files (fst r') /\
  snd r = snd r' /\
  (Application.verbose self = false -> logged (fst r) = logged w).
Proof.
  cbn zeta.
  destruct (same_effect_run self self' env parse order posts_path output_dir_path fmt
              full lines w w eq_refl) as [F O].
  split; [exact F|]. split; [exact O|].
  intros V. apply (silent_run self env parse order posts_path output_dir_path fmt full lines V).
Qed.

(** ** The output format *)

Lemma write_df_csv_ignores_lines (self : Application.t) (env : Env) (df : DataFrame)
    (dir : Pathlib.PurePath) (name fmt : string) (full lines lines' : bool) :
  casefold fmt = DEFAULT_OUTPUT_FORMAT ->
  forall w,
    Application.__write_df self env df dir name fmt full lines w =
    Application.__write_df self env df dir name fmt full lines' w.
Proof.
  intros C w. unfold Application.__write_df. rewrite C. reflexivity.
Qed.

(** X12. The format is compared after case folding: for an output format
    that folds to "csv" (such as "CSV") the flag json_record_per_line is
    ignored, a run with the flag set and a run without it log, write and end
    alike. *)
Theorem csv_ignores_json_record_per_line (self : Application.t) (env : Env)
    (parse : string -> parsed) (order : list (string * dtype))
    (posts_path output_dir_path : PathLike) (fmt : string) (full lines lines' : bool)
    (w : World) :
  casefold fmt = DEFAULT_OUTPUT_FORMAT ->
  Application.run self env parse order posts_path output_dir_path fmt full lines w =
  Application.run self env parse order posts_path output_dir_path fmt full lines' w.
Proof.
  intros C. unfold Application.run, io_bind.
  destruct (Application.load_posts self env posts_path w) as [w1 [df|e]]; [|reflexivity].
  destruct (Application.analyze_posts self parse order df w1) as [w2 [[[top other] daily]|e]];
    [|reflexivity].
  rewrite (write_df_csv_ignores_lines self env top _ _ fmt full lines lines' C w2).
  destruct (Application.__write_df self env top _ _ fmt full lines' w2) as [w3 [u|e]];
    [|reflexivity].
  rewrite (write_df_csv_ignores_lines self env other _ _ fmt full lines lines' C w3).
  destruct (Application.__write_df self env other _ _ fmt full lines' w3) as [w4 [u'|e]];
    [|reflexivity].
  apply (write_df_csv_ignores_lines self env daily _ _ fmt full lines lines' C w4).
Qed.

Lemma csv_ignores_json_record_per_line_witness :
  casefold "CSV" = DEFAULT_OUTPUT_FORMAT /\
  Application.run (Application.__init__ true) (sample_env "posts.csv" sample_posts "")
    sample_parse _VALID_COLUMNS (AsStr "posts.csv") (AsStr "out") "CSV" false true
    empty_world =
  Application.run (Application.__init__ true) (sample_env "posts.csv" sample_posts "")
    sample_parse _VALID_COLUMNS (AsStr "posts.csv") (AsStr "out") "CSV" false false
    empty_world.
Proof.
  split; [reflexivity|].
  apply (csv_ignores_json_record_per_line (Application.__init__ true)
           (sample_env "posts.csv" sample_posts "") sample_parse _VALID_COLUMNS
           (AsStr "posts.csv") (AsStr "out") "CSV" false true false empty_world).
  reflexivity.
Defined.

(** * Extra columns and timestamps *)

(** ** Every column is carried through the classification *)

(** The field of a row under a column name is the cell of that column at
    the position of the row. *)
Lemma field_at (df : DataFrame) (name : string) (v : values) (p : nat) (r : Row) :
  wf_frame df ->
  find_column name (df_columns df) = Some v ->
  nth_error (rows df) p = Some r ->
  exists c, nth_error (cells v) p = Some c /\ field r name = Some c.
Proof.
  intros W F H.
  pose proof (f_equal (fun l => nth_error l p) (column_fields df name v W F)) as E.
  cbn beta in E. rewrite !nth_error_map, H in E. cbn [option_map] in E.
  destruct (nth_error (cells v) p) as [c|]; [|discriminate E].
  injection E as E. exists c. split; [reflexivity | exact E].
Qed.

(** C8. A table that has the seven required columns with the required dtypes
    is accepted by the validation, whatever other columns it has; and the
    classification carries every column of the table, required or not, into
    the two partitions.  The partitions have the table's column names and
    dtypes.  A row holds a field for every column of the table, the cell of
    that column at the row's position.  The rows of the top partition are the
    rows of the table that are top posts, those of the other partition are
    the remaining rows, each with its label and all its fields: every row of
    the table is in exactly one of the two.  And each column of a partition,
    extra ones included, holds cell by cell what the partition's rows hold
    under that name in the table. *)
Theorem extra_columns_pass_through (parse : string -> parsed) (order : list (string * dtype))
    (df : DataFrame) :
  wf_frame df ->
  Permutation order _VALID_COLUMNS ->
  Forall (column_ok df) _VALID_COLUMNS ->
  validate_schema order df = Ok tt /\
  exists cond,
    condition df = Ok cond /\
    (forall top other daily,
        analyze_posts parse order df = Ok (top, other, daily) ->
        top = loc_mask df cond /\ other = loc_mask df (invert cond)) /\
    schema (loc_mask df cond) = schema df /\
    schema (loc_mask df (invert cond)) = schema df /\
    (forall name v, In (name, v) (df_columns df) ->
        In (name, values_mask cond v) (df_columns (loc_mask df cond)) /\
        In (name, values_mask (invert cond) v) (df_columns (loc_mask df (invert cond)))) /\
    (forall r, In r (rows (loc_mask df cond)) -> In r (rows df)) /\
    (forall r, In r (rows (loc_mask df (invert cond))) -> In r (rows df)) /\
    rows (loc_mask df cond) = filter is_top (rows df) /\
    rows (loc_mask df (invert cond)) = filter (fun r => negb (is_top r)) (rows df) /\
    (forall r, In r (rows df) ->
        (In r (rows (loc_mask df cond)) /\ ~ In r (rows (loc_mask df (invert cond)))) \/
        (In r (rows (loc_mask df (invert cond))) /\ ~ In r (rows (loc_mask df cond)))) /\
    (forall name v p r,
        find_column name (df_columns df) = Some v ->
        nth_error (rows df) p = Some r ->
        exists c, nth_error (cells v) p = Some c /\ field r name = Some c) /\
    (forall name v,
        find_column name (df_columns df) = Some v ->
        exists vt vo,
          find_column name (df_columns (loc_mask df cond)) = Some vt /\
          find_column name (df_columns (loc_mask df (invert cond))) = Some vo /\
          map Some (cells vt) = map (fun r => field r name) (filter is_top (rows df)) /\
          map Some (cells vo)
          = map (fun r => field r name) (filter (fun r => negb (is_top r)) (rows df))).
Proof.
  intros W P V. split; [apply (validate_schema_valid order df P); exact V|].
  exists (map is_top (rows df)).
  pose proof (condition_rows df W V) as C.
  assert (rows (loc_mask df (map is_top (rows df))) = filter is_top (rows df)) as Rt
    by (rewrite rows_loc_mask; apply mask_filter_self).
  assert (rows (loc_mask df (invert (map is_top (rows df))))
          = filter (fun r => negb (is_top r)) (rows df)) as Ro
    by (rewrite rows_loc_mask; apply mask_filter_invert_self).
  split; [exact C|].
  split.
  { intros top other daily H. apply analyze_posts_Ok in H.
    destruct H as [_ [cond [C' [-> [-> _]]]]].
    rewrite C in C'. injection C' as <-. split; reflexivity. }
  split; [apply schema_loc_mask|].
  split; [apply schema_loc_mask|].
  split.
  { intros name v I. unfold loc_mask. simpl. split.
    - apply (in_map (fun c => (fst c, values_mask (map is_top (rows df)) (snd c))) _ _ I).
    - apply (in_map (fun c => (fst c, values_mask (invert (map is_top (rows df))) (snd c))) _ _ I). }
  split; [intros r I; rewrite Rt in I; apply filter_In in I; apply I|].
  split; [intros r I; rewrite Ro in I; apply filter_In in I; apply I|].
  split; [exact Rt|]. split; [exact Ro|].
  split.
  { intros r I. rewrite Rt, Ro. destruct (is_top r) eqn:T; [left | right]; split.
    - apply filter_In. split; [exact I | exact T].
    - intros I'. apply filter_In in I'. destruct I' as [_ I']. rewrite T in I'. discriminate I'.
    - apply filter_In. split; [exact I | rewrite T; reflexivity].
    - intros I'. apply filter_In in I'. destruct I' as [_ I']. rewrite T in I'. discriminate I'. }
  split; [intros name v p r F H; apply (field_at df name v p r W F H)|].
  intros name v F.
  exists (values_mask (map is_top (rows df)) v),
         (values_mask (invert (map is_top (rows df))) v).
  assert (forall m, find_column name (df_columns (loc_mask df m)) = Some (values_mask m v)) as Fm
    by (intros m; rewrite find_column_loc_mask, F; reflexivity).
  split; [apply Fm|]. split; [apply Fm|]. split.
  - rewrite <- Rt. symmetry.
    apply (column_fields _ name _ (wf_frame_loc_mask df _ W) (Fm _)).
  - rewrite <- Ro. symmetry.
    apply (column_fields _ name _ (wf_frame_loc_mask df _ W) (Fm _)).
Qed.

Lemma extra_columns_pass_through_witness :
  validate_schema _VALID_COLUMNS sample_posts_author = Ok tt /\
  (exists top other daily,
      analyze_posts sample_parse _VALID_COLUMNS sample_posts_author = Ok (top, other, daily) /\
      map (fun r => field r "author") (rows top)
      = [Some (CObj (PyStr "bob")); Some (CObj PyNaN)] /\
      map (fun r => field r "author") (rows other)
      = [Some (CObj (PyStr "ann")); Some (CObj (PyStr "dan")); Some (CObj (PyStr "eve"))] /\
      find_column "author" (df_columns top) = Some (ObjectValues [PyStr "bob"; PyNaN]) /\
      find_column "author" (df_columns other)
      = Some (ObjectValues [PyStr "ann"; PyStr "dan"; PyStr "eve"])) /\
  exists cond,
    condition sample_posts_author = Ok cond /\
    rows (loc_mask sample_posts_author cond) = filter is_top (rows sample_posts_author) /\
    rows (loc_mask sample_posts_author (invert cond))
    = filter (fun r => negb (is_top r)) (rows sample_posts_author).
Proof.
  destruct (extra_columns_pass_through sample_parse _VALID_COLUMNS sample_posts_author
              sample_posts_author_wf (Permutation_refl _)
              (column_okb_all sample_posts_author _VALID_COLUMNS eq_refl))
    as [V [cond [C [_ [_ [_ [_ [_ [_ [Rt [Ro _]]]]]]]]]]].
  split; [exact V|]. split.
  - eexists. eexists. eexists. split; [vm_compute; reflexivity|].
    vm_compute. repeat split.
  - exists cond. split; [exact C|]. split; [exact Rt | exact Ro].
Defined.

(** ** Timestamps that are not dates *)

(** Among the strings the parser rejects there is a first one. *)
Lemma first_rejected (parse : string -> parsed) (ts : list pyobj) (s : string) :
  In (PyStr s) ts ->
  parse s = Unparseable ->
  exists pre s' post,
    ts = (pre ++ PyStr s' :: post)%list /\
    (forall s0, In (PyStr s0) pre -> parse s0 <> Unparseable) /\
    parse s' = Unparseable.
Proof.
  induction ts as [|o ts IH]; intros I U; [contradiction|].
  assert (forall s0, o = PyStr s0 -> parse s0 <> Unparseable ->
            exists pre s' post,
              (o :: ts = pre ++ PyStr s' :: post)%list /\
              (forall s1, In (PyStr s1) pre -> parse s1 <> Unparseable) /\
              parse s' = Unparseable) as accepted.
  { intros s0 -> A.
    destruct I as [I | I]; [injection I as ->; contradiction|].
    destruct (IH I U) as [pre [s' [post [-> [Hpre U']]]]].
    exists (PyStr s0 :: pre), s', post. split; [reflexivity|]. split; [|exact U'].
    intros s1 [E | I1]; [injection E as <-; exact A | apply Hpre; exact I1]. }
  destruct o as [s0|].
  - destruct (parse s0) eqn:E.
    + apply (accepted s0 eq_refl). rewrite E. discriminate.
    + apply (accepted s0 eq_refl). rewrite E. discriminate.
    + exists [], s0, ts. split; [reflexivity|]. split; [intros s1 []| exact E].
  - destruct I as [I | I]; [discriminate I|].
    destruct (IH I U) as [pre [s' [post [-> [Hpre U']]]]].
    exists (PyNaN :: pre), s', post. split; [reflexivity|]. split; [|exact U'].
    intros s1 [E | I1]; [discriminate E | apply Hpre; exact I1].
Qed.

(** [to_datetime] raises the error of the first string the parser rejects. *)
Lemma to_datetime_first_rejected (parse : string -> parsed) (pre post : list pyobj)
    (s : string) :
  (forall s0, In (PyStr s0) pre -> parse s0 <> Unparseable) ->
  parse s = Unparseable ->
  to_datetime parse (ObjectValues (pre ++ PyStr s :: post)) = Raise (ParserError s).
Proof.
  intros Hpre U. cbn [to_datetime]. induction pre as [|o pre IH]; cbn [app traverse].
  - rewrite U. reflexivity.
  - rewrite IH by (intros s0 I; apply Hpre; right; exact I).
    destruct o as [s0|]; [|reflexivity].
    specialize (Hpre s0 (or_introl eq_refl)).
    destruct (parse s0); [reflexivity | reflexivity | contradiction].
Qed.

(** C6, as the code has it.  Take a validated table for which [reset_index]
    has a free name for the column it inserts (the table does not have both a
    column ["index"] and a column ["level_0"]).  When the parser rejects the
    timestamp of at least one row of the top partition, the daily aggregation
    raises the parser's error for the first such row, and this error is the
    failure of [analyze_posts]: no row is left out or given a date.  A
    timestamp that is missing, or that the parser reads as NaT, raises
    nothing: whenever the analysis returns, a top row without a day is in no
    group and is left out of the daily top posts; and the analysis does
    return when the parser rejects no timestamp of the top partition and the
    top rows carry the labels 0, 1, ... *)
Theorem unparseable_timestamp_raises (parse : string -> parsed)
    (order : list (string * dtype)) (df : DataFrame) (cond : list bool) (ts : list pyobj) :
  wf_frame df ->
  Permutation order _VALID_COLUMNS ->
  validate_schema order df = Ok tt ->
  condition df = Ok cond ->
  no_index_clash df ->
  getitem (loc_mask df cond) C_TIMESTAMP = Ok (ObjectValues ts) ->
  (forall s, In (PyStr s) ts -> parse s = Unparseable ->
     exists pre s' post,
       ts = (pre ++ PyStr s' :: post)%list /\
       (forall s0, In (PyStr s0) pre -> parse s0 <> Unparseable) /\
       parse s' = Unparseable /\
       __collect_daily_top_posts parse (loc_mask df cond) = Raise (ParserError s') /\
       analyze_posts parse order df = Raise (ParserError s')) /\
  (forall top other daily,
     analyze_posts parse order df = Ok (top, other, daily) ->
     top = loc_mask df cond /\
     forall r, In r (rows top) -> row_day parse r = None -> ~ In r (rows daily)) /\
  ((forall s, In (PyStr s) ts -> parse s <> Unparseable) ->
   df_index (loc_mask df cond) = RangeIndex (nrows (loc_mask df cond)) ->
   exists daily,
     analyze_posts parse order df = Ok (loc_mask df cond, loc_mask df (invert cond), daily)).
Proof.
  intros W P V C N G.
  pose proof (wf_frame_loc_mask df cond W) as W'.
  pose proof (no_index_clash_loc_mask df cond N) as N'.
  pose proof (proj1 (validate_schema_valid order df P) V) as ok.
  assert (find_column C_TIMESTAMP (df_columns (loc_mask df cond)) = Some (ObjectValues ts))
    as Ft.
  { unfold getitem in G.
    destruct (find_column C_TIMESTAMP (df_columns (loc_mask df cond))) as [v|];
      [injection G as ->; reflexivity | discriminate G]. }
  destruct (column_ok_int64 df C_LIKES) as [ls Fl];
    [apply (valid_columns_ok df _ ok); simpl; tauto|].
  pose proof (find_column_loc_mask df cond C_LIKES) as Fl'. rewrite Fl in Fl'.
  change (option_map (values_mask cond) (Some (Int64Values ls)))
    with (Some (Int64Values (mask_filter cond ls))) in Fl'.
  split; [|split].
  - intros s I U.
    destruct (first_rejected parse ts s I U) as [pre [s' [post [E [Hpre U']]]]].
    exists pre, s', post. split; [exact E|]. split; [exact Hpre|]. split; [exact U'|].
    assert (__collect_daily_top_posts parse (loc_mask df cond) = Raise (ParserError s')) as D.
    { unfold __collect_daily_top_posts.
      destruct (reset_index_Ok (loc_mask df cond) N') as [name [_ ->]].
      cbn [bind]. rewrite G. cbn [bind].
      rewrite E, (to_datetime_first_rejected parse pre post s' Hpre U'). reflexivity. }
    split; [exact D|].
    unfold analyze_posts. rewrite V, C. cbn [bind]. rewrite D. reflexivity.
  - intros top other daily H. apply analyze_posts_Ok in H.
    destruct H as [_ [cond' [C' [-> [_ D]]]]].
    rewrite C in C'. injection C' as <-. split; [reflexivity|].
    intros r _ Hday I.
    destruct (collect_daily_top_posts_days parse _ daily _ _ W' Ft Fl' D) as [keys [_ F]].
    destruct (Forall2_In_r _ _ _ _ F I) as [k [_ [_ Dr]]].
    rewrite Hday in Dr. discriminate Dr.
  - intros Hts A.
    destruct (collect_daily_top_posts_returns parse (loc_mask df cond) ts
                (mask_filter cond ls) W' A N' Ft Fl' Hts) as [daily D].
    exists daily. unfold analyze_posts. rewrite V, C. cbn [bind]. rewrite D. reflexivity.
Qed.

Lemma unparseable_timestamp_raises_witness :
  analyze_posts sample_parse _VALID_COLUMNS two_undated_posts
  = Raise (ParserError "first bad") /\
  exists top other daily,
    analyze_posts sample_parse _VALID_COLUMNS missing_timestamp_posts
    = Ok (top, other, daily) /\
    map (fun r => field r "id") (rows top) = [Some (CInt 1); Some (CInt 2); Some (CInt 3)] /\
    map (row_day sample_parse) (rows top) = [Some 16724; None; None] /\
    (forall r, In r (rows top) -> row_day sample_parse r = None -> ~ In r (rows daily)).
Proof.
  split.
  - destruct (unparseable_timestamp_raises sample_parse _VALID_COLUMNS two_undated_posts
                [false; true; true; true]
                [PyStr "2015-10-16 08:00:00"; PyStr "first bad"; PyStr "second bad"])
      as [raises _].
    + apply posts_table_wf; reflexivity.
    + apply Permutation_refl.
    + reflexivity.
    + reflexivity.
    + reflexivity.
    + reflexivity.
    + destruct (raises "second bad") as [pre [s' [post [E [Hpre [U [_ R]]]]]]].
      * right. right. left. reflexivity.
      * reflexivity.
      * destruct pre as [|o pre].
        { injection E as E _. rewrite <- E in U. discriminate U. }
        destruct pre as [|o' pre].
        { injection E as _ E _. rewrite <- E in R. exact R. }
        exfalso. injection E as _ E1 E. apply (Hpre "first bad").
        { right. left. symmetry. exact E1. }
        reflexivity.
  - destruct (unparseable_timestamp_raises sample_parse _VALID_COLUMNS missing_timestamp_posts
                [true; true; true]
                [PyStr "2015-10-16 08:00:00"; PyNaN; PyStr ""])
      as [_ [skipped returns]].
    + apply posts_table_wf; reflexivity.
    + apply Permutation_refl.
    + reflexivity.
    + reflexivity.
    + reflexivity.
    + reflexivity.
    + destruct returns as [daily R].
      * intros s [E | [E | [E | []]]]; try discriminate E; injection E as <-; discriminate.
      * reflexivity.
      * exists (loc_mask missing_timestamp_posts [true; true; true]),
               (loc_mask missing_timestamp_posts (invert [true; true; true])), daily.
        split; [exact R|]. split; [reflexivity|]. split; [reflexivity|].
        apply (skipped _ _ _ R).
Defined.

(** A missing timestamp in the top partition is no error either: the claim
    read with "cannot be parsed" covering missing values fails as well. *)
Lemma missing_timestamp_not_an_error :
  ~ (forall parse order df cond ts,
        wf_frame df ->
        Permutation order _VALID_COLUMNS ->
        validate_schema order df = Ok tt ->
        condition df = Ok cond ->
        no_index_clash df ->
        getitem (loc_mask df cond) C_TIMESTAMP = Ok (ObjectValues ts) ->
        In PyNaN ts ->
        exists e, analyze_posts parse order df = Raise e).
Proof.
  intros claim.
  destruct (claim sample_parse _VALID_COLUMNS missing_timestamp_posts [true; true; true]
              [PyStr "2015-10-16 08:00:00"; PyNaN; PyStr ""]) as [e R].
  - apply posts_table_wf; reflexivity.
  - apply Permutation_refl.
  - reflexivity.
  - reflexivity.
  - reflexivity.
  - reflexivity.
  - right. left. reflexivity.
  - vm_compute in R. discriminate R.
Qed.
